(** * Photo management server: lifecycle, listing, upload and download handlers

    A shallow embedding of the Express/SQLite handlers of [server.js]:
    the relational tables are lists of rows, every handler is a computation
    in a small state monad over the database and the sequence of
    observable effects (SQL statements issued, headers, responses), and
    request data keeps the shape it has in the source (path parameters are
    strings, query parameters are optional strings). *)

From Stdlib Require Import ZArith List String Ascii Bool Lia QArith Qround.
From Stdlib Require Import DecimalString.
Import ListNotations.

Local Open Scope string_scope.
Local Open Scope list_scope.
Local Open Scope Z_scope.

(** ** SQLite value model *)

Module Sql.

(** Values bound to [?] placeholders.  The driver binds a JS number as
    INTEGER, a JS string as TEXT and [null]/[undefined] as NULL. *)
Inductive sqlval :=
| VInt (n : Z)
| VText (s : string)
| VNull.

Definition is_digit (c : ascii) : bool :=
  let n := nat_of_ascii c in (48 <=? n)%nat && (n <=? 57)%nat.

Definition digit_val (c : ascii) : Z := Z.of_nat (nat_of_ascii c) - 48.

Definition is_space (c : ascii) : bool :=
  let n := nat_of_ascii c in
  (n =? 32)%nat || ((9 <=? n)%nat && (n <=? 13)%nat).

Fixpoint skip_spaces (s : string) : string :=
  match s with
  | String c r => if is_space c then skip_spaces r else s
  | EmptyString => s
  end.

(** Reads a run of decimal digits; the boolean tells whether at least one
    digit was consumed. *)
Fixpoint read_digits (s : string) (seen : bool) (acc : Z) : bool * Z * string :=
  match s with
  | String c r =>
      if is_digit c then read_digits r true (10 * acc + digit_val c)
      else (seen, acc, s)
  | EmptyString => (seen, acc, s)
  end.

(** Numeric affinity applied to a TEXT operand that is compared with an
    INTEGER column: optional blanks, an optional sign, decimal digits
    (leading zeros allowed), optional blanks.  SQLite also converts texts
    with a fraction or an exponent (['1.0'], ['1e0']); those forms are not
    recognised here and count as not matching. *)
Definition int_of_text (s : string) : option Z :=
  let s1 := skip_spaces s in
  let '(neg, s2) :=
    match s1 with
    | String "-" r => (true, r)
    | String "+" r => (false, r)
    | _ => (false, s1)
    end in
  let '(seen, n, rest) := read_digits s2 false 0 in
  if seen then
    match skip_spaces rest with
    | EmptyString => Some (if neg then - n else n)
    | _ => None
    end
  else None.

(** [col = ?] for a column of INTEGER affinity (every [id], [user_id] and
    [merchant_id]): SQLite applies numeric affinity to an operand without
    affinity before it compares, so a TEXT parameter that reads as the
    column's integer matches. *)
Definition int_col_eq (col : Z) (v : sqlval) : bool :=
  match v with
  | VInt n => col =? n
  | VText s => match int_of_text s with Some n => col =? n | None => false end
  | VNull => false
  end.

(** [col = ?], [col >= ?], [col <= ?] for a TEXT column and a TEXT
    operand (BINARY collation: byte-wise comparison).  [None] for operand
    types the handlers never bind to a TEXT column. *)
Definition text_col_eq (col : string) (v : sqlval) : option bool :=
  match v with
  | VText s => Some (String.eqb col s)
  | VNull => Some false
  | VInt _ => None
  end.

Definition text_col_ge (col : string) (v : sqlval) : option bool :=
  match v with
  | VText s => Some (String.leb s col)
  | VNull => Some false
  | VInt _ => None
  end.

Definition text_col_le (col : string) (v : sqlval) : option bool :=
  match v with
  | VText s => Some (String.leb col s)
  | VNull => Some false
  | VInt _ => None
  end.

End Sql.
Import Sql.

(** ** Tables *)

Inductive role := admin | sub_admin | merchant | customer.

(** [users.status] carries [CHECK (status IN ('active', 'disabled'))]. *)
Inductive user_status := active | disabled.

Definition role_eqb (a b : role) : bool :=
  match a, b with
  | admin, admin | sub_admin, sub_admin
  | merchant, merchant | customer, customer => true
  | _, _ => false
  end.

Record user := mkUser {
  u_id : Z;
  u_username : string;
  u_role : role;
  u_status : user_status;
  u_disable_reason : option string
}.

Record file_upload := mkFile {
  fu_id : Z;
  fu_user_id : Z;
  fu_merchant_id : Z;
  fu_original_name : string;
  fu_file_name : string;
  fu_file_path : string;
  fu_file_size : Z;
  fu_file_type : string;
  fu_mime_type : string;
  fu_remarks : option string;
  fu_upload_time : string;
  fu_status : string;
  fu_process_status : string;
  fu_edit_count : option Z;
  fu_last_edit_time : option string
}.

Record download_row := mkDownload {
  ds_file_id : Z;
  ds_merchant_id : Z;
  ds_download_type : string;
  ds_status : string;
  ds_download_time : string;
  ds_file_path : option string;
  ds_error_message : option string
}.

(** Operation codes passed to [logOperation]. *)
Inductive operation :=
| op_edit_remarks | op_delete_file | op_restore_file | op_upload
| op_disable_user | op_enable_user
| op_download | op_batch_download | op_batch_download_selected.

(** A row of [operation_logs]; the free-text details column is left out. *)
Record log_row := mkLog {
  ol_user_id : Z;
  ol_operation : operation;
  ol_timestamp : string
}.

Record db := mkDb {
  users : list user;
  file_uploads : list file_upload;
  download_status : list download_row;
  operation_logs : list log_row
}.

(** ** Requests, responses and effects *)

(** The verified principal the token middleware stores in [req.user]. *)
Record principal := mkPrincipal { p_id : Z; p_role : role }.

Inductive error_msg :=
| err_file_not_found          (* 404 on a missing row or a missing file *)
| err_deleted_no_edit         (* remarks of a deleted file cannot be edited *)
| err_edit_limit              (* the 10 edits are used up *)
| err_already_deleted
| err_not_deleted
| err_reason_required
| err_main_admin
| err_user_not_found
| err_customers_only
| err_missing_params
| err_choose_merchant
| err_choose_files
| err_merchant_missing
| err_merchant_disabled
| err_image_count
| err_image_size
| err_multer_file_size
| err_multer_file_count
| err_multer_unexpected_file
| err_file_type
| err_no_token
| err_bad_token
| err_forbidden
| err_no_photo_ids
| err_bad_photo_ids
| err_select_photos
| err_no_photos
| err_no_usable_files
| err_zip_failed
| err_customer_missing
| err_customer_disabled
| err_server.

Inductive table := t_users | t_file_uploads | t_download_status | t_operation_logs.

Inductive sql_kind := sql_select | sql_insert | sql_update.

(** The columns of the customer file list. *)
Record file_view := mkView {
  v_id : Z;
  v_original_name : string;
  v_file_name : string;
  v_file_size : Z;
  v_file_type : string;
  v_mime_type : string;
  v_remarks : option string;
  v_upload_time : string;
  v_status : string;
  v_process_status : string;
  v_edit_count : option Z;
  v_last_edit_time : option string;
  v_merchant_name : option string
}.

(** A row of the merchant photo list: [fu.*] with the joined columns. *)
Record photo_view := mkPhoto {
  ph_file : file_upload;
  ph_customer_name : option string;
  ph_download_status : option string;
  ph_last_download_time : option string
}.

Record pagination := mkPagination {
  pg_page : Z;
  pg_limit : Z;
  pg_total : Z;
  pg_pages : Z
}.

Record saved_file := mkSaved {
  sv_id : Z;
  sv_originalName : string;
  sv_fileName : string;
  sv_size : Z;
  sv_type : string
}.

Inductive body :=
| b_error (e : error_msg)
| b_validation                      (* { errors: errors.array() } *)
| b_ok                              (* { message: ... } *)
| b_edit (editCount remainingEdits : Z)
| b_files (files : list file_view) (pg : pagination)
| b_photos (photos : list photo_view) (pg : pagination)
| b_duplicates (duplicateFiles : list string)
| b_uploaded (files : list saved_file) (merchant_name : string).

(** Observable effects of a handler, in program order. *)
Inductive event :=
| ev_sql (k : sql_kind) (t : table)
| ev_content_type (t : string)      (* Content-Type *)
| ev_attachment (filename : string) (* Content-Disposition: attachment, the name percent-encoded *)
| ev_json (code : Z) (b : body)
| ev_send_file (stored_name : string)
| ev_archive_file (stored_name entry_name : string)
| ev_archive_finalize
| ev_archive_destroy
| ev_throw.

Record state := mkState { st_db : db; st_trace : list event }.

(** ** Handler monad

    A handler either goes on with a value or has returned ([return
    res.status(..).json(..)]); the state is threaded in both cases.
    Statements take effect in the order in which the handler issues them,
    and the database itself does not fail: the [if (err)] branches of the
    callbacks are reached only by a statement whose parameters do not
    fit. *)

Inductive outcome (A : Type) :=
| next (a : A)
| returned.
Arguments next {A} a.
Arguments returned {A}.

Definition M (A : Type) : Type := state -> outcome A * state.

Definition ret {A} (a : A) : M A := fun s => (next a, s).

Definition bind {A B} (m : M A) (k : A -> M B) : M B :=
  fun s => match m s with
           | (next a, s') => k a s'
           | (returned, s') => (returned, s')
           end.

Notation "x <- m ;; k" := (bind m (fun x => k))
  (at level 61, m at next level, right associativity).
Notation "m ;; k" := (bind m (fun _ => k))
  (at level 61, right associativity).

Definition emit (e : event) : M unit :=
  fun s => (next tt, mkState (st_db s) (st_trace s ++ [e])).

Definition get_db : M db := fun s => (next (st_db s), s).

Definition put_db (d : db) : M unit :=
  fun s => (next tt, mkState d (st_trace s)).

Definition stop {A} : M A := fun s => (returned, s).

(** [return res.status(code).json(b)] *)
Definition reply {A} (code : Z) (b : body) : M A :=
  emit (ev_json code b) ;; stop.

Definition run (m : M unit) (d : db) : state := snd (m (mkState d [])).

(** The last JSON response of a trace. *)
Fixpoint response_of (tr : list event) : option (Z * body) :=
  match tr with
  | [] => None
  | e :: r =>
      match response_of r with
      | Some x => Some x
      | None => match e with ev_json c b => Some (c, b) | _ => None end
      end
  end.

Definition writes (tr : list event) : list event :=
  filter (fun e => match e with
                   | ev_sql sql_insert _ | ev_sql sql_update _ => true
                   | _ => false
                   end) tr.

(** ** Shared database helpers *)

(** [logOperation(userId, operation, details)] *)
Definition logOperation (now : string) (userId : Z) (op : operation) : M unit :=
  d <- get_db ;;
  emit (ev_sql sql_insert t_operation_logs) ;;
  put_db (mkDb (users d) (file_uploads d) (download_status d)
               (operation_logs d ++ [mkLog userId op now])).

(** [recordDownloadStatus(fileId, merchantId, downloadType, status, filePath, errorMessage)] *)
Definition recordDownloadStatus (now : string) (fileId merchantId : Z)
    (downloadType status : string)
    (filePath errorMessage : option string) : M unit :=
  d <- get_db ;;
  emit (ev_sql sql_insert t_download_status) ;;
  put_db (mkDb (users d) (file_uploads d)
               (download_status d ++
                  [mkDownload fileId merchantId downloadType status now
                              filePath errorMessage])
               (operation_logs d)).

Definition set_file_uploads (d : db) (l : list file_upload) : db :=
  mkDb (users d) l (download_status d) (operation_logs d).

Definition set_users (d : db) (l : list user) : db :=
  mkDb l (file_uploads d) (download_status d) (operation_logs d).

(** ** Lifecycle handlers: remarks, soft delete, restore *)

(** [WHERE id = ? AND user_id = ?] with [[fileId, req.user.id]]: the path
    parameter is bound as TEXT, the principal's id as INTEGER. *)
Definition owned_by (fileId : string) (userId : Z) (f : file_upload) : bool :=
  int_col_eq (fu_id f) (VText fileId) && int_col_eq (fu_user_id f) (VInt userId).

(** [db.get('SELECT * FROM file_uploads WHERE id = ? AND user_id = ?', ..)] *)
Definition select_owned (fileId : string) (userId : Z) : M (option file_upload) :=
  d <- get_db ;;
  emit (ev_sql sql_select t_file_uploads) ;;
  ret (find (owned_by fileId userId) (file_uploads d)).

(** [db.run('UPDATE file_uploads SET .. WHERE ..')]: every matching row is
    rewritten. *)
Definition update_files (p : file_upload -> bool)
    (set : file_upload -> file_upload) : M unit :=
  d <- get_db ;;
  emit (ev_sql sql_update t_file_uploads) ;;
  put_db (set_file_uploads d
            (map (fun r => if p r then set r else r) (file_uploads d))).

(** [SET status = ?] *)
Definition set_status (v : string) (f : file_upload) : file_upload :=
  mkFile (fu_id f) (fu_user_id f) (fu_merchant_id f) (fu_original_name f)
         (fu_file_name f) (fu_file_path f) (fu_file_size f) (fu_file_type f)
         (fu_mime_type f) (fu_remarks f) (fu_upload_time f) v
         (fu_process_status f) (fu_edit_count f) (fu_last_edit_time f).

(** [COALESCE(edit_count, 0)], also [file.edit_count || 0] *)
Definition edit_count_of (f : file_upload) : Z :=
  match fu_edit_count f with Some n => n | None => 0 end.

(** [SET remarks = ?, edit_count = COALESCE(edit_count, 0) + 1, last_edit_time = ?] *)
Definition set_remarks (remarks : option string) (updateTime : string)
    (f : file_upload) : file_upload :=
  mkFile (fu_id f) (fu_user_id f) (fu_merchant_id f) (fu_original_name f)
         (fu_file_name f) (fu_file_path f) (fu_file_size f) (fu_file_type f)
         (fu_mime_type f) remarks (fu_upload_time f) (fu_status f)
         (fu_process_status f) (Some (edit_count_of f + 1)) (Some updateTime).

Record file_request := mkFileReq {
  fr_user : principal;            (* req.user *)
  fr_id : string;                 (* req.params.id *)
  fr_remarks : option string;     (* req.body.remarks *)
  fr_now : string                 (* new Date().toISOString() *)
}.

(** The text [isLength] measures: an absent field counts as empty. *)
Definition remarks_text (r : option string) : string :=
  match r with Some s => s | None => "" end.

(** A byte that continues a UTF-8 sequence: [10xxxxxx]. *)
Definition is_continuation (c : ascii) : bool :=
  let n := nat_of_ascii c in (128 <=? n)%nat && (n <? 192)%nat.

(** The text starts with U+FE0E or U+FE0F, in UTF-8 [EF B8 8E] and
    [EF B8 8F]. *)
Definition starts_with_selector (s : string) : bool :=
  match s with
  | String a (String b (String c _)) =>
      (nat_of_ascii a =? 239)%nat && (nat_of_ascii b =? 184)%nat &&
      ((nat_of_ascii c =? 142)%nat || (nat_of_ascii c =? 143)%nat)
  | _ => false
  end.

(** The length [isLength({ max: 500 })] compares with its bound: the
    validator takes the UTF-16 length of the text less one for each
    surrogate pair and for each variation selector (U+FE0E, U+FE0F), which
    is the number of its characters (code points) other than those
    selectors.  The texts here are the UTF-8 bytes of the request: a
    character starts at each byte that is not a continuation byte. *)
Fixpoint isLength_len (s : string) : nat :=
  match s with
  | EmptyString => 0
  | String c r =>
      ((if is_continuation c || starts_with_selector s then 0 else 1)
       + isLength_len r)%nat
  end.

(** The handler up to the [await] of its UPDATE: the validation result,
    the SELECT and the tests on the row it returned.  When the handler goes
    on, it goes on with [currentEditCount], read from that row. *)
Definition put_remarks_check (req : file_request) : M Z :=
  if (500 <? isLength_len (remarks_text (fr_remarks req)))%nat
  then reply 400 b_validation
  else
    file <- select_owned (fr_id req) (p_id (fr_user req)) ;;
    match file with
    | None => reply 404 (b_error err_file_not_found)
    | Some file =>
        if String.eqb (fu_status file) "deleted"
        then reply 400 (b_error err_deleted_no_edit)
        else
          let currentEditCount := edit_count_of file in
          if currentEditCount >=? 10
          then reply 400 (b_error err_edit_limit)
          else ret currentEditCount
    end.

(** The rest of the handler: the UPDATE, which names the row and not the
    counter that was read, the log entry and the answer, which is computed
    from [currentEditCount]. *)
Definition put_remarks_update (req : file_request) (currentEditCount : Z)
  : M unit :=
  update_files (owned_by (fr_id req) (p_id (fr_user req)))
               (set_remarks (fr_remarks req) (fr_now req)) ;;
  logOperation (fr_now req) (p_id (fr_user req)) op_edit_remarks ;;
  reply 200 (b_edit (currentEditCount + 1)
                    (10 - (currentEditCount + 1))).

(** [app.put('/api/uploads/:id/remarks')], when no other statement runs
    between its SELECT and its UPDATE. *)
Definition put_remarks (req : file_request) : M unit :=
  currentEditCount <- put_remarks_check req ;;
  put_remarks_update req currentEditCount.

(** [app.delete('/api/uploads/:id')] *)
Definition delete_upload (req : file_request) : M unit :=
  file <- select_owned (fr_id req) (p_id (fr_user req)) ;;
  match file with
  | None => reply 404 (b_error err_file_not_found)
  | Some file =>
      if String.eqb (fu_status file) "deleted"
      then reply 400 (b_error err_already_deleted)
      else
        update_files (owned_by (fr_id req) (p_id (fr_user req)))
                     (set_status "deleted") ;;
        logOperation (fr_now req) (p_id (fr_user req)) op_delete_file ;;
        reply 200 b_ok
  end.

(** [app.put('/api/uploads/:id/restore')] *)
Definition restore_upload (req : file_request) : M unit :=
  file <- select_owned (fr_id req) (p_id (fr_user req)) ;;
  match file with
  | None => reply 404 (b_error err_file_not_found)
  | Some file =>
      if negb (String.eqb (fu_status file) "deleted")
      then reply 400 (b_error err_not_deleted)
      else
        update_files (owned_by (fr_id req) (p_id (fr_user req)))
                     (set_status "active") ;;
        logOperation (fr_now req) (p_id (fr_user req)) op_restore_file ;;
        reply 200 b_ok
  end.

(** Requests served one after the other, each handled to its end on the
    database the previous one left. *)
Fixpoint serve {R} (h : R -> M unit) (reqs : list R) (d : db) : db :=
  match reqs with
  | [] => d
  | r :: rest => serve h rest (st_db (run (h r) d))
  end.

(** Every stored edit counter is within the cap. *)
Definition edits_capped (d : db) : Prop :=
  Forall (fun f => edit_count_of f <= 10) (file_uploads d).

(** [id] is the primary key of [file_uploads]. *)
Definition file_ids_unique (d : db) : Prop :=
  NoDup (map fu_id (file_uploads d)).

(** *** Remark edits that overlap

    The remarks handler awaits its SELECT and then its UPDATE, and the
    server takes up other requests while it waits.  A request in flight
    has passed its tests and waits for its UPDATE; it is kept with the
    [currentEditCount] it read.  The log entry is written with the
    UPDATE. *)

Inductive action :=
| edit_begins (req : file_request)   (* a request arrives and runs up to the await of its UPDATE *)
| edit_ends (n : nat).               (* the UPDATE of the n-th request in flight runs and its handler ends *)

Record server := mkServer {
  sv_state : state;                          (* the database, and all that was answered *)
  sv_in_flight : list (file_request * Z)
}.

Fixpoint remove_nth {A} (n : nat) (l : list A) : list A :=
  match n, l with
  | _, [] => []
  | O, _ :: r => r
  | S m, x :: r => x :: remove_nth m r
  end.

Definition act (a : action) (s : server) : server :=
  match a with
  | edit_begins req =>
      match put_remarks_check req (sv_state s) with
      | (next currentEditCount, s') =>
          mkServer s' (sv_in_flight s ++ [(req, currentEditCount)])
      | (returned, s') => mkServer s' (sv_in_flight s)
      end
  | edit_ends n =>
      match nth_error (sv_in_flight s) n with
      | Some (req, currentEditCount) =>
          mkServer (snd (put_remarks_update req currentEditCount (sv_state s)))
                   (remove_nth n (sv_in_flight s))
      | None => s
      end
  end.

(** The server after a run of actions, from a state with nothing in
    flight. *)
Definition play (acts : list action) (d : db) : server :=
  fold_left (fun s a => act a s) acts (mkServer (mkState d []) []).

(** The run in which each request ends before the next begins. *)
Definition one_by_one (reqs : list file_request) : list action :=
  flat_map (fun req => [edit_begins req; edit_ends 0]) reqs.

(** The JSON answers of a trace, in the order in which they were sent. *)
Definition answers (tr : list event) : list (Z * body) :=
  flat_map (fun e => match e with
                     | ev_json code b => [(code, b)]
                     | _ => []
                     end) tr.

(** ** User status change *)

Record status_request := mkStatusReq {
  sr_user : principal;            (* req.user *)
  sr_id : string;                 (* req.params.id *)
  sr_status : option string;      (* req.body.status *)
  sr_reason : option string;      (* req.body.reason *)
  sr_now : string
}.

(** [requireAdmin] *)
Definition requireAdmin (u : principal) : M unit :=
  if negb (role_eqb (p_role u) admin) && negb (role_eqb (p_role u) sub_admin)
  then reply 403 (b_error err_forbidden)
  else ret tt.

(** [body('status').isIn(['active', 'disabled'])] and
    [body('reason').optional().isLength({ min: 1 })] *)
Definition status_body_valid (req : status_request) : bool :=
  match sr_status req with
  | Some s => String.eqb s "active" || String.eqb s "disabled"
  | None => false
  end &&
  match sr_reason req with
  | Some r => (1 <=? isLength_len r)%nat
  | None => true
  end.

(** [!reason] *)
Definition falsy_text (r : option string) : bool :=
  match r with
  | Some s => String.eqb s ""
  | None => true
  end.

(** [WHERE id = ?] on [users], the path parameter bound as TEXT. *)
Definition user_has_id (id : string) (u : user) : bool :=
  int_col_eq (u_id u) (VText id).

(** [SET status = ?, disable_reason = ?] and
    [SET status = ?, disable_reason = NULL] *)
Definition set_user_status (st : user_status) (reason : option string)
    (u : user) : user :=
  mkUser (u_id u) (u_username u) (u_role u) st reason.

(** [app.patch('/api/admin/users/:id/status')] *)
Definition patch_user_status (req : status_request) : M unit :=
  requireAdmin (sr_user req) ;;
  if negb (status_body_valid req) then reply 400 b_validation
  else
    let id := sr_id req in
    let disabling :=
      match sr_status req with
      | Some s => String.eqb s "disabled"
      | None => false
      end in
    if disabling && falsy_text (sr_reason req)
    then reply 400 (b_error err_reason_required)
    else if String.eqb id "1"
    then reply 403 (b_error err_main_admin)
    else
      d <- get_db ;;
      emit (ev_sql sql_select t_users) ;;
      match find (user_has_id id) (users d) with
      | None => reply 404 (b_error err_user_not_found)
      | Some user =>
          emit (ev_sql sql_update t_users) ;;
          put_db (set_users d
                    (map (fun u => if user_has_id id u
                                   then if disabling
                                        then set_user_status disabled (sr_reason req) u
                                        else set_user_status active None u
                                   else u) (users d))) ;;
          logOperation (sr_now req) (p_id (sr_user req))
                       (if disabling then op_disable_user else op_enable_user) ;;
          reply 200 b_ok
      end.

(** ** Duplicate check *)

Record duplicate_request := mkDupReq {
  dr_user : principal;                  (* req.user *)
  dr_merchantId : sqlval;               (* req.body.merchantId, [VNull] when absent *)
  dr_fileNames : option (list string)   (* req.body.fileNames when it is an array *)
}.

(** JS truthiness of a body field: absent, [0] and [''] are falsy. *)
Definition truthy (v : sqlval) : bool :=
  match v with
  | VNull => false
  | VInt n => negb (n =? 0)
  | VText s => negb (String.eqb s "")
  end.

(** [WHERE user_id = ? AND merchant_id = ? AND original_name IN (..)] *)
Definition duplicate_of (userId : Z) (merchantId : sqlval)
    (fileNames : list string) (f : file_upload) : bool :=
  int_col_eq (fu_user_id f) (VInt userId) &&
  int_col_eq (fu_merchant_id f) merchantId &&
  existsb (String.eqb (fu_original_name f)) fileNames.

(** [app.post('/api/check-duplicate-files')] *)
Definition check_duplicate_files (req : duplicate_request) : M unit :=
  if negb (role_eqb (p_role (dr_user req)) customer)
  then reply 403 (b_error err_customers_only)
  else
    match dr_fileNames req with
    | None => reply 400 (b_error err_missing_params)
    | Some fileNames =>
        if negb (truthy (dr_merchantId req))
        then reply 400 (b_error err_missing_params)
        else
          d <- get_db ;;
          emit (ev_sql sql_select t_file_uploads) ;;
          let existingFiles :=
            filter (duplicate_of (p_id (dr_user req)) (dr_merchantId req) fileNames)
                   (file_uploads d) in
          reply 200 (b_duplicates (map fu_original_name existingFiles))
    end.

(** ** JavaScript helpers *)

Module Js.

Definition radix_digit (c : ascii) : option Z :=
  let n := nat_of_ascii c in
  if (48 <=? n)%nat && (n <=? 57)%nat then Some (Z.of_nat n - 48)
  else if (97 <=? n)%nat && (n <=? 122)%nat then Some (Z.of_nat n - 87)
  else if (65 <=? n)%nat && (n <=? 90)%nat then Some (Z.of_nat n - 55)
  else None.

(** The longest prefix of digits of the radix; [None] when it is empty. *)
Fixpoint read_radix (radix : Z) (s : string) (acc : option Z) : option Z :=
  match s with
  | String c r =>
      match radix_digit c with
      | Some v =>
          if v <? radix
          then read_radix radix r
                 (Some (radix * match acc with Some a => a | None => 0 end + v))
          else acc
      | None => acc
      end
  | EmptyString => acc
  end.

(** [parseInt(s)] without a radix argument; [None] is [NaN].  Results are
    exact integers (the rounding of doubles beyond 2^53 is not modelled)
    and only ASCII white space is skipped. *)
Definition parseInt (s : string) : option Z :=
  let s1 := skip_spaces s in
  let '(neg, s2) :=
    match s1 with
    | String "-" r => (true, r)
    | String "+" r => (false, r)
    | _ => (false, s1)
    end in
  let '(radix, s3) :=
    match s2 with
    | String "0" (String "x" r) => (16, r)
    | String "0" (String "X" r) => (16, r)
    | _ => (10, s2)
    end in
  option_map (fun n => if neg then - n else n) (read_radix radix s3 None).

(** [x || d] for a number [x]: [NaN] and [0] are falsy. *)
Definition or_default (x : option Z) (d : Z) : Z :=
  match x with
  | Some n => if n =? 0 then d else n
  | None => d
  end.

(** Truthiness of an optional query string. *)
Definition given (x : option string) : option string :=
  match x with
  | Some s => if String.eqb s "" then None else Some s
  | None => None
  end.

(** [Math.ceil(a / b)], the quotient taken exactly. *)
Definition ceil_div (a b : Z) : Z := Qceiling (inject_Z a / inject_Z b).

Definition lower_char (c : ascii) : ascii :=
  let n := nat_of_ascii c in
  if (65 <=? n)%nat && (n <=? 90)%nat then ascii_of_nat (n + 32) else c.

(** [s.toLowerCase()] on ASCII letters. *)
Fixpoint toLowerCase (s : string) : string :=
  match s with
  | String c r => String (lower_char c) (toLowerCase r)
  | EmptyString => EmptyString
  end.

Fixpoint last_dot_suffix (s : string) : option string :=
  match s with
  | EmptyString => None
  | String c r =>
      match last_dot_suffix r with
      | Some e => Some e
      | None => if Ascii.eqb c "." then Some s else None
      end
  end.

(** [path.extname(name)] for a name without directory separators (the
    multipart parser hands over base names): the text from the last dot on,
    unless that dot is the first character. *)
Definition extname (name : string) : string :=
  match name with
  | EmptyString => ""
  | String _ r =>
      if String.eqb name ".." then ""
      else match last_dot_suffix r with Some e => e | None => "" end
  end.

(** [s.split(',')] *)
Fixpoint split_commas (s : string) (cur : string) : list string :=
  match s with
  | EmptyString => [cur]
  | String c r =>
      if Ascii.eqb c ","
      then cur :: split_commas r ""
      else split_commas r (cur ++ String c "")%string
  end.

Fixpoint has_comma (s : string) : bool :=
  match s with
  | EmptyString => false
  | String c r => Ascii.eqb c "," || has_comma r
  end.

End Js.
Import Js.

(** ** Filtered, paginated lists *)

(** The conjuncts pushed on [whereConditions]; each stands for the SQL text
    given in the comment, with its [?] placeholders. *)
Inductive cond :=
| c_user_id          (* fu.user_id = ? *)
| c_merchant_id      (* fu.merchant_id = ? *)
| c_process_status   (* fu.process_status = ? *)
| c_upload_from      (* fu.upload_time >= ? *)
| c_upload_between.  (* fu.upload_time >= ? AND fu.upload_time <= ? *)

Definition placeholders (c : cond) : nat :=
  match c with
  | c_upload_between => 2
  | _ => 1
  end.

Fixpoint where_placeholders (cs : list cond) : nat :=
  match cs with
  | [] => 0
  | c :: r => placeholders c + where_placeholders r
  end.

Definition and_opt (a b : option bool) : option bool :=
  match a, b with
  | Some x, Some y => Some (x && y)
  | _, _ => None
  end.

(** [whereConditions.join(' AND ')] on one row, the placeholders bound in
    order; [None] when the parameters do not fit. *)
Fixpoint eval_where (cs : list cond) (ps : list sqlval) (f : file_upload)
  : option bool :=
  match cs, ps with
  | [], [] => Some true
  | c_user_id :: cs', v :: ps' =>
      and_opt (Some (int_col_eq (fu_user_id f) v)) (eval_where cs' ps' f)
  | c_merchant_id :: cs', v :: ps' =>
      and_opt (Some (int_col_eq (fu_merchant_id f) v)) (eval_where cs' ps' f)
  | c_process_status :: cs', v :: ps' =>
      and_opt (text_col_eq (fu_process_status f) v) (eval_where cs' ps' f)
  | c_upload_from :: cs', v :: ps' =>
      and_opt (text_col_ge (fu_upload_time f) v) (eval_where cs' ps' f)
  | c_upload_between :: cs', v1 :: v2 :: ps' =>
      and_opt (and_opt (text_col_ge (fu_upload_time f) v1)
                       (text_col_le (fu_upload_time f) v2))
              (eval_where cs' ps' f)
  | _, _ => None
  end.

(** The rows a [WHERE] keeps; [None] is a statement error. *)
Fixpoint select_where (cs : list cond) (ps : list sqlval)
    (rows : list file_upload) : option (list file_upload) :=
  match rows with
  | [] => if (where_placeholders cs =? List.length ps)%nat then Some [] else None
  | f :: r =>
      match eval_where cs ps f, select_where cs ps r with
      | Some b, Some l => Some (if b then f :: l else l)
      | _, _ => None
      end
  end.

(** [LIMIT ? OFFSET ?]: a negative limit is no limit, a negative offset is 0. *)
Definition limit_offset {A} (limit offset : Z) (l : list A) : list A :=
  let rest := skipn (Z.to_nat offset) l in
  if limit <? 0 then rest else firstn (Z.to_nat limit) rest.

Fixpoint insert_sorted {A} (before : A -> A -> bool) (x : A) (l : list A) : list A :=
  match l with
  | [] => [x]
  | y :: r => if before x y then x :: l else y :: insert_sorted before x r
  end.

(** [ORDER BY], as a stable insertion sort: rows with equal keys keep the
    order of the scan. *)
Fixpoint order_by {A} (before : A -> A -> bool) (l : list A) : list A :=
  match l with
  | [] => []
  | x :: r => insert_sorted before x (order_by before r)
  end.

(** [CASE WHEN fu.status = 'deleted' THEN 1 ELSE 0 END] *)
Definition deleted_rank (f : file_upload) : Z :=
  if String.eqb (fu_status f) "deleted" then 1 else 0.

(** [CASE WHEN fu.status = 'active' THEN 0 ELSE 1 END] *)
Definition inactive_rank (f : file_upload) : Z :=
  if String.eqb (fu_status f) "active" then 0 else 1.

(** [ORDER BY rank, fu.upload_time DESC]: [a] may stay before [b]. *)
Definition listed_before (rank : file_upload -> Z) (a b : file_upload) : bool :=
  (rank a <? rank b) ||
  ((rank a =? rank b) && String.leb (fu_upload_time b) (fu_upload_time a)).

(** The values the handler derives from [new Date()], and
    [new Date(s).toISOString()], which throws ([None]) on an invalid date. *)
Record clock := mkClock {
  ck_today : string;
  ck_week_ago : string;
  ck_month_ago : string;
  ck_iso : string -> option string
}.

Record list_request := mkListReq {
  lr_user : principal;             (* req.user *)
  lr_customerId : string;          (* req.params.customerId, merchant list only *)
  lr_page : option string;
  lr_limit : option string;
  lr_status : option string;
  lr_timeFilter : option string;
  lr_startDate : option string;
  lr_endDate : option string;
  lr_clock : clock
}.

(** The three arrays the handlers grow side by side. *)
Record filters := mkFilters {
  whereConditions : list cond;
  queryParams : list sqlval;
  countParams : list sqlval
}.

Definition push_filter (c : cond) (vs : list sqlval) (fl : filters) : filters :=
  mkFilters (whereConditions fl ++ [c]) (queryParams fl ++ vs) (countParams fl ++ vs).

(** The status filter. *)
Definition status_filter (req : list_request) (fl : filters) : filters :=
  match given (lr_status req) with
  | Some status =>
      if existsb (String.eqb status) ["received"; "processing"; "shipped"]
      then push_filter c_process_status [VText status] fl
      else fl
  | None => fl
  end.

(** The time filter; [None] when [toISOString] throws. *)
Definition time_filter (req : list_request) (fl : filters) : option filters :=
  match given (lr_timeFilter req) with
  | None => Some fl
  | Some timeFilter =>
      if String.eqb timeFilter "today"
      then Some (push_filter c_upload_from [VText (ck_today (lr_clock req))] fl)
      else if String.eqb timeFilter "week"
      then Some (push_filter c_upload_from [VText (ck_week_ago (lr_clock req))] fl)
      else if String.eqb timeFilter "month"
      then Some (push_filter c_upload_from [VText (ck_month_ago (lr_clock req))] fl)
      else if String.eqb timeFilter "custom"
      then match given (lr_startDate req), given (lr_endDate req) with
           | Some startDate, Some endDate =>
               match ck_iso (lr_clock req) (startDate ++ "T00:00:00.000Z")%string,
                     ck_iso (lr_clock req) (endDate ++ "T23:59:59.999Z")%string with
               | Some s, Some e => Some (push_filter c_upload_between [VText s; VText e] fl)
               | _, _ => None
               end
           | _, _ => Some fl
           end
      else Some fl
  end.

Definition page_number (req : list_request) : Z :=
  match lr_page req with
  | Some s => or_default (parseInt s) 1
  | None => 1
  end.

Definition limit_number (default : Z) (req : list_request) : Z :=
  match lr_limit req with
  | Some s => or_default (parseInt s) default
  | None => default
  end.

(** What the filter code adds to the three arrays: the same conjuncts with
    the same values on the list side and on the count side. *)
Definition extends (fl0 fl : filters) : Prop :=
  exists cs ps,
    whereConditions fl = whereConditions fl0 ++ cs /\
    queryParams fl = queryParams fl0 ++ ps /\
    countParams fl = countParams fl0 ++ ps /\
    where_placeholders cs = List.length ps.



(** The projection of the customer list, with [u.username as merchant_name]
    from [LEFT JOIN users u ON fu.merchant_id = u.id]. *)
Definition view_of (d : db) (f : file_upload) : file_view :=
  mkView (fu_id f) (fu_original_name f) (fu_file_name f) (fu_file_size f)
         (fu_file_type f) (fu_mime_type f) (fu_remarks f) (fu_upload_time f)
         (fu_status f) (fu_process_status f) (fu_edit_count f)
         (fu_last_edit_time f)
         (option_map u_username
            (find (fun u => u_id u =? fu_merchant_id f) (users d))).

(** The list statement of the customer list run with its parameter array:
    the [WHERE] placeholders come first, then [LIMIT ? OFFSET ?]. *)
Definition files_statement (cs : list cond) (params : list sqlval) (d : db)
  : option (list file_view) :=
  match skipn (where_placeholders cs) params with
  | [VInt limit; VInt offset] =>
      match select_where cs (firstn (where_placeholders cs) params)
                         (file_uploads d) with
      | Some rows =>
          Some (map (view_of d)
                  (limit_offset limit offset
                     (order_by (listed_before deleted_rank) rows)))
      | None => None
      end
  | _ => None
  end.

(** [SELECT COUNT( * ) as total FROM file_uploads fu WHERE ..] *)
Definition count_statement (cs : list cond) (params : list sqlval) (d : db)
  : option Z :=
  option_map (fun rows => Z.of_nat (List.length rows))
             (select_where cs params (file_uploads d)).

(** [app.get('/api/uploads')] *)
Definition get_uploads (req : list_request) : M unit :=
  let pageNum := page_number req in
  let limitNum := limit_number 10 req in
  let offset := (pageNum - 1) * limitNum in
  let uid := VInt (p_id (lr_user req)) in
  match time_filter req (status_filter req (mkFilters [c_user_id] [uid] [uid])) with
  | None => emit ev_throw ;; stop
  | Some fl =>
      d <- get_db ;;
      emit (ev_sql sql_select t_file_uploads) ;;
      match files_statement (whereConditions fl)
                            (queryParams fl ++ [VInt limitNum; VInt offset]) d with
      | None => reply 500 (b_error err_server)
      | Some files =>
          emit (ev_sql sql_select t_file_uploads) ;;
          match count_statement (whereConditions fl) (countParams fl) d with
          | None => reply 500 (b_error err_server)
          | Some total =>
              reply 200 (b_files files
                           (mkPagination pageNum limitNum total
                                         (ceil_div total limitNum)))
          end
      end
  end.

(** The joined rows of one file in the merchant list:
    [LEFT JOIN users u ON fu.user_id = u.id] and
    [LEFT JOIN download_status ds ON fu.id = ds.file_id AND ds.merchant_id = ?],
    one row for each ledger row of the file, or one with NULLs. *)
Definition joined_photos (d : db) (joinParam : sqlval) (f : file_upload)
  : list photo_view :=
  let customer_name :=
    option_map u_username (find (fun u => u_id u =? fu_user_id f) (users d)) in
  match filter (fun ds => (ds_file_id ds =? fu_id f) &&
                          int_col_eq (ds_merchant_id ds) joinParam)
               (download_status d) with
  | [] => [mkPhoto f customer_name None None]
  | l => map (fun ds => mkPhoto f customer_name (Some (ds_status ds))
                                (Some (ds_download_time ds))) l
  end.

(** The list statement of the merchant list: the join placeholder is bound
    first, then the [WHERE] placeholders, then [LIMIT ? OFFSET ?]. *)
Definition photos_statement (cs : list cond) (params : list sqlval) (d : db)
  : option (list photo_view) :=
  match params with
  | joinParam :: rest =>
      match skipn (where_placeholders cs) rest with
      | [VInt limit; VInt offset] =>
          match select_where cs (firstn (where_placeholders cs) rest)
                             (file_uploads d) with
          | Some rows =>
              Some (limit_offset limit offset
                      (order_by (fun a b => listed_before inactive_rank
                                              (ph_file a) (ph_file b))
                                (flat_map (joined_photos d joinParam) rows)))
          | None => None
          end
      | _ => None
      end
  | [] => None
  end.

(** [app.get('/api/merchant/customer/:customerId/photos')] *)
Definition get_customer_photos (req : list_request) : M unit :=
  if negb (role_eqb (p_role (lr_user req)) merchant)
  then reply 403 (b_error err_forbidden)
  else
    let customerId := lr_customerId req in
    d <- get_db ;;
    emit (ev_sql sql_select t_users) ;;
    match find (fun u => int_col_eq (u_id u) (VText customerId) &&
                         role_eqb (u_role u) customer) (users d) with
    | None => reply 404 (b_error err_customer_missing)
    | Some cust =>
        match u_status cust with
        | disabled => reply 403 (b_error err_customer_disabled)
        | active =>
            let pageNum := page_number req in
            let limitNum := limit_number 20 req in
            let offset := (pageNum - 1) * limitNum in
            let mid := VInt (p_id (lr_user req)) in
            match time_filter req
                    (status_filter req
                       (mkFilters [c_user_id; c_merchant_id]
                                  [mid; VText customerId; mid]
                                  [VText customerId; mid])) with
            | None => emit ev_throw ;; stop
            | Some fl =>
                emit (ev_sql sql_select t_file_uploads) ;;
                match count_statement (whereConditions fl) (countParams fl) d with
                | None => reply 500 (b_error err_server)
                | Some total =>
                    emit (ev_sql sql_select t_file_uploads) ;;
                    match photos_statement (whereConditions fl)
                            (queryParams fl ++ [VInt limitNum; VInt offset]) d with
                    | None => reply 500 (b_error err_server)
                    | Some photos =>
                        reply 200 (b_photos photos
                                     (mkPagination pageNum limitNum total
                                                   (ceil_div total limitNum)))
                    end
                end
            end
        end
    end.

(** ** Upload *)

(** A file part of the multipart body.  [originalname] is the byte string
    of the name, on which the latin1-to-utf8 re-decoding of the source is
    the identity. *)
Record part := mkPart {
  fieldname : string;
  originalname : string;
  mimetype : string;
  size : Z
}.

(** A file as the upload middleware hands it over, stored on disk. *)
Record stored_file := mkStored {
  sf_part : part;
  filename : string;
  path : string
}.

Definition imageTypes : list string :=
  ["image/jpeg"; "image/jpg"; "image/png"; "image/gif"; "image/webp"].

Definition archiveTypes : list string :=
  ["application/zip"; "application/x-zip-compressed";
   "application/x-rar-compressed"; "application/vnd.rar";
   "application/x-rar"; "application/x-7z-compressed"].

Definition imageExtensions : list string :=
  [".jpg"; ".jpeg"; ".png"; ".gif"; ".webp"].

Definition archiveExtensions : list string := [".zip"; ".rar"; ".7z"].

(** [list.includes(s)] *)
Definition includes (l : list string) (s : string) : bool :=
  existsb (String.eqb s) l.

(** [fileFilter]: [true] is [cb(null, true)], [false] the type error. *)
Definition fileFilter (file : part) : bool :=
  let allowedTypes := imageTypes ++ archiveTypes in
  let allowedExtensions := imageExtensions ++ archiveExtensions in
  let ext := toLowerCase (extname (originalname file)) in
  includes allowedTypes (mimetype file) || includes allowedExtensions ext.

(** [limits.fileSize] and [limits.files] *)
Definition fileSize_limit : Z := 50 * 1024 * 1024.
Definition files_limit : nat := 20.

(** [upload.array('files', 20)]: the parts are taken in order; the part
    after the 20th aborts with the count limit, a part of another field (or
    beyond the 20 allowed for the field) is unexpected, then the file filter
    decides, then the size limit applies while the file is written.
    [seen] counts the parts taken so far, [filesLeft] what the field may
    still receive, and [stored] names the file written for each part. *)
Fixpoint multer_array (stored : nat -> string) (parts : list part)
    (seen filesLeft : nat) : error_msg + list stored_file :=
  match parts with
  | [] => inr []
  | p :: rest =>
      if (files_limit <=? seen)%nat then inl err_multer_file_count
      else if negb (String.eqb (fieldname p) "files") || (filesLeft =? 0)%nat
      then inl err_multer_unexpected_file
      else if negb (fileFilter p) then inl err_file_type
      else if fileSize_limit <? size p then inl err_multer_file_size
      else match multer_array stored rest (S seen) (filesLeft - 1) with
           | inl e => inl e
           | inr files =>
               inr (mkStored p (stored seen) ("uploads/" ++ stored seen)%string
                      :: files)
           end
  end.

Record upload_request := mkUploadReq {
  ur_user : principal;             (* req.user *)
  ur_merchantId : option string;   (* req.body.merchantId *)
  ur_remarks : option string;      (* req.body.remarks *)
  ur_parts : list part;            (* the file parts of the body *)
  ur_stored : nat -> string;       (* the names the disk storage generates *)
  ur_now : string
}.

(** The image test of the upload handler. *)
Definition isImage (file : part) : bool :=
  String.prefix "image/" (mimetype file) ||
  includes imageExtensions (toLowerCase (extname (originalname file))).

(** The loop computing [totalImageSize] and [imageCount]. *)
Definition image_totals (files : list stored_file) : Z * Z :=
  fold_left (fun '(totalImageSize, imageCount) file =>
               if isImage (sf_part file)
               then (totalImageSize + size (sf_part file), imageCount + 1)
               else (totalImageSize, imageCount))
            files (0, 0).

(** The id an [INSERT] gives the new row (AUTOINCREMENT on a table whose
    rows are never removed). *)
Definition next_file_id (d : db) : Z :=
  1 + fold_right Z.max 0 (map fu_id (file_uploads d)).

(** Modelled from the spec: the column defaults of [file_uploads], whose
    CREATE TABLE statement is not among the sources; a new asset is active,
    its process status is received, it has no edits. *)
Definition default_status : string := "active".
Definition default_process_status : string := "received".
Definition default_edit_count : option Z := Some 0.
Definition default_last_edit_time : option string := None.

(** One round of the insert loop.  The [merchantId] text is stored under
    INTEGER affinity, that is as the id of the merchant it selected. *)
Definition insert_upload (req : upload_request) (merchant_id : Z)
    (file : stored_file) : M saved_file :=
  let fileType := if isImage (sf_part file) then "image" else "archive" in
  d <- get_db ;;
  emit (ev_sql sql_insert t_file_uploads) ;;
  let lastID := next_file_id d in
  put_db (set_file_uploads d
            (file_uploads d ++
               [mkFile lastID (p_id (ur_user req)) merchant_id
                       (originalname (sf_part file)) (filename file) (path file)
                       (size (sf_part file)) fileType (mimetype (sf_part file))
                       (given (ur_remarks req)) (ur_now req)
                       default_status default_process_status
                       default_edit_count default_last_edit_time])) ;;
  ret (mkSaved lastID (originalname (sf_part file)) (filename file)
               (size (sf_part file)) fileType).

Fixpoint insert_uploads (req : upload_request) (merchant_id : Z)
    (files : list stored_file) : M (list saved_file) :=
  match files with
  | [] => ret []
  | file :: rest =>
      s <- insert_upload req merchant_id file ;;
      l <- insert_uploads req merchant_id rest ;;
      ret (s :: l)
  end.

(** [app.post('/api/upload')] behind [upload.array('files', 20)] and
    [handleMulterError]. *)
Definition post_upload (req : upload_request) : M unit :=
  match multer_array (ur_stored req) (ur_parts req) 0 20 with
  | inl e => reply 400 (b_error e)
  | inr files =>
      match given (ur_merchantId req) with
      | None => reply 400 (b_error err_choose_merchant)
      | Some merchantId =>
          if (List.length files =? 0)%nat
          then reply 400 (b_error err_choose_files)
          else
            d <- get_db ;;
            emit (ev_sql sql_select t_users) ;;
            match find (fun u => user_has_id merchantId u &&
                                 role_eqb (u_role u) merchant) (users d) with
            | None => reply 400 (b_error err_merchant_missing)
            | Some m =>
                match u_status m with
                | disabled => reply 400 (b_error err_merchant_disabled)
                | active =>
                    let '(totalImageSize, imageCount) := image_totals files in
                    if 20 <? imageCount
                    then reply 400 (b_error err_image_count)
                    else if 50 * 1024 * 1024 <? totalImageSize
                    then reply 400 (b_error err_image_size)
                    else
                      savedFiles <- insert_uploads req (u_id m) files ;;
                      logOperation (ur_now req) (p_id (ur_user req)) op_upload ;;
                      reply 200 (b_uploaded savedFiles (u_username m))
                end
            end
      end
  end.

(** ** Batch downloads *)

(** The token of a download request: absent, rejected by [jwt.verify], or
    verified. *)
Inductive auth :=
| no_token
| bad_token
| verified (u : principal).

(** [req.query.photoIds] *)
Inductive photo_ids :=
| ids_absent
| ids_text (s : string)
| ids_array (l : list string)
| ids_object.

(** How the archive stream ends once it is finalized: the [end] event, or
    the [error] event with [res.headersSent] and the error message. *)
Inductive archive_outcome :=
| archive_end
| archive_error (headersSent : bool) (message : string).

Record download_request := mkDownloadReq {
  dq_auth : auth;
  dq_customerId : string;          (* req.params.customerId *)
  dq_photoIds : photo_ids;
  dq_exists : string -> bool;      (* fs.existsSync on uploads/<file_name> *)
  dq_archive : archive_outcome;
  dq_send_ok : bool;               (* whether res.sendFile gets the bytes out *)
  dq_stamp : string;               (* Date.now(), in decimal *)
  dq_now : string
}.

(** Token check of the download routes; only merchants pass. *)
Definition merchant_of_token (a : auth) : M principal :=
  match a with
  | no_token => reply 401 (b_error err_no_token)
  | bad_token => reply 401 (b_error err_bad_token)
  | verified u =>
      if negb (role_eqb (p_role u) merchant)
      then reply 403 (b_error err_forbidden)
      else ret u
  end.

Definition missing_on_disk : string := "文件不存在".

(** [photos.forEach(photo => recordDownloadStatus(photo.id, req.user.id,
    'batch', status, filePath, errorMessage))] *)
Fixpoint record_all (now : string) (merchantId : Z) (status : string)
    (filePath errorMessage : option string) (photos : list file_upload) : M unit :=
  match photos with
  | [] => ret tt
  | photo :: rest =>
      recordDownloadStatus now (fu_id photo) merchantId "batch" status
                           filePath errorMessage ;;
      record_all now merchantId status filePath errorMessage rest
  end.

(** The loop adding the files to the archive: a file on disk is added, a
    missing one gets a failed ledger row; on the last index the archive is
    finalized, or destroyed and answered 404 when nothing was added (no
    byte has been written then, so the headers are not sent yet).
    Returns [addedCount]. *)
Fixpoint add_to_archive (req : download_request) (merchantId : Z)
    (photos : list file_upload) (index len : nat) (addedCount : Z) : M Z :=
  match photos with
  | [] => ret addedCount
  | photo :: rest =>
      addedCount <-
        (if dq_exists req (fu_file_name photo)
         then emit (ev_archive_file (fu_file_name photo) (fu_original_name photo)) ;;
              ret (addedCount + 1)
         else recordDownloadStatus (dq_now req) (fu_id photo) merchantId
                                   "batch" "failed" None (Some missing_on_disk) ;;
              ret addedCount) ;;
      (if (index =? len - 1)%nat
       then if addedCount =? 0
            then emit ev_archive_destroy ;;
                 emit (ev_json 404 (b_error err_no_usable_files))
            else emit ev_archive_finalize
       else ret tt) ;;
      add_to_archive req merchantId rest (S index) len addedCount
  end.

(** The ZIP part of both batch handlers: headers, the loop, then the
    handler of the event the archive ends with. *)
Definition zip_response (req : download_request) (u : principal)
    (photos : list file_upload) (zipFileName : string) (op : operation) : M unit :=
  emit (ev_content_type "application/zip") ;;
  emit (ev_attachment zipFileName) ;;
  addedCount <- add_to_archive req (p_id u) photos 0 (List.length photos) 0 ;;
  if addedCount =? 0 then ret tt
  else
    match dq_archive req with
    | archive_end =>
        record_all (dq_now req) (p_id u) "success" (Some zipFileName) None photos ;;
        logOperation (dq_now req) (p_id u) op
    | archive_error headersSent message =>
        record_all (dq_now req) (p_id u) "failed" None (Some message) photos ;;
        if headersSent then ret tt
        else emit (ev_json 500 (b_error err_zip_failed))
    end.

(** [customer ? customer.username : `customer_${customerId}`] *)
Definition customer_name (d : db) (customerId : string) : string :=
  match find (user_has_id customerId) (users d) with
  | Some c => u_username c
  | None => ("customer_" ++ customerId)%string
  end.

(** [WHERE user_id = ? AND merchant_id = ? AND status = "active"] *)
Definition sent_to (customerId : string) (merchantId : Z) (f : file_upload) : bool :=
  int_col_eq (fu_user_id f) (VText customerId) &&
  int_col_eq (fu_merchant_id f) (VInt merchantId) &&
  String.eqb (fu_status f) "active".

(** [app.get('/api/merchant/customer/:customerId/download-all')] *)
Definition download_all (req : download_request) : M unit :=
  u <- merchant_of_token (dq_auth req) ;;
  let customerId := dq_customerId req in
  d <- get_db ;;
  emit (ev_sql sql_select t_file_uploads) ;;
  let photos := filter (sent_to customerId (p_id u)) (file_uploads d) in
  if (List.length photos =? 0)%nat
  then reply 404 (b_error err_no_photos)
  else
    emit (ev_sql sql_select t_users) ;;
    let customerName := customer_name d customerId in
    let zipFileName :=
      (customerName ++ "_photos_" ++ dq_stamp req ++ ".zip")%string in
    zip_response req u photos zipFileName op_batch_download.

(** The id list of the selected download: an array as it is, a text split
    at its commas; every item through [parseInt], [NaN] dropped. *)
Definition photo_id_array (ids : photo_ids) : error_msg + list Z :=
  let parse (l : list string) : list Z :=
    flat_map (fun id => match parseInt id with Some n => [n] | None => [] end) l in
  match ids with
  | ids_absent => inl err_no_photo_ids
  | ids_text s =>
      if String.eqb s "" then inl err_no_photo_ids
      else inr (parse (if has_comma s then split_commas s "" else [s]))
  | ids_array l => inr (parse l)
  | ids_object => inl err_bad_photo_ids
  end.

(** [WHERE id IN (..) AND user_id = ? AND merchant_id = ? AND status = "active"] *)
Definition selected (photoIdArray : list Z) (customerId : string)
    (merchantId : Z) (f : file_upload) : bool :=
  existsb (fun id => int_col_eq (fu_id f) (VInt id)) photoIdArray &&
  sent_to customerId merchantId f.

(** [app.get('/api/merchant/customer/:customerId/download-selected')] *)
Definition download_selected (req : download_request) : M unit :=
  u <- merchant_of_token (dq_auth req) ;;
  let customerId := dq_customerId req in
  match photo_id_array (dq_photoIds req) with
  | inl e => reply 400 (b_error e)
  | inr photoIdArray =>
      if (List.length photoIdArray =? 0)%nat
      then reply 400 (b_error err_select_photos)
      else
        d <- get_db ;;
        emit (ev_sql sql_select t_file_uploads) ;;
        let photos :=
          filter (selected photoIdArray customerId (p_id u)) (file_uploads d) in
        if (List.length photos =? 0)%nat
        then reply 404 (b_error err_no_photos)
        else
          emit (ev_sql sql_select t_users) ;;
          let customerName := customer_name d customerId in
          match photos with
          | [photo] =>
              if negb (dq_exists req (fu_file_name photo))
              then
                recordDownloadStatus (dq_now req) (fu_id photo) (p_id u)
                  "single" "failed" None (Some missing_on_disk) ;;
                reply 404 (b_error err_file_not_found)
              else
                recordDownloadStatus (dq_now req) (fu_id photo) (p_id u)
                  "single" "success" (Some (fu_original_name photo)) None ;;
                logOperation (dq_now req) (p_id u) op_download ;;
                emit (ev_attachment (fu_original_name photo)) ;;
                emit (ev_content_type "application/octet-stream") ;;
                emit (ev_send_file (fu_file_name photo)) ;;
                stop
          | _ =>
              let zipFileName :=
                (customerName ++ "_selected_" ++
                 NilZero.string_of_uint (Nat.to_uint (List.length photos)) ++
                 "photos_" ++ dq_stamp req ++ ".zip")%string in
              zip_response req u photos zipFileName op_batch_download_selected
          end
  end.

(** ** Sample data *)

Definition sample_time : string := "2025-10-02T10:00:00.000Z".

Definition sample_users : list user :=
  [mkUser 1 "admin" admin active None;
   mkUser 2 "shop" merchant active None;
   mkUser 3 "alice" customer active None;
   mkUser 4 "bob" customer active None;
   mkUser 5 "helper" sub_admin active None].

Definition sample_file (id owner : Z) (name stored : string) (sz : Z)
    (type mime status : string) (edits : Z) : file_upload :=
  mkFile id owner 2 name stored ("uploads/" ++ stored)%string sz type mime None
         sample_time status "received" (Some edits) None.

Definition photo_a : file_upload :=
  sample_file 1 3 "a.jpg" "1_a.jpg" 1000 "image" "image/jpeg" "active" 9.
Definition photo_b : file_upload :=
  sample_file 2 3 "b.zip" "2_b.zip" 5000 "archive" "application/zip" "active" 0.
Definition photo_c : file_upload :=
  sample_file 3 4 "c.png" "3_c.png" 2000 "image" "image/png" "deleted" 10.
Definition photo_d : file_upload :=
  sample_file 4 4 "d.png" "4_d.png" 3000 "image" "image/png" "active" 0.

Definition sample_db : db :=
  mkDb sample_users [photo_a; photo_b; photo_c; photo_d] [] [].

Definition alice : principal := mkPrincipal 3 customer.
Definition shop : principal := mkPrincipal 2 merchant.

(** The sub-admin asks to disable user [01]. *)
Definition disable_01 : status_request :=
  mkStatusReq (mkPrincipal 5 sub_admin) "01" (Some "disabled") (Some "cleanup")
              sample_time.

(** The merchant downloads what a customer sent; only [on_disk] exists. *)
Definition sample_download (customerId : string) (ids : photo_ids)
    (on_disk : list string) : download_request :=
  mkDownloadReq (verified shop) customerId ids (includes on_disk)
                archive_end true "1759399200000" sample_time.

Definition sample_clock : clock :=
  mkClock "2025-10-02T00:00:00.000Z" "2025-09-25T10:00:00.000Z"
          "2025-09-02T10:00:00.000Z" (fun s => Some s).

Definition sample_list : list_request :=
  mkListReq alice "3" (Some "1") (Some "10") (Some "received") (Some "week")
            None None sample_clock.

(** The sum of the sizes of a list of parts. *)
Definition sizes_of (parts : list part) : Z :=
  fold_right (fun p acc => size p + acc) 0 parts.

(** Two archives of 40MB each, sent to the sample merchant. *)
Definition two_archives : upload_request :=
  mkUploadReq alice (Some "2") None
    [mkPart "files" "first.zip" "application/zip" (40 * 1024 * 1024);
     mkPart "files" "second.rar" "application/octet-stream" (40 * 1024 * 1024)]
    (fun i => if (i =? 0)%nat then "10_first.zip" else "11_second.rar")
    sample_time.

(** Bob's only active photo, present on disk. *)
Definition all_of_bob : download_request :=
  sample_download "4" ids_absent ["4_d.png"].

Definition selected_of_bob : download_request :=
  sample_download "4" (ids_text "4") ["4_d.png"].

(** Alice's two photos, the second one missing on disk. *)
Definition all_of_alice : download_request :=
  sample_download "3" ids_absent ["1_a.jpg"].

Definition selected_of_alice : download_request :=
  sample_download "3" (ids_text "1,2") ["1_a.jpg"].

(** The ledger rows with status success. *)
Definition success_rows (d : db) : list download_row :=
  filter (fun r => String.eqb (ds_status r) "success") (download_status d).

(** The archive entries of a trace, by entry name. *)
Definition archive_entries (tr : list event) : list string :=
  flat_map (fun e => match e with
                     | ev_archive_file _ name => [name]
                     | _ => []
                     end) tr.

(** Alice edits the remarks of her first photo. *)
Definition edit_a : file_request :=
  mkFileReq alice "1" (Some "please crop") "2025-10-03T08:00:00.000Z".

Definition merchant_probe : duplicate_request :=
  mkDupReq shop (VInt 2) (Some ["a.jpg"]).

(** The rows the batch handlers append for one asset. *)
Definition failed_row (req : download_request) (merchantId : Z)
    (photo : file_upload) : download_row :=
  mkDownload (fu_id photo) merchantId "batch" "failed" (dq_now req) None
             (Some missing_on_disk).

Definition success_row (req : download_request) (merchantId : Z)
    (zipFileName : string) (photo : file_upload) : download_row :=
  mkDownload (fu_id photo) merchantId "batch" "success" (dq_now req)
             (Some zipFileName) None.

Definition on_disk (req : download_request) (photos : list file_upload)
  : list file_upload :=
  filter (fun p => dq_exists req (fu_file_name p)) photos.

Definition not_on_disk (req : download_request) (photos : list file_upload)
  : list file_upload :=
  filter (fun p => negb (dq_exists req (fu_file_name p))) photos.

(** The database with rows appended to the ledger. *)
Definition ledger_plus (d : db) (rows : list download_row) : db :=
  mkDb (users d) (file_uploads d) (download_status d ++ rows) (operation_logs d).

(** ** Further definitions for the properties of the handlers *)

From Stdlib Require Import Sorting.Sorted.

(** The stored files a trace hands out: sent directly or put in an archive. *)
Definition served_files (tr : list event) : list string :=
  flat_map (fun e => match e with
                     | ev_send_file s => [s]
                     | ev_archive_file s _ => [s]
                     | _ => []
                     end) tr.

(** A second edit of the same photo by Alice, and one by Bob on his own. *)
Definition edit_a_again : file_request :=
  mkFileReq alice "1" (Some "no, keep it") "2025-10-03T09:00:00.000Z".

Definition edit_d : file_request :=
  mkFileReq (mkPrincipal 4 customer) "4" (Some "for the album")
            "2025-10-03T10:00:00.000Z".

Fixpoint repeat_text (n : nat) (s : string) : string :=
  match n with
  | O => ""
  | S m => (s ++ repeat_text m s)%string
  end.

(** A remark of 167 characters of three bytes each. *)
Definition long_remark : string := repeat_text 167 "好".

Definition edit_d_long : file_request :=
  mkFileReq (mkPrincipal 4 customer) "4" (Some long_remark)
            "2025-10-03T11:00:00.000Z".

(** What the insert loop stores for one part of an upload by [uid] to the
    merchant [mid]; the status columns are left to the table defaults. *)
Definition stored_as (req : upload_request) (mid : Z) (p : part)
    (r : file_upload) : Prop :=
  fu_user_id r = p_id (ur_user req) /\
  fu_merchant_id r = mid /\
  fu_original_name r = originalname p /\
  fu_file_size r = size p /\
  fu_file_type r = (if isImage p then "image" else "archive") /\
  fu_mime_type r = mimetype p /\
  fu_remarks r = given (ur_remarks req) /\
  fu_upload_time r = ur_now req.

(** Alice sends one picture and one archive to the sample merchant. *)
Definition picture_and_archive : upload_request :=
  mkUploadReq alice (Some "2") (Some "wedding")
    [mkPart "files" "ring.JPG" "application/octet-stream" 2000000;
     mkPart "files" "all.zip" "application/zip" 60000]
    (fun i => if (i =? 0)%nat then "20_ring.JPG" else "21_all.zip")
    sample_time.

(** The order of the customer list, read on the returned rows: rows that
    are not deleted come first and, within each group, later uploads
    first. *)
Definition shown_before (a b : file_view) : Prop :=
  let rank v := if String.eqb (v_status v) "deleted" then 1 else 0 in
  rank a < rank b \/
  (rank a = rank b /\ String.leb (v_upload_time b) (v_upload_time a) = true).

(** ** Further handlers *)

(** The messages and the log codes of the following handlers that the
    enumerations above do not name; the handlers are given for any choice
    of them. *)
Record tags := mkTags {
  tag_invalid_status : error_msg;       (* 400 on a process status out of the three *)
  tag_photo_missing : error_msg;        (* 404 on a photo that is not the merchant's *)
  tag_access_denied : error_msg;        (* 403 of the file route *)
  tag_update_photo_status : operation;  (* 'update_photo_status' *)
  tag_download_photo : operation        (* 'download_photo' *)
}.

(** *** Process status of a photo *)

Record photo_status_request := mkPhotoStatusReq {
  ps_user : principal;                  (* req.user *)
  ps_photoId : string;                  (* req.params.photoId *)
  ps_process_status : option string;    (* req.body.process_status when it is a string *)
  ps_now : string
}.

Definition validStatuses : list string := ["received"; "processing"; "shipped"].

(** [WHERE id = ? AND merchant_id = ? AND status = "active"] *)
Definition merchant_photo (photoId : string) (merchantId : Z)
    (f : file_upload) : bool :=
  int_col_eq (fu_id f) (VText photoId) &&
  int_col_eq (fu_merchant_id f) (VInt merchantId) &&
  String.eqb (fu_status f) "active".

(** [SET process_status = ?] *)
Definition set_process_status (v : string) (f : file_upload) : file_upload :=
  mkFile (fu_id f) (fu_user_id f) (fu_merchant_id f) (fu_original_name f)
         (fu_file_name f) (fu_file_path f) (fu_file_size f) (fu_file_type f)
         (fu_mime_type f) (fu_remarks f) (fu_upload_time f) (fu_status f)
         v (fu_edit_count f) (fu_last_edit_time f).

(** [app.put('/api/merchant/photo/:photoId/status')]; the UPDATE names the
    id alone. *)
Definition put_photo_status (t : tags) (req : photo_status_request) : M unit :=
  if negb (role_eqb (p_role (ps_user req)) merchant)
  then reply 403 (b_error err_forbidden)
  else
    let photoId := ps_photoId req in
    match ps_process_status req with
    | None => reply 400 (b_error (tag_invalid_status t))
    | Some process_status =>
        if negb (includes validStatuses process_status)
        then reply 400 (b_error (tag_invalid_status t))
        else
          d <- get_db ;;
          emit (ev_sql sql_select t_file_uploads) ;;
          match find (merchant_photo photoId (p_id (ps_user req)))
                     (file_uploads d) with
          | None => reply 404 (b_error (tag_photo_missing t))
          | Some photo =>
              update_files (fun f => int_col_eq (fu_id f) (VText photoId))
                           (set_process_status process_status) ;;
              logOperation (ps_now req) (p_id (ps_user req))
                           (tag_update_photo_status t) ;;
              reply 200 b_ok
          end
    end.

(** *** Download of one photo *)

Record photo_download_request := mkPhotoDownloadReq {
  pd_auth : auth;
  pd_photoId : string;              (* req.params.photoId *)
  pd_exists : string -> bool;       (* fs.existsSync on uploads/<file_name> *)
  pd_send_error : option string;    (* the error res.sendFile reports, if any *)
  pd_dirname : string;              (* __dirname *)
  pd_now : string
}.

(** [app.get('/api/merchant/photo/:photoId/download')]; the outcome is
    recorded in the callback of [res.sendFile]. *)
Definition photo_download (t : tags) (req : photo_download_request) : M unit :=
  u <- merchant_of_token (pd_auth req) ;;
  d <- get_db ;;
  emit (ev_sql sql_select t_file_uploads) ;;
  match find (merchant_photo (pd_photoId req) (p_id u)) (file_uploads d) with
  | None => reply 404 (b_error (tag_photo_missing t))
  | Some photo =>
      let filePath :=
        (pd_dirname req ++ "/uploads/" ++ fu_file_name photo)%string in
      if negb (pd_exists req (fu_file_name photo))
      then
        recordDownloadStatus (pd_now req) (fu_id photo) (p_id u)
          "single" "failed" None (Some missing_on_disk) ;;
        reply 404 (b_error err_file_not_found)
      else
        emit (ev_attachment (fu_original_name photo)) ;;
        emit (ev_content_type
                (if String.eqb (fu_mime_type photo) ""
                 then "application/octet-stream" else fu_mime_type photo)) ;;
        emit (ev_send_file (fu_file_name photo)) ;;
        match pd_send_error req with
        | Some message =>
            recordDownloadStatus (pd_now req) (fu_id photo) (p_id u)
              "single" "failed" None (Some message)
        | None =>
            recordDownloadStatus (pd_now req) (fu_id photo) (p_id u)
              "single" "success" (Some filePath) None ;;
            logOperation (pd_now req) (p_id u) (tag_download_photo t)
        end
  end.

(** *** Access to a stored file *)

Record file_access_request := mkFileAccessReq {
  fa_user : principal;              (* req.user *)
  fa_filename : string;             (* req.params.filename *)
  fa_exists : string -> bool        (* fs.existsSync on uploads/<filename> *)
}.

(** The three queries of the file route: a customer's own rows, a
    merchant's received rows, any row for the other roles. *)
Definition may_read (u : principal) (filename : string) (f : file_upload) : bool :=
  String.eqb (fu_file_name f) filename &&
  match p_role u with
  | customer => int_col_eq (fu_user_id f) (VInt (p_id u))
  | merchant => int_col_eq (fu_merchant_id f) (VInt (p_id u))
  | _ => true
  end.

(** [mimeTypes[ext] || 'application/octet-stream'] *)
Definition content_type_of (ext : string) : string :=
  if String.eqb ext ".jpg" then "image/jpeg"
  else if String.eqb ext ".jpeg" then "image/jpeg"
  else if String.eqb ext ".png" then "image/png"
  else if String.eqb ext ".gif" then "image/gif"
  else if String.eqb ext ".webp" then "image/webp"
  else if String.eqb ext ".zip" then "application/zip"
  else if String.eqb ext ".rar" then "application/x-rar-compressed"
  else if String.eqb ext ".7z" then "application/x-7z-compressed"
  else "application/octet-stream".

(** [app.get('/uploads/:filename')] *)
Definition get_upload_file (t : tags) (req : file_access_request) : M unit :=
  let filename := fa_filename req in
  if negb (fa_exists req filename)
  then reply 404 (b_error err_file_not_found)
  else
    d <- get_db ;;
    emit (ev_sql sql_select t_file_uploads) ;;
    match find (may_read (fa_user req) filename) (file_uploads d) with
    | None => reply 403 (b_error (tag_access_denied t))
    | Some file =>
        emit (ev_content_type (content_type_of (toLowerCase (extname filename)))) ;;
        emit (ev_send_file filename)
    end.

(** *** The merchants offered to a customer *)

(** [SELECT id, username FROM users WHERE role = 'merchant' AND status =
    'active' ORDER BY username], the statement of [/api/merchants]. *)
Definition merchants_query (d : db) : list (Z * string) :=
  map (fun u => (u_id u, u_username u))
      (order_by (fun a b => String.leb (u_username a) (u_username b))
         (filter (fun u => role_eqb (u_role u) merchant &&
                           match u_status u with
                           | active => true
                           | disabled => false
                           end) (users d))).

(** Sample tags and requests. *)
Definition sample_tags : tags :=
  mkTags err_missing_params err_no_photos err_forbidden op_edit_remarks op_download.

Definition ship_a : photo_status_request :=
  mkPhotoStatusReq shop "1" (Some "shipped") sample_time.

Definition fetch_a : photo_download_request :=
  mkPhotoDownloadReq (verified shop) "1" (includes ["1_a.jpg"]) None
                     "/srv/app" sample_time.

Definition read_a : file_access_request :=
  mkFileAccessReq alice "1_a.jpg" (includes ["1_a.jpg"]).

(** The sub-admin disables the sample merchant, by id text. *)
Definition disable_shop : status_request :=
  mkStatusReq (mkPrincipal 5 sub_admin) "2" (Some "disabled") (Some "fraud")
              sample_time.

(** *** The customers of a merchant *)

(** A row of the customers query. *)
Record customer_row := mkCustomerRow {
  cr_id : Z;
  cr_username : string;
  cr_status : user_status;
  cr_file_count : Z;                (* COUNT(fu.id) *)
  cr_last_upload_time : string      (* MAX(fu.upload_time) *)
}.

(** [INNER JOIN file_uploads fu ON u.id = fu.user_id WHERE fu.merchant_id = ?]:
    the rows joined to one user; the status of a row is not looked at. *)
Definition sent_by (d : db) (merchantId : Z) (u : user) : list file_upload :=
  filter (fun fu => (u_id u =? fu_user_id fu) &&
                    int_col_eq (fu_merchant_id fu) (VInt merchantId))
         (file_uploads d).

(** [MAX] of a non-empty group of texts. *)
Definition max_text (l : list string) : string :=
  fold_right (fun t acc => if String.leb acc t then t else acc) "" l.

(** [WHERE ... AND u.role = 'customer' GROUP BY u.id, u.username, u.status]:
    [id] is the key of [users], so a group is the rows joined to one user,
    and a user without joined rows has no group. *)
Definition customer_groups (d : db) (merchantId : Z) : list customer_row :=
  flat_map (fun u =>
              if role_eqb (u_role u) customer
              then match sent_by d merchantId u with
                   | [] => []
                   | l => [mkCustomerRow (u_id u) (u_username u) (u_status u)
                             (Z.of_nat (List.length l))
                             (max_text (map fu_upload_time l))]
                   end
              else [])
           (users d).

(** What [/api/merchant/customers] answers: an error, or a page of rows. *)
Inductive customers_reply :=
| customers_error (code : Z) (e : error_msg)
| customers_page (customers : list customer_row) (pg : pagination).

(** [app.get('/api/merchant/customers')]: COUNT(DISTINCT u.id) is the
    number of groups; the list is [ORDER BY last_upload_time DESC LIMIT ?
    OFFSET ?]. The handler reads only. *)
Definition get_merchant_customers (req : list_request) (d : db)
  : customers_reply :=
  if negb (role_eqb (p_role (lr_user req)) merchant)
  then customers_error 403 err_forbidden
  else
    let pageNum := page_number req in
    let limitNum := limit_number 10 req in
    let offset := (pageNum - 1) * limitNum in
    let groups := customer_groups d (p_id (lr_user req)) in
    let total := Z.of_nat (List.length groups) in
    customers_page
      (limit_offset limitNum offset
         (order_by (fun a b => String.leb (cr_last_upload_time b)
                                          (cr_last_upload_time a)) groups))
      (mkPagination pageNum limitNum total (ceil_div total limitNum)).

(** Further sample requests. *)
Definition customer_probe : duplicate_request :=
  mkDupReq alice (VInt 2) (Some ["a.jpg"; "new.jpg"]).

Definition bob_list : list_request :=
  mkListReq (mkPrincipal 4 customer) "" None None None None None None
            sample_clock.

Definition photos_of_alice : list_request :=
  mkListReq shop "3" None None None None None None sample_clock.

Definition customers_of_shop : list_request :=
  mkListReq shop "" None None None None None None sample_clock.

(** The sub-admin asks to enable user [1]. *)
Definition enable_1 : status_request :=
  mkStatusReq (mkPrincipal 5 sub_admin) "1" (Some "active") None sample_time.

(** Nothing that Alice sent is on disk. *)
Definition lost_of_alice : download_request :=
  sample_download "3" ids_absent [].

(** The sub-admin disables Bob without a reason. *)
Definition disable_bob : status_request :=
  mkStatusReq (mkPrincipal 5 sub_admin) "4" (Some "disabled") None sample_time.

(** The merchant asks to ship a photo that does not exist. *)
Definition ship_missing : photo_status_request :=
  mkPhotoStatusReq shop "999" (Some "shipped") sample_time.

(** * Properties *)

(** ** Monad and table lemmas *)

Lemma response_of_json_last (tr : list event) (c : Z) (b : body) :
  response_of (tr ++ [ev_json c b]) = Some (c, b).
Proof.
  induction tr as [|e tr IH]; simpl; [reflexivity|now rewrite IH].
Qed.

Lemma key_injective {A} (key : A -> Z) (l : list A) (a b : A) :
  NoDup (map key l) -> In a l -> In b l -> key a = key b -> a = b.
Proof.
  induction l as [|x l IH]; simpl; intros Hnd Ha Hb Hk; [contradiction|].
  inversion Hnd as [|? ? Hnot Hnd']; subst.
  destruct Ha as [->|Ha], Hb as [->|Hb]; auto.
  - exfalso; apply Hnot. rewrite Hk. now apply in_map.
  - exfalso; apply Hnot. rewrite <- Hk. now apply in_map.
Qed.

Lemma owned_by_same_id (i : string) (u : Z) (a b : file_upload) :
  owned_by i u a = true -> owned_by i u b = true -> fu_id a = fu_id b.
Proof.
  unfold owned_by, int_col_eq; intros Ha Hb.
  apply andb_prop in Ha, Hb. destruct Ha as [Ha _], Hb as [Hb _].
  destruct (int_of_text i); [|discriminate].
  apply Z.eqb_eq in Ha, Hb. congruence.
Qed.

(** With a primary key, the row [db.get] returns is the only row the
    [UPDATE] with the same [WHERE] touches. *)
Lemma update_only_found (i : string) (u : Z) (set : file_upload -> file_upload)
    (l : list file_upload) (f : file_upload) :
  NoDup (map fu_id l) ->
  find (owned_by i u) l = Some f ->
  map (fun r => if owned_by i u r then set r else r) l =
  map (fun r => if Z.eqb (fu_id r) (fu_id f) then set r else r) l.
Proof.
  intros Hnd Hf. apply find_some in Hf. destruct Hf as [Hin Hp].
  apply map_ext_in. intros r Hr.
  destruct (owned_by i u r) eqn:Hr'.
  - rewrite (owned_by_same_id _ _ _ _ Hr' Hp), Z.eqb_refl. reflexivity.
  - destruct (Z.eqb_spec (fu_id r) (fu_id f)) as [E|E]; [|reflexivity].
    rewrite (key_injective fu_id l r f Hnd Hr Hin E) in Hr'. congruence.
Qed.

Lemma update_keeps_ids (p : file_upload -> bool) (set : file_upload -> file_upload)
    (l : list file_upload) :
  (forall r, fu_id (set r) = fu_id r) ->
  map fu_id (map (fun r => if p r then set r else r) l) = map fu_id l.
Proof.
  intros Hset. rewrite map_map. apply map_ext. intros r.
  destruct (p r); auto.
Qed.

(** ** Remarks editing *)

Ltac unfold_handler :=
  unfold run, select_owned, update_files, logOperation, recordDownloadStatus,
    reply, stop, emit, get_db, put_db, bind, ret; simpl.

Lemma put_remarks_check_step (req : file_request) (s : state) :
  let p := owned_by (fr_id req) (p_id (fr_user req)) in
  let selected := st_trace s ++ [ev_sql sql_select t_file_uploads] in
  put_remarks_check req s =
  if (500 <? isLength_len (remarks_text (fr_remarks req)))%nat
  then (returned, mkState (st_db s) (st_trace s ++ [ev_json 400 b_validation]))
  else match find p (file_uploads (st_db s)) with
       | None =>
           (returned,
            mkState (st_db s)
                    (selected ++ [ev_json 404 (b_error err_file_not_found)]))
       | Some f =>
           if String.eqb (fu_status f) "deleted"
           then (returned,
                 mkState (st_db s)
                         (selected ++ [ev_json 400 (b_error err_deleted_no_edit)]))
           else if edit_count_of f >=? 10
           then (returned,
                 mkState (st_db s)
                         (selected ++ [ev_json 400 (b_error err_edit_limit)]))
           else (next (edit_count_of f), mkState (st_db s) selected)
       end.
Proof.
  intros p selected. unfold put_remarks_check.
  destruct (500 <? _)%nat; [reflexivity|].
  unfold select_owned, reply, stop, emit, get_db, bind, ret. cbn [st_db st_trace].
  fold p. destruct (find p (file_uploads (st_db s))) as [f|]; [|reflexivity].
  destruct (String.eqb (fu_status f) "deleted"); [reflexivity|].
  destruct (edit_count_of f >=? 10); reflexivity.
Qed.

Lemma put_remarks_update_step (req : file_request) (c : Z) (s : state) :
  put_remarks_update req c s =
  (returned,
   mkState
     (mkDb (users (st_db s))
           (map (fun r => if owned_by (fr_id req) (p_id (fr_user req)) r
                          then set_remarks (fr_remarks req) (fr_now req) r
                          else r) (file_uploads (st_db s)))
           (download_status (st_db s))
           (operation_logs (st_db s) ++
              [mkLog (p_id (fr_user req)) op_edit_remarks (fr_now req)]))
     (((st_trace s ++ [ev_sql sql_update t_file_uploads])
         ++ [ev_sql sql_insert t_operation_logs])
        ++ [ev_json 200 (b_edit (c + 1) (10 - (c + 1)))])).
Proof. reflexivity. Qed.

Lemma put_remarks_step (req : file_request) (d : db) :
  let p := owned_by (fr_id req) (p_id (fr_user req)) in
  run (put_remarks req) d =
  if (500 <? isLength_len (remarks_text (fr_remarks req)))%nat
  then mkState d [ev_json 400 b_validation]
  else match find p (file_uploads d) with
       | None =>
           mkState d [ev_sql sql_select t_file_uploads;
                      ev_json 404 (b_error err_file_not_found)]
       | Some f =>
           if String.eqb (fu_status f) "deleted"
           then mkState d [ev_sql sql_select t_file_uploads;
                           ev_json 400 (b_error err_deleted_no_edit)]
           else if edit_count_of f >=? 10
           then mkState d [ev_sql sql_select t_file_uploads;
                           ev_json 400 (b_error err_edit_limit)]
           else mkState
                  (mkDb (users d)
                        (map (fun r => if p r
                                       then set_remarks (fr_remarks req) (fr_now req) r
                                       else r) (file_uploads d))
                        (download_status d)
                        (operation_logs d ++
                           [mkLog (p_id (fr_user req)) op_edit_remarks (fr_now req)]))
                  [ev_sql sql_select t_file_uploads;
                   ev_sql sql_update t_file_uploads;
                   ev_sql sql_insert t_operation_logs;
                   ev_json 200 (b_edit (edit_count_of f + 1)
                                       (10 - (edit_count_of f + 1)))]
       end.
Proof.
  intros p. unfold run, put_remarks, bind.
  rewrite put_remarks_check_step. cbn [st_db st_trace]. fold p.
  destruct (500 <? _)%nat; [reflexivity|].
  destruct (find p (file_uploads d)) as [f|]; [|reflexivity].
  destruct (String.eqb (fu_status f) "deleted"); [reflexivity|].
  destruct (edit_count_of f >=? 10); [reflexivity|].
  rewrite put_remarks_update_step. reflexivity.
Qed.

Lemma put_remarks_preserves (req : file_request) (d : db) :
  file_ids_unique d -> edits_capped d ->
  file_ids_unique (st_db (run (put_remarks req) d)) /\
  edits_capped (st_db (run (put_remarks req) d)).
Proof.
  intros Hu Hc. rewrite put_remarks_step.
  destruct (500 <? _)%nat; [now split|].
  destruct (find _ (file_uploads d)) as [f|] eqn:Hf; [|now split].
  destruct (String.eqb (fu_status f) "deleted"); [now split|].
  destruct (Z.geb_spec (edit_count_of f) 10) as [|Hlt]; [now split|].
  unfold file_ids_unique, edits_capped in *; simpl. split.
  - rewrite update_keeps_ids; auto.
  - rewrite (update_only_found _ _ _ _ f Hu Hf).
    rewrite Forall_forall in *. intros r' Hr'.
    apply in_map_iff in Hr'. destruct Hr' as [r [<- Hr]].
    destruct (Z.eqb_spec (fu_id r) (fu_id f)) as [E|E]; [|auto].
    apply find_some in Hf. destruct Hf as [Hin _].
    rewrite (key_injective fu_id _ r f Hu Hr Hin E).
    unfold edit_count_of at 1; simpl. lia.
Qed.

Lemma serve_remarks_capped (reqs : list file_request) :
  forall d, file_ids_unique d -> edits_capped d ->
            edits_capped (serve put_remarks reqs d).
Proof.
  induction reqs as [|r reqs IH]; simpl; intros d Hu Hc; [exact Hc|].
  destruct (put_remarks_preserves r d Hu Hc) as [Hu' Hc'].
  now apply IH.
Qed.

(** X26. For remark edits served one after the other, each to its end
    before the next begins: no edit counter ever exceeds 10; a request on
    a row that is deleted or has used its 10 edits is answered 400 and
    leaves the database as it was; a request on a row of the caller that is
    not deleted and has edits left, with remarks of at most 500
    characters, is answered 200; and a request answered 200 rewrites
    exactly the addressed row: remarks set to the submitted text, counter
    one higher, last edit time stamped. *)
Theorem serial_edits_capped (d : db) :
  file_ids_unique d ->
  edits_capped d ->
  (forall reqs, edits_capped (serve put_remarks reqs d)) /\
  (forall req f,
      find (owned_by (fr_id req) (p_id (fr_user req))) (file_uploads d) = Some f ->
      fu_status f = "deleted" \/ edit_count_of f = 10 ->
      st_db (run (put_remarks req) d) = d /\
      exists b, response_of (st_trace (run (put_remarks req) d)) = Some (400, b)) /\
  (forall req f,
      find (owned_by (fr_id req) (p_id (fr_user req))) (file_uploads d) = Some f ->
      fu_status f <> "deleted" ->
      edit_count_of f < 10 ->
      (isLength_len (remarks_text (fr_remarks req)) <= 500)%nat ->
      response_of (st_trace (run (put_remarks req) d))
        = Some (200, b_edit (edit_count_of f + 1) (10 - (edit_count_of f + 1)))) /\
  (forall req b,
      response_of (st_trace (run (put_remarks req) d)) = Some (200, b) ->
      exists f,
        find (owned_by (fr_id req) (p_id (fr_user req))) (file_uploads d) = Some f /\
        fu_status f <> "deleted" /\ edit_count_of f < 10 /\
        file_uploads (st_db (run (put_remarks req) d)) =
          map (fun r => if fu_id r =? fu_id f
                        then set_remarks (fr_remarks req) (fr_now req) r else r)
              (file_uploads d) /\
        In (set_remarks (fr_remarks req) (fr_now req) f)
           (file_uploads (st_db (run (put_remarks req) d))) /\
        fu_remarks (set_remarks (fr_remarks req) (fr_now req) f) = fr_remarks req /\
        edit_count_of (set_remarks (fr_remarks req) (fr_now req) f) =
          edit_count_of f + 1 /\
        fu_last_edit_time (set_remarks (fr_remarks req) (fr_now req) f) =
          Some (fr_now req)).
Proof.
  intros Hu Hc. split; [|split; [|split]].
  - intros reqs. now apply serve_remarks_capped.
  - intros req f Hf Hrej. rewrite put_remarks_step, Hf.
    destruct (500 <? _)%nat; [split; [reflexivity|now eexists]|].
    destruct (String.eqb_spec (fu_status f) "deleted") as [|Hnd];
      [split; [reflexivity|now eexists]|].
    destruct Hrej as [Hdel|Hten]; [contradiction|].
    rewrite Hten. simpl. split; [reflexivity|now eexists].
  - intros req f Hf Hnd Hlt Hlen. rewrite put_remarks_step, Hf.
    destruct (Nat.ltb_spec 500 (isLength_len (remarks_text (fr_remarks req))));
      [lia|].
    destruct (String.eqb_spec (fu_status f) "deleted") as [|_]; [contradiction|].
    destruct (Z.geb_spec (edit_count_of f) 10) as [|_]; [lia|].
    reflexivity.
  - intros req b. rewrite put_remarks_step.
    destruct (500 <? _)%nat; [discriminate|].
    destruct (find _ (file_uploads d)) as [f|] eqn:Hf; [|discriminate].
    destruct (String.eqb_spec (fu_status f) "deleted") as [|Hnd]; [discriminate|].
    destruct (Z.geb_spec (edit_count_of f) 10) as [|Hlt]; [discriminate|].
    intros _. exists f. simpl.
    repeat split; auto.
    + now apply update_only_found.
    + apply in_map_iff. exists f. apply find_some in Hf. destruct Hf as [Hin Hp].
      now rewrite Hp.
Qed.

(** *** Overlapping edits *)

Lemma begin_end_is_put_remarks (req : file_request) (s : state) :
  exists s2,
    act (edit_ends 0) (act (edit_begins req) (mkServer s [])) = mkServer s2 [] /\
    st_db s2 = st_db (run (put_remarks req) (st_db s)).
Proof.
  cbn [act sv_state sv_in_flight].
  rewrite put_remarks_step, put_remarks_check_step.
  destruct (500 <? _)%nat; [eexists; split; reflexivity|].
  destruct (find _ (file_uploads (st_db s))) as [f|];
    [|eexists; split; reflexivity].
  destruct (String.eqb (fu_status f) "deleted"); [eexists; split; reflexivity|].
  destruct (edit_count_of f >=? 10); [eexists; split; reflexivity|].
  cbn [app nth_error sv_in_flight sv_state remove_nth].
  rewrite put_remarks_update_step. eexists; split; reflexivity.
Qed.

(** Served one by one, the requests leave the database that [serve]
    computes, and nothing stays in flight. *)
Lemma one_by_one_serves (reqs : list file_request) :
  forall s : state,
    st_db (sv_state (fold_left (fun sv x => act x sv) (one_by_one reqs)
                               (mkServer s [])))
      = serve put_remarks reqs (st_db s) /\
    sv_in_flight (fold_left (fun sv x => act x sv) (one_by_one reqs)
                            (mkServer s [])) = [].
Proof.
  induction reqs as [|req reqs IH]; intros s; [now split|].
  cbn [one_by_one flat_map app fold_left serve]. fold (one_by_one reqs).
  destruct (begin_end_is_put_remarks req s) as (s2 & -> & <-).
  apply IH.
Qed.

(** C1, at two edits of one asset with 9 edits that overlap: both requests
    read the counter 9 before either UPDATE runs, both are answered 200
    with [editCount] 10, and the asset is left with the counter 11, above
    the cap, where the database held no counter above 10 before.  Served
    one after the other, the same two requests get 200 and then 400. *)
Theorem overlapping_edits_exceed_cap :
  edits_capped sample_db /\
  answers (st_trace (sv_state
             (play [edit_begins edit_a; edit_begins edit_a_again;
                    edit_ends 0; edit_ends 0] sample_db)))
    = [(200, b_edit 10 0); (200, b_edit 10 0)] /\
  option_map fu_edit_count
    (find (owned_by "1" 3)
       (file_uploads (st_db (sv_state
          (play [edit_begins edit_a; edit_begins edit_a_again;
                 edit_ends 0; edit_ends 0] sample_db)))))
    = Some (Some 11) /\
  ~ edits_capped (st_db (sv_state
       (play [edit_begins edit_a; edit_begins edit_a_again;
              edit_ends 0; edit_ends 0] sample_db))) /\
  answers (st_trace (sv_state
             (play (one_by_one [edit_a; edit_a_again]) sample_db)))
    = [(200, b_edit 10 0); (400, b_error err_edit_limit)].
Proof.
  split; [|split; [|split; [|split]]].
  - unfold edits_capped. simpl.
    repeat (apply Forall_cons; [vm_compute; discriminate|]). apply Forall_nil.
  - vm_compute. reflexivity.
  - vm_compute. reflexivity.
  - intros H. unfold edits_capped in H. apply Forall_inv in H.
    vm_compute in H. apply H. reflexivity.
  - vm_compute. reflexivity.
Qed.

(** ** Soft delete and restore *)

Lemma find_after_update (p : file_upload -> bool)
    (set : file_upload -> file_upload) (l : list file_upload) :
  (forall r, p (set r) = p r) ->
  find p (map (fun r => if p r then set r else r) l) = option_map set (find p l).
Proof.
  intros Hp. induction l as [|x l IH]; simpl; [reflexivity|].
  destruct (p x) eqn:Hx.
  - now rewrite Hp, Hx.
  - now rewrite Hx.
Qed.

Lemma owned_by_set_status (i : string) (u : Z) (v : string) (r : file_upload) :
  owned_by i u (set_status v r) = owned_by i u r.
Proof. reflexivity. Qed.

Lemma set_status_back (f : file_upload) :
  fu_status f = "active" -> set_status "active" (set_status "deleted" f) = f.
Proof. destruct f; simpl; intros ->; reflexivity. Qed.

Lemma delete_upload_step (req : file_request) (d : db) :
  let p := owned_by (fr_id req) (p_id (fr_user req)) in
  run (delete_upload req) d =
  match find p (file_uploads d) with
  | None => mkState d [ev_sql sql_select t_file_uploads;
                       ev_json 404 (b_error err_file_not_found)]
  | Some f =>
      if String.eqb (fu_status f) "deleted"
      then mkState d [ev_sql sql_select t_file_uploads;
                      ev_json 400 (b_error err_already_deleted)]
      else mkState
             (mkDb (users d)
                   (map (fun r => if p r then set_status "deleted" r else r)
                        (file_uploads d))
                   (download_status d)
                   (operation_logs d ++
                      [mkLog (p_id (fr_user req)) op_delete_file (fr_now req)]))
             [ev_sql sql_select t_file_uploads;
              ev_sql sql_update t_file_uploads;
              ev_sql sql_insert t_operation_logs;
              ev_json 200 b_ok]
  end.
Proof.
  intros p. unfold delete_upload. unfold_handler. fold p.
  destruct (find p (file_uploads d)) as [f|]; [|reflexivity].
  destruct (String.eqb (fu_status f) "deleted"); reflexivity.
Qed.

Lemma restore_upload_step (req : file_request) (d : db) :
  let p := owned_by (fr_id req) (p_id (fr_user req)) in
  run (restore_upload req) d =
  match find p (file_uploads d) with
  | None => mkState d [ev_sql sql_select t_file_uploads;
                       ev_json 404 (b_error err_file_not_found)]
  | Some f =>
      if String.eqb (fu_status f) "deleted"
      then mkState
             (mkDb (users d)
                   (map (fun r => if p r then set_status "active" r else r)
                        (file_uploads d))
                   (download_status d)
                   (operation_logs d ++
                      [mkLog (p_id (fr_user req)) op_restore_file (fr_now req)]))
             [ev_sql sql_select t_file_uploads;
              ev_sql sql_update t_file_uploads;
              ev_sql sql_insert t_operation_logs;
              ev_json 200 b_ok]
      else mkState d [ev_sql sql_select t_file_uploads;
                      ev_json 400 (b_error err_not_deleted)]
  end.
Proof.
  intros p. unfold restore_upload. unfold_handler. fold p.
  destruct (find p (file_uploads d)) as [f|]; [|reflexivity].
  destruct (String.eqb (fu_status f) "deleted"); reflexivity.
Qed.

(** C4. On a row of the caller: deleting it when it is already deleted is
    answered 400 and changes nothing; restoring it when it is active is
    answered 400 and changes nothing; deleting an active row and then
    restoring it succeeds twice, passes through status deleted and leaves
    the [file_uploads] table (hence every field of the row), the users and
    the download ledger exactly as they were. *)
Theorem delete_restore_guarded (d : db) (req : file_request) (f : file_upload) :
  file_ids_unique d ->
  find (owned_by (fr_id req) (p_id (fr_user req))) (file_uploads d) = Some f ->
  (fu_status f = "deleted" ->
     run (delete_upload req) d =
       mkState d [ev_sql sql_select t_file_uploads;
                  ev_json 400 (b_error err_already_deleted)]) /\
  (fu_status f = "active" ->
     run (restore_upload req) d =
       mkState d [ev_sql sql_select t_file_uploads;
                  ev_json 400 (b_error err_not_deleted)]) /\
  (fu_status f = "active" ->
     forall later : string,
       let req' := mkFileReq (fr_user req) (fr_id req) (fr_remarks req) later in
       let s1 := run (delete_upload req) d in
       let s2 := run (restore_upload req') (st_db s1) in
       response_of (st_trace s1) = Some (200, b_ok) /\
       find (owned_by (fr_id req) (p_id (fr_user req))) (file_uploads (st_db s1))
         = Some (set_status "deleted" f) /\
       response_of (st_trace s2) = Some (200, b_ok) /\
       file_uploads (st_db s2) = file_uploads d /\
       users (st_db s2) = users d /\
       download_status (st_db s2) = download_status d).
Proof.
  intros Hu Hf. split; [|split].
  - intros Hs. rewrite delete_upload_step, Hf, Hs. reflexivity.
  - intros Hs. rewrite restore_upload_step, Hf, Hs. reflexivity.
  - intros Hs later req' s1 s2. subst s2 s1.
    rewrite delete_upload_step, Hf, Hs. simpl.
    assert (Hfind : find (owned_by (fr_id req) (p_id (fr_user req)))
                      (map (fun r => if owned_by (fr_id req) (p_id (fr_user req)) r
                                     then set_status "deleted" r else r)
                           (file_uploads d)) = Some (set_status "deleted" f)).
    { rewrite find_after_update by apply owned_by_set_status. now rewrite Hf. }
    rewrite restore_upload_step. subst req'. simpl. rewrite Hfind. simpl.
    repeat split; auto.
    rewrite map_map. rewrite <- (map_id (file_uploads d)) at 2.
    apply map_ext_in. intros r Hr.
    destruct (owned_by (fr_id req) (p_id (fr_user req)) r) eqn:Hr'.
    + rewrite owned_by_set_status, Hr'.
      apply find_some in Hf. destruct Hf as [Hin Hp].
      assert (r = f) as ->.
      { apply (key_injective fu_id _ r f Hu Hr Hin).
        eapply owned_by_same_id; eauto. }
      now apply set_status_back.
    + now rewrite Hr'.
Qed.

(** ** Filters and pagination *)

Lemma where_placeholders_app (a b : list cond) :
  where_placeholders (a ++ b) = (where_placeholders a + where_placeholders b)%nat.
Proof. induction a as [|c a IH]; simpl; [reflexivity|]. rewrite IH. lia. Qed.

Lemma extends_refl (fl : filters) : extends fl fl.
Proof. exists [], []. now rewrite !app_nil_r. Qed.

Lemma extends_push (fl0 fl : filters) (c : cond) (vs : list sqlval) :
  extends fl0 fl -> placeholders c = List.length vs ->
  extends fl0 (push_filter c vs fl).
Proof.
  intros (cs & ps & Hw & Hq & Hc & Hn) Hlen.
  exists (cs ++ [c]), (ps ++ vs). simpl.
  rewrite Hw, Hq, Hc, !app_assoc, where_placeholders_app, !length_app. simpl.
  repeat split; lia.
Qed.

Lemma status_filter_extends (req : list_request) (fl0 fl : filters) :
  extends fl0 fl -> extends fl0 (status_filter req fl).
Proof.
  intros H. unfold status_filter.
  destruct (given (lr_status req)); [|exact H].
  destruct (existsb _ _); [|exact H].
  now apply extends_push.
Qed.

Lemma time_filter_extends (req : list_request) (fl0 fl fl' : filters) :
  extends fl0 fl -> time_filter req fl = Some fl' -> extends fl0 fl'.
Proof.
  intros H. unfold time_filter.
  destruct (given (lr_timeFilter req)) as [tf|]; [|intros [= <-]; exact H].
  destruct (String.eqb tf "today"); [intros [= <-]; now apply extends_push|].
  destruct (String.eqb tf "week"); [intros [= <-]; now apply extends_push|].
  destruct (String.eqb tf "month"); [intros [= <-]; now apply extends_push|].
  destruct (String.eqb tf "custom"); [|intros [= <-]; exact H].
  destruct (given (lr_startDate req)); [|intros [= <-]; exact H].
  destruct (given (lr_endDate req)); [|intros [= <-]; exact H].
  destruct (ck_iso _ _); [|discriminate].
  destruct (ck_iso _ _); [|discriminate].
  intros [= <-]. now apply extends_push.
Qed.

Lemma built_filters_extend (req : list_request) (fl0 fl : filters) :
  time_filter req (status_filter req fl0) = Some fl -> extends fl0 fl.
Proof.
  apply time_filter_extends, status_filter_extends, extends_refl.
Qed.

Lemma select_where_sound (cs : list cond) (ps : list sqlval)
    (rows l : list file_upload) :
  select_where cs ps rows = Some l ->
  l = filter (fun f => match eval_where cs ps f with
                       | Some b => b
                       | None => false
                       end) rows.
Proof.
  revert l. induction rows as [|f rows IH]; simpl; intros l.
  - destruct (_ =? _)%nat; [now intros [= <-]|discriminate].
  - destruct (eval_where cs ps f) as [b|]; [|discriminate].
    destruct (select_where cs ps rows) as [l'|]; [|discriminate].
    intros [= <-]. rewrite (IH l' eq_refl). now destruct b.
Qed.

Lemma in_insert_sorted {A} (before : A -> A -> bool) (x y : A) (l : list A) :
  In y (insert_sorted before x l) -> y = x \/ In y l.
Proof.
  induction l as [|z l IH]; simpl.
  - intros [<-|[]]; auto.
  - destruct (before x z); simpl; intros [H|H]; auto.
    destruct (IH H); auto.
Qed.

Lemma in_order_by {A} (before : A -> A -> bool) (y : A) (l : list A) :
  In y (order_by before l) -> In y l.
Proof.
  induction l as [|x l IH]; simpl; [auto|].
  intros H. apply in_insert_sorted in H. destruct H as [->|H]; auto.
Qed.

Lemma in_firstn {A} (n : nat) (y : A) (l : list A) :
  In y (firstn n l) -> In y l.
Proof.
  intros H. rewrite <- (firstn_skipn n l). apply in_or_app. now left.
Qed.

Lemma in_skipn {A} (n : nat) (y : A) (l : list A) :
  In y (skipn n l) -> In y l.
Proof.
  intros H. rewrite <- (firstn_skipn n l). apply in_or_app. now right.
Qed.

Lemma in_limit_offset {A} (limit offset : Z) (y : A) (l : list A) :
  In y (limit_offset limit offset l) -> In y l.
Proof.
  unfold limit_offset. destruct (limit <? 0); intros H.
  - now apply in_skipn in H.
  - now apply in_firstn, in_skipn in H.
Qed.

(** The parameter array of a list statement splits back into the values
    of the [WHERE] clause and the two pagination values. *)
Lemma where_params_split (cs : list cond) (ps tail : list sqlval) :
  where_placeholders cs = List.length ps ->
  firstn (where_placeholders cs) (ps ++ tail) = ps /\
  skipn (where_placeholders cs) (ps ++ tail) = tail.
Proof.
  intros ->. split.
  - rewrite firstn_app, Nat.sub_diag, firstn_all. simpl. apply app_nil_r.
  - rewrite skipn_app, Nat.sub_diag, skipn_all. reflexivity.
Qed.





Lemma get_uploads_response (req : list_request) (d : db)
    (code : Z) (files : list file_view) (pg : pagination) :
  response_of (st_trace (run (get_uploads req) d)) = Some (code, b_files files pg) ->
  exists fl rows,
    time_filter req
      (status_filter req
         (mkFilters [c_user_id] [VInt (p_id (lr_user req))]
                    [VInt (p_id (lr_user req))])) = Some fl /\
    queryParams fl = countParams fl /\
    where_placeholders (whereConditions fl) = List.length (countParams fl) /\
    select_where (whereConditions fl) (countParams fl) (file_uploads d) = Some rows /\
    files = map (view_of d)
              (limit_offset (pg_limit pg) ((pg_page pg - 1) * pg_limit pg)
                 (order_by (listed_before deleted_rank) rows)) /\
    pg = mkPagination (page_number req) (limit_number 10 req)
                      (Z.of_nat (List.length rows))
                      (ceil_div (Z.of_nat (List.length rows)) (limit_number 10 req)).
Proof.
  unfold get_uploads.
  destruct (time_filter _ _) as [fl|] eqn:Hfl; [|discriminate].
  pose proof (built_filters_extend _ _ _ Hfl) as (cs & ps & Hw & Hq & Hc & Hn).
  simpl in Hw, Hq, Hc.
  assert (Hqc : queryParams fl = countParams fl) by congruence.
  assert (Hfit : where_placeholders (whereConditions fl) =
                 List.length (countParams fl)).
  { rewrite Hw, Hc. simpl. now rewrite Hn. }
  unfold_handler. unfold files_statement, count_statement.
  rewrite Hqc.
  destruct (where_params_split (whereConditions fl) (countParams fl)
              [VInt (limit_number 10 req);
               VInt ((page_number req - 1) * limit_number 10 req)] Hfit)
    as [-> ->].
  destruct (select_where _ _ _) as [rows|] eqn:Hrows; simpl; [|discriminate].
  intros [= <- <- <-]. exists fl, rows. simpl. repeat split; auto.
Qed.

(** C3. Every row of a customer file list is the projection of a stored
    row whose [user_id] is the caller's id, whatever the page, limit, status
    and time parameters are. *)
Theorem customer_list_own_rows (req : list_request) (d : db)
    (code : Z) (files : list file_view) (pg : pagination) (v : file_view) :
  response_of (st_trace (run (get_uploads req) d)) = Some (code, b_files files pg) ->
  In v files ->
  exists f, In f (file_uploads d) /\
            fu_user_id f = p_id (lr_user req) /\
            v = view_of d f.
Proof.
  intros Hresp Hv.
  destruct (get_uploads_response _ _ _ _ _ Hresp)
    as (fl & rows & Hfl & _ & _ & Hrows & -> & _).
  pose proof (built_filters_extend _ _ _ Hfl) as (cs & ps & Hw & _ & Hc & _).
  simpl in Hw, Hc.
  apply in_map_iff in Hv. destruct Hv as (f & <- & Hf).
  apply in_limit_offset, in_order_by in Hf.
  rewrite (select_where_sound _ _ _ _ Hrows) in Hf.
  apply filter_In in Hf. destruct Hf as [Hin Hev].
  exists f. repeat split; auto.
  rewrite Hw, Hc in Hev. simpl in Hev.
  destruct (Z.eqb_spec (fu_user_id f) (p_id (lr_user req))) as [E|E]; [exact E|].
  simpl in Hev. destruct (eval_where cs ps f); discriminate.
Qed.

Lemma get_customer_photos_response (req : list_request) (d : db)
    (code : Z) (photos : list photo_view) (pg : pagination) :
  response_of (st_trace (run (get_customer_photos req) d))
    = Some (code, b_photos photos pg) ->
  exists fl rows,
    time_filter req
      (status_filter req
         (mkFilters [c_user_id; c_merchant_id]
                    [VInt (p_id (lr_user req)); VText (lr_customerId req);
                     VInt (p_id (lr_user req))]
                    [VText (lr_customerId req); VInt (p_id (lr_user req))]))
      = Some fl /\
    queryParams fl = VInt (p_id (lr_user req)) :: countParams fl /\
    where_placeholders (whereConditions fl) = List.length (countParams fl) /\
    select_where (whereConditions fl) (countParams fl) (file_uploads d) = Some rows /\
    photos = limit_offset (pg_limit pg) ((pg_page pg - 1) * pg_limit pg)
               (order_by (fun a b => listed_before inactive_rank
                                       (ph_file a) (ph_file b))
                  (flat_map (joined_photos d (VInt (p_id (lr_user req)))) rows)) /\
    pg = mkPagination (page_number req) (limit_number 20 req)
                      (Z.of_nat (List.length rows))
                      (ceil_div (Z.of_nat (List.length rows)) (limit_number 20 req)).
Proof.
  unfold get_customer_photos.
  destruct (role_eqb _ _); [|discriminate]. simpl.
  unfold_handler.
  destruct (find _ (users d)) as [cust|]; [|discriminate].
  destruct (u_status cust); [|discriminate].
  destruct (time_filter _ _) as [fl|] eqn:Hfl; [|discriminate].
  pose proof (built_filters_extend _ _ _ Hfl) as (cs & ps & Hw & Hq & Hc & Hn).
  simpl in Hw, Hq, Hc.
  assert (Hqc : queryParams fl = VInt (p_id (lr_user req)) :: countParams fl)
    by congruence.
  assert (Hfit : where_placeholders (whereConditions fl) =
                 List.length (countParams fl)).
  { rewrite Hw, Hc. simpl. now rewrite Hn. }
  unfold_handler. unfold photos_statement, count_statement.
  rewrite Hqc. simpl.
  destruct (where_params_split (whereConditions fl) (countParams fl)
              [VInt (limit_number 20 req);
               VInt ((page_number req - 1) * limit_number 20 req)] Hfit)
    as [-> ->].
  destruct (select_where _ _ _) as [rows|] eqn:Hrows; simpl; [|discriminate].
  intros [= <- <- <-]. exists fl, rows. simpl. repeat split; auto.
Qed.







(** ** User status change *)

(** The guard of the status route stops the request whose path id is
    exactly [1]. *)
Lemma patch_user_status_id_1 (req : status_request) (d : db) :
  sr_id req = "1" -> st_db (run (patch_user_status req) d) = d.
Proof.
  intros Hid. unfold patch_user_status, requireAdmin. rewrite Hid.
  unfold_handler.
  destruct (negb _ && negb _); [reflexivity|]. simpl.
  destruct (negb (status_body_valid req)); [reflexivity|].
  destruct (_ && falsy_text _); reflexivity.
Qed.

(** C8, at the request [PATCH /api/admin/users/01/status] with status
    [disabled] and a reason: the path id [01] is not the text [1], so the
    guard lets it through, and the statement [WHERE id = '01'] updates the
    row whose id is 1; the bootstrap admin ends up disabled. *)
Theorem patch_user_status_leading_zero :
  String.eqb (sr_id disable_01) "1" = false /\
  find (fun u => u_id u =? 1) (users sample_db)
    = Some (mkUser 1 "admin" admin active None) /\
  response_of (st_trace (run (patch_user_status disable_01) sample_db))
    = Some (200, b_ok) /\
  find (fun u => u_id u =? 1)
       (users (st_db (run (patch_user_status disable_01) sample_db)))
    = Some (mkUser 1 "admin" admin disabled (Some "cleanup")).
Proof. repeat split; reflexivity. Qed.

(** X25. A request to disable an account that gives no reason, or an empty
    one, leaves the database as it is. *)
Lemma disable_needs_reason (req : status_request) (d : db) :
  sr_status req = Some "disabled" ->
  falsy_text (sr_reason req) = true ->
  st_db (run (patch_user_status req) d) = d.
Proof.
  intros Hs Hr. unfold patch_user_status, requireAdmin. rewrite Hs, Hr.
  unfold_handler.
  destruct (negb _ && negb _); [reflexivity|]. simpl.
  destruct (negb (status_body_valid req)); reflexivity.
Qed.

(** A status change that passes the checks rewrites the rows the id
    selects: disabled with the submitted, non-empty reason, or active with
    the reason cleared. *)
Lemma patch_user_status_applied (req : status_request) (d : db) (b : body) :
  response_of (st_trace (run (patch_user_status req) d)) = Some (200, b) ->
  String.eqb (sr_id req) "1" = false /\
  ((sr_status req = Some "disabled" /\
    (exists reason, sr_reason req = Some reason /\ reason <> "") /\
    users (st_db (run (patch_user_status req) d)) =
      map (fun u => if user_has_id (sr_id req) u
                    then set_user_status disabled (sr_reason req) u else u)
          (users d)) \/
   (sr_status req = Some "active" /\
    users (st_db (run (patch_user_status req) d)) =
      map (fun u => if user_has_id (sr_id req) u
                    then set_user_status active None u else u)
          (users d))).
Proof.
  unfold patch_user_status, requireAdmin, status_body_valid, falsy_text.
  destruct (negb _ && negb _); [unfold_handler; discriminate|].
  destruct (sr_status req) as [st|]; [|unfold_handler; discriminate].
  destruct (String.eqb_spec st "active") as [->|Hna].
  - (* enabling *)
    destruct (sr_reason req) as [r|].
    + destruct (1 <=? isLength_len r)%nat; [|unfold_handler; discriminate].
      destruct (String.eqb (sr_id req) "1"); [unfold_handler; discriminate|].
      unfold_handler.
      destruct (find _ (users d)); [|discriminate]. simpl.
      intros _. split; [reflexivity|]. right. now split.
    + destruct (String.eqb (sr_id req) "1"); [unfold_handler; discriminate|].
      unfold_handler.
      destruct (find _ (users d)); [|discriminate]. simpl.
      intros _. split; [reflexivity|]. right. now split.
  - destruct (String.eqb_spec st "disabled") as [->|Hnd];
      [|unfold_handler; discriminate].
    (* disabling *)
    destruct (sr_reason req) as [r|]; [|unfold_handler; discriminate].
    destruct (Nat.leb_spec 1 (isLength_len r)) as [Hlen|];
      [|unfold_handler; discriminate].
    destruct (String.eqb_spec r "") as [->|Hr]; [simpl in Hlen; lia|].
    destruct (String.eqb (sr_id req) "1"); [unfold_handler; discriminate|].
    unfold_handler.
    destruct (find _ (users d)); [|discriminate]. simpl.
    intros _. split; [reflexivity|]. left.
    split; [reflexivity|]. split; [now exists r|reflexivity].
Qed.

(** ** Duplicate check *)

(** C10. A caller whose role is not customer gets 403 before any statement
    is issued; for every caller the check leaves the database as it was and
    issues no INSERT or UPDATE. *)
Theorem check_duplicate_customers_only (req : duplicate_request) (d : db) :
  (p_role (dr_user req) <> customer ->
     run (check_duplicate_files req) d =
       mkState d [ev_json 403 (b_error err_customers_only)]) /\
  st_db (run (check_duplicate_files req) d) = d /\
  writes (st_trace (run (check_duplicate_files req) d)) = [] /\
  (forall k t, In (ev_sql k t) (st_trace (run (check_duplicate_files req) d)) ->
               k = sql_select /\ p_role (dr_user req) = customer).
Proof.
  unfold check_duplicate_files.
  destruct (p_role (dr_user req)) eqn:Hrole; simpl.
  1-3: split; [reflexivity|split; [reflexivity|split; [reflexivity|]]];
       intros k t [H|[]]; discriminate.
  split; [intros H; now elim H|].
  destruct (dr_fileNames req) as [names|];
    [destruct (negb (truthy (dr_merchantId req)))|]; unfold_handler;
    (split; [reflexivity|split; [reflexivity|]]).
  - intros k t [H|[]]; discriminate.
  - intros k t [H|[H|[]]]; [|discriminate]. inversion H. now split.
  - intros k t [H|[]]; discriminate.
Qed.

(** ** Upload *)

Lemma includes_In (l : list string) (s : string) :
  includes l s = true -> In s l.
Proof.
  unfold includes. intros H. apply existsb_exists in H.
  destruct H as (x & Hx & E). apply String.eqb_eq in E. now subst.
Qed.

Lemma multer_array_ok (stored : nat -> string) (parts : list part) :
  forall seen left files,
    multer_array stored parts seen left = inr files ->
    map sf_part files = parts /\
    (List.length parts <= files_limit - seen)%nat /\
    Forall (fun p => fileFilter p = true) parts /\
    Forall (fun p => size p <= fileSize_limit) parts.
Proof.
  induction parts as [|p parts IH]; cbn [multer_array]; intros seen left files.
  - intros H. inversion H. simpl. repeat split; auto. lia.
  - destruct (Nat.leb_spec files_limit seen); [discriminate|].
    destruct (negb (String.eqb (fieldname p) "files") || (left =? 0)%nat);
      [discriminate|].
    destruct (fileFilter p) eqn:Hff; [|discriminate]. cbn [negb].
    destruct (Z.ltb_spec fileSize_limit (size p)); [discriminate|].
    destruct (multer_array stored parts (S seen) (left - 1)) as [e|fs] eqn:Hrec;
      [discriminate|].
    intros H'. inversion H'. destruct (IH _ _ _ Hrec) as (Hm & Hn & Hf & Hs).
    cbn [map List.length sf_part]. rewrite Hm. repeat split; auto. lia.
Qed.

Lemma image_totals_sum (files : list stored_file) :
  image_totals files =
  (sizes_of (filter isImage (map sf_part files)),
   Z.of_nat (List.length (filter isImage (map sf_part files)))).
Proof.
  unfold image_totals.
  assert (H : forall a n,
             fold_left (fun '(totalImageSize, imageCount) file =>
                          if isImage (sf_part file)
                          then (totalImageSize + size (sf_part file), imageCount + 1)
                          else (totalImageSize, imageCount)) files (a, n)
             = (a + sizes_of (filter isImage (map sf_part files)),
                n + Z.of_nat (List.length (filter isImage (map sf_part files))))).
  { induction files as [|f files IH]; intros a n; cbn [fold_left map filter].
    - simpl. f_equal; lia.
    - destruct (isImage (sf_part f)); rewrite IH; [|reflexivity].
      unfold sizes_of. cbn [fold_right List.length]. f_equal; lia. }
  rewrite H. f_equal.
Qed.

(** The insert loop always runs to its end; it only appends rows to
    [file_uploads]. *)
Lemma insert_uploads_runs (req : upload_request) (mid : Z)
    (files : list stored_file) :
  forall s, exists saved s',
    insert_uploads req mid files s = (next saved, s') /\
    users (st_db s') = users (st_db s) /\
    (List.length (file_uploads (st_db s')) =
       List.length (file_uploads (st_db s)) + List.length files)%nat.
Proof.
  induction files as [|f files IH]; intros s; cbn [insert_uploads].
  - exists [], s. unfold ret. repeat split. simpl. lia.
  - unfold insert_upload. unfold_handler.
    match goal with
    | |- context [insert_uploads req mid files ?s1] =>
        destruct (IH s1) as (saved & s' & Hrun & Hu & Hlen); rewrite Hrun
    end.
    eexists _, s'. split; [reflexivity|]. split; [exact Hu|].
    rewrite Hlen. simpl. rewrite length_app. simpl. lia.
Qed.

(** C7. An upload answered 200 had a merchant id selecting a user with
    role merchant and status active, between 1 and 20 files, every file of
    an allowed MIME type or an allowed extension, and at most 50MB of
    image-typed files in total, the archive-typed files not counted; an
    upload answered otherwise has written nothing to the database; and
    archives are indeed outside the aggregate cap: a batch of two 40MB
    archives is accepted. *)
Theorem upload_acceptance :
  (forall req d saved name,
      response_of (st_trace (run (post_upload req) d))
        = Some (200, b_uploaded saved name) ->
      (exists merchantId m,
          ur_merchantId req = Some merchantId /\
          In m (users d) /\ user_has_id merchantId m = true /\
          u_role m = merchant /\ u_status m = active) /\
      (1 <= List.length (ur_parts req) <= 20)%nat /\
      Forall (fun p =>
                In (mimetype p) (imageTypes ++ archiveTypes) \/
                In (toLowerCase (extname (originalname p)))
                   (imageExtensions ++ archiveExtensions)) (ur_parts req) /\
      sizes_of (filter isImage (ur_parts req)) <= 50 * 1024 * 1024 /\
      (List.length (file_uploads (st_db (run (post_upload req) d))) =
         List.length (file_uploads d) + List.length (ur_parts req))%nat) /\
  (forall req d,
      exists code b,
        response_of (st_trace (run (post_upload req) d)) = Some (code, b) /\
        (code = 200 \/
         code = 400 /\
         st_db (run (post_upload req) d) = d /\
         writes (st_trace (run (post_upload req) d)) = [])) /\
  (exists saved name,
      response_of (st_trace (run (post_upload two_archives) sample_db))
        = Some (200, b_uploaded saved name) /\
      50 * 1024 * 1024 <
        sizes_of (filter (fun p => negb (isImage p)) (ur_parts two_archives))).
Proof.
  split; [|split].
  - intros req d saved name. unfold post_upload.
    destruct (multer_array _ _ _ _) as [e|files] eqn:Hm; [discriminate|].
    destruct (multer_array_ok _ _ _ _ _ Hm) as (Hparts & Hn & Hff & _).
    destruct (ur_merchantId req) as [mid|] eqn:Hmid; [|discriminate].
    unfold given. destruct (String.eqb mid ""); [discriminate|].
    destruct (Nat.eqb_spec (List.length files) 0); [discriminate|].
    unfold_handler.
    destruct (find _ (users d)) as [m|] eqn:Hfind; [|discriminate].
    destruct (u_status m) eqn:Hst; [|discriminate].
    rewrite image_totals_sum, Hparts.
    destruct (Z.ltb_spec 20 (Z.of_nat (List.length (filter isImage (ur_parts req)))));
      [discriminate|].
    match goal with
    | |- context [?cap <? sizes_of ?l] =>
        destruct (Z.ltb_spec cap (sizes_of l)) as [|Hcap]; [discriminate|]
    end.
    match goal with
    | |- context [insert_uploads req (u_id m) files ?s1] =>
        destruct (insert_uploads_runs req (u_id m) files s1)
          as (sv & s' & Hrun & Hu & Hlen); rewrite Hrun
    end.
    intros _. apply find_some in Hfind. destruct Hfind as [Hin Hp].
    apply andb_prop in Hp. destruct Hp as [Hid Hrole].
    assert (Hlenparts : List.length files = List.length (ur_parts req)).
    { rewrite <- Hparts. now rewrite length_map. }
    split; [|split; [|split; [|split]]].
    + exists mid, m. repeat split; auto. now destruct (u_role m).
    + unfold files_limit in Hn. lia.
    + rewrite Forall_forall in *. intros p Hp. specialize (Hff p Hp).
      unfold fileFilter in Hff. apply orb_prop in Hff.
      destruct Hff as [Hin'|Hin']; apply includes_In in Hin'; auto.
    + exact Hcap.
    + simpl in *. lia.
  - intros req d. unfold post_upload.
    destruct (multer_array _ _ _ _) as [e|files] eqn:Hm;
      [do 2 eexists; split; [reflexivity|right; now repeat split]|].
    destruct (given (ur_merchantId req)) as [mid|];
      [|do 2 eexists; split; [reflexivity|right; now repeat split]].
    destruct (Nat.eqb_spec (List.length files) 0);
      [do 2 eexists; split; [reflexivity|right; now repeat split]|].
    unfold_handler.
    destruct (find _ (users d)) as [m|];
      [|do 2 eexists; split; [reflexivity|right; now repeat split]].
    destruct (u_status m);
      [|do 2 eexists; split; [reflexivity|right; now repeat split]].
    destruct (image_totals files) as [totalImageSize imageCount].
    destruct (20 <? imageCount);
      [do 2 eexists; split; [reflexivity|right; now repeat split]|].
    destruct (_ <? totalImageSize);
      [do 2 eexists; split; [reflexivity|right; now repeat split]|].
    match goal with
    | |- context [insert_uploads req (u_id m) files ?s1] =>
        destruct (insert_uploads_runs req (u_id m) files s1)
          as (sv & s' & Hrun & Hu & Hlen); rewrite Hrun
    end.
    simpl. exists 200, (b_uploaded sv (u_username m)).
    split; [apply response_of_json_last|left; reflexivity].
  - do 2 eexists. split; [vm_compute; reflexivity|vm_compute; reflexivity].
Qed.

(** X21. Besides the aggregate bound on images, the upload middleware bounds
    every accepted file, image or archive, by its own size limit. *)
Lemma upload_each_file_bounded (req : upload_request) (d : db)
    (saved : list saved_file) (name : string) :
  response_of (st_trace (run (post_upload req) d))
    = Some (200, b_uploaded saved name) ->
  Forall (fun p => size p <= fileSize_limit) (ur_parts req).
Proof.
  unfold post_upload.
  destruct (multer_array _ _ _ _) as [e|files] eqn:Hm; [discriminate|].
  intros _. now destruct (multer_array_ok _ _ _ _ _ Hm) as (_ & _ & _ & Hs).
Qed.

(** ** Batch downloads *)

(** C9. In the selected download, when exactly one asset is resolved and
    its file is on disk, the handler first appends the ledger row
    ([single], [success]) and the log entry, and only then sets the headers
    and sends the file; no archive is built, and neither the ledger nor
    anything else depends on whether the bytes get out. *)
Theorem selected_single_recorded_first (req : download_request) (d : db)
    (u : principal) (ids : list Z) (photo : file_upload) :
  dq_auth req = verified u ->
  p_role u = merchant ->
  photo_id_array (dq_photoIds req) = inr ids ->
  filter (selected ids (dq_customerId req) (p_id u)) (file_uploads d) = [photo] ->
  dq_exists req (fu_file_name photo) = true ->
  st_trace (run (download_selected req) d) =
    [ev_sql sql_select t_file_uploads;
     ev_sql sql_select t_users;
     ev_sql sql_insert t_download_status;
     ev_sql sql_insert t_operation_logs;
     ev_attachment (fu_original_name photo);
     ev_content_type "application/octet-stream";
     ev_send_file (fu_file_name photo)] /\
  download_status (st_db (run (download_selected req) d)) =
    download_status d ++
      [mkDownload (fu_id photo) (p_id u) "single" "success" (dq_now req)
                  (Some (fu_original_name photo)) None] /\
  (forall sent : bool,
      run (download_selected
             (mkDownloadReq (dq_auth req) (dq_customerId req) (dq_photoIds req)
                            (dq_exists req) (dq_archive req) sent
                            (dq_stamp req) (dq_now req))) d
      = run (download_selected req) d).
Proof.
  intros Hauth Hrole Hids Hsel Hex.
  assert (Hne : (List.length ids =? 0)%nat = false).
  { destruct ids; [|reflexivity]. exfalso. clear - Hsel.
    induction (file_uploads d) as [|f l IH]; simpl in Hsel; [discriminate|auto]. }
  assert (Hrun : forall sent,
             run (download_selected
                    (mkDownloadReq (dq_auth req) (dq_customerId req)
                       (dq_photoIds req) (dq_exists req) (dq_archive req) sent
                       (dq_stamp req) (dq_now req))) d =
             mkState
               (mkDb (users d) (file_uploads d)
                     (download_status d ++
                        [mkDownload (fu_id photo) (p_id u) "single" "success"
                                    (dq_now req) (Some (fu_original_name photo))
                                    None])
                     (operation_logs d ++ [mkLog (p_id u) op_download (dq_now req)]))
               [ev_sql sql_select t_file_uploads;
                ev_sql sql_select t_users;
                ev_sql sql_insert t_download_status;
                ev_sql sql_insert t_operation_logs;
                ev_attachment (fu_original_name photo);
                ev_content_type "application/octet-stream";
                ev_send_file (fu_file_name photo)]).
  { intros sent. unfold download_selected, merchant_of_token. simpl.
    rewrite Hauth, Hrole, Hids, Hne. simpl. unfold_handler.
    rewrite Hsel. simpl. rewrite Hex. reflexivity. }
  assert (Hreq : run (download_selected req) d =
                 run (download_selected
                        (mkDownloadReq (dq_auth req) (dq_customerId req)
                           (dq_photoIds req) (dq_exists req) (dq_archive req)
                           (dq_send_ok req) (dq_stamp req) (dq_now req))) d).
  { destruct req; reflexivity. }
  split; [|split].
  - rewrite Hreq, Hrun. reflexivity.
  - rewrite Hreq, Hrun. reflexivity.
  - intros sent. rewrite Hreq, !Hrun. reflexivity.
Qed.

(** C6, at the all-assets download of a customer with exactly one active
    asset (present on disk): a ZIP archive with one entry is built and no
    file is sent directly, whereas the selected download of the same asset
    sends the file. *)
Theorem download_all_single_builds_zip :
  filter (sent_to "4" 2) (file_uploads sample_db) = [photo_d] /\
  st_trace (run (download_all all_of_bob) sample_db) =
    [ev_sql sql_select t_file_uploads;
     ev_sql sql_select t_users;
     ev_content_type "application/zip";
     ev_attachment "bob_photos_1759399200000.zip";
     ev_archive_file "4_d.png" "d.png";
     ev_archive_finalize;
     ev_sql sql_insert t_download_status;
     ev_sql sql_insert t_operation_logs] /\
  st_trace (run (download_selected selected_of_bob) sample_db) =
    [ev_sql sql_select t_file_uploads;
     ev_sql sql_select t_users;
     ev_sql sql_insert t_download_status;
     ev_sql sql_insert t_operation_logs;
     ev_attachment "d.png";
     ev_content_type "application/octet-stream";
     ev_send_file "4_d.png"].
Proof. repeat split; reflexivity. Qed.

(** C2, at a batch download of two resolved assets of which the second is
    missing on disk: the archive holds the one file that exists, and the
    ledger gains one failed row for the missing file and then a success row
    for each of the two assets, the missing one included; this holds for
    the all-assets download and for the selected download alike. *)
Theorem batch_records_success_for_missing :
  filter (sent_to "3" 2) (file_uploads sample_db) = [photo_a; photo_b] /\
  archive_entries (st_trace (run (download_all all_of_alice) sample_db))
    = ["a.jpg"] /\
  download_status (st_db (run (download_all all_of_alice) sample_db)) =
    [mkDownload 2 2 "batch" "failed" sample_time None (Some missing_on_disk);
     mkDownload 1 2 "batch" "success" sample_time
                (Some "alice_photos_1759399200000.zip") None;
     mkDownload 2 2 "batch" "success" sample_time
                (Some "alice_photos_1759399200000.zip") None] /\
  List.length (success_rows (st_db (run (download_all all_of_alice) sample_db)))
    = 2%nat /\
  archive_entries (st_trace (run (download_selected selected_of_alice) sample_db))
    = ["a.jpg"] /\
  download_status (st_db (run (download_selected selected_of_alice) sample_db)) =
    [mkDownload 2 2 "batch" "failed" sample_time None (Some missing_on_disk);
     mkDownload 1 2 "batch" "success" sample_time
                (Some "alice_selected_2photos_1759399200000.zip") None;
     mkDownload 2 2 "batch" "success" sample_time
                (Some "alice_selected_2photos_1759399200000.zip") None].
Proof. repeat split; reflexivity. Qed.

(** ** The archive loop in general *)

Lemma ledger_plus_nil (d : db) : ledger_plus d [] = d.
Proof. destruct d. unfold ledger_plus. simpl. now rewrite app_nil_r. Qed.

Lemma ledger_plus_plus (d : db) (a b : list download_row) :
  ledger_plus (ledger_plus d a) b = ledger_plus d (a ++ b).
Proof. unfold ledger_plus. simpl. now rewrite app_assoc. Qed.

(** The loop over a non-empty list of assets, started at the index that
    makes its last asset the last index: it adds the files on disk, appends
    a failed row for each missing file, and closes with 404 exactly when
    nothing was added. *)
Lemma add_to_archive_runs (req : download_request) (mid : Z)
    (photos : list file_upload) :
  forall index len addedCount s,
    photos <> [] ->
    (index + List.length photos = len)%nat ->
    0 <= addedCount ->
    exists tr,
      add_to_archive req mid photos index len addedCount s =
        (next (addedCount + Z.of_nat (List.length (on_disk req photos))),
         mkState (ledger_plus (st_db s)
                    (map (failed_row req mid) (not_on_disk req photos)))
                 (st_trace s ++ tr)) /\
      archive_entries tr = map fu_original_name (on_disk req photos) /\
      response_of tr =
        (if addedCount + Z.of_nat (List.length (on_disk req photos)) =? 0
         then Some (404, b_error err_no_usable_files) else None) /\
      Forall (fun e => forall n, e <> ev_send_file n) tr.
Proof.
  induction photos as [|photo rest IH]; intros index len added s Hne Hlen Hadd;
    [congruence|].
  cbn [add_to_archive]. unfold on_disk, not_on_disk. cbn [filter].
  destruct (Nat.eqb_spec index (len - 1)) as [Hlast|Hnot].
  - (* the last asset *)
    assert (rest = []) as ->.
    { destruct rest; [reflexivity|]. simpl in Hlen. lia. }
    cbn [add_to_archive filter map List.length].
    destruct (dq_exists req (fu_file_name photo)) eqn:Hex; unfold_handler.
    + assert (Hz : (added + 1 =? 0) = false) by (apply Z.eqb_neq; lia).
      rewrite Hz. simpl. rewrite ledger_plus_nil.
      eexists [_; _]. rewrite <- app_assoc. simpl.
      repeat split; try reflexivity.
      repeat constructor; discriminate.
    + destruct (Z.eqb_spec added 0) as [E|E]; simpl.
      * subst added. simpl.
        eexists [_; _; _]. rewrite <- !app_assoc. simpl.
        repeat split; try reflexivity.
        repeat constructor; discriminate.
      * assert (Hz : (added + 0 =? 0) = false) by (apply Z.eqb_neq; lia).
        rewrite Hz.
        eexists [_; _]. rewrite <- !app_assoc. simpl.
        replace (added + 0) with added by lia.
        repeat split; try reflexivity.
        repeat constructor; discriminate.
  - (* an asset before the last *)
    assert (Hrest : rest <> []).
    { intros ->. simpl in Hlen. lia. }
    assert (Hlen' : (S index + List.length rest = len)%nat)
      by (simpl in Hlen; lia).
    destruct (dq_exists req (fu_file_name photo)) eqn:Hex; unfold_handler.
    + match goal with
      | |- context [add_to_archive req mid rest (S index) len (added + 1) ?s1] =>
          destruct (IH (S index) len (added + 1) s1 Hrest Hlen' ltac:(lia))
            as (tr & Hrun & Hent & Hresp & Hno)
      end.
      unfold on_disk, not_on_disk in *. rewrite Hrun.
      cbn [st_db st_trace map List.length].
      exists (ev_archive_file (fu_file_name photo) (fu_original_name photo) :: tr).
      rewrite <- app_assoc. cbn [app].
      rewrite Zpos_P_of_succ_nat.
      replace (added + Z.succ (Z.of_nat (List.length
                 (filter (fun p => dq_exists req (fu_file_name p)) rest))))
        with (added + 1 + Z.of_nat (List.length
                 (filter (fun p => dq_exists req (fu_file_name p)) rest)))
        by lia.
      split; [reflexivity|]. split; [simpl; now rewrite Hent|].
      split; [|constructor; [discriminate|exact Hno]].
      cbn [response_of]. rewrite Hresp. destruct (_ =? 0); reflexivity.
    + match goal with
      | |- context [add_to_archive req mid rest (S index) len added ?s1] =>
          destruct (IH (S index) len added s1 Hrest Hlen' Hadd)
            as (tr & Hrun & Hent & Hresp & Hno)
      end.
      unfold on_disk, not_on_disk in *. rewrite Hrun.
      cbn [st_db st_trace map List.length].
      exists (ev_sql sql_insert t_download_status :: tr).
      rewrite <- app_assoc. cbn [app].
      split; [f_equal; f_equal; apply ledger_plus_plus|].
      split; [exact Hent|].
      split; [|constructor; [discriminate|exact Hno]].
      cbn [response_of]. rewrite Hresp. destruct (_ =? 0); reflexivity.
Qed.

Lemma record_all_runs (now : string) (mid : Z) (status : string)
    (filePath errorMessage : option string) (photos : list file_upload) :
  forall s,
    record_all now mid status filePath errorMessage photos s =
      (next tt,
       mkState (ledger_plus (st_db s)
                  (map (fun photo => mkDownload (fu_id photo) mid "batch" status
                                                now filePath errorMessage) photos))
               (st_trace s ++
                  map (fun _ => ev_sql sql_insert t_download_status) photos)).
Proof.
  induction photos as [|photo rest IH]; intros s; cbn [record_all map].
  - unfold ret. rewrite ledger_plus_nil, app_nil_r. now destruct s.
  - unfold_handler. rewrite IH. cbn [st_db st_trace].
    rewrite <- app_assoc. f_equal. f_equal. apply ledger_plus_plus.
Qed.

Lemma not_on_disk_all (req : download_request) (photos : list file_upload) :
  on_disk req photos = [] -> not_on_disk req photos = photos.
Proof.
  unfold on_disk, not_on_disk.
  induction photos as [|p rest IH]; simpl; [reflexivity|].
  destruct (dq_exists req (fu_file_name p)); simpl; [discriminate|].
  intros H. now rewrite IH.
Qed.

(** X22. The all-assets download when none of the resolved files is on disk:
    404, a failed row for each asset, no success row. *)
Lemma download_all_none_on_disk (req : download_request) (d : db) (u : principal) :
  dq_auth req = verified u ->
  p_role u = merchant ->
  filter (sent_to (dq_customerId req) (p_id u)) (file_uploads d) <> [] ->
  on_disk req (filter (sent_to (dq_customerId req) (p_id u)) (file_uploads d)) = [] ->
  response_of (st_trace (run (download_all req) d))
    = Some (404, b_error err_no_usable_files) /\
  st_db (run (download_all req) d) =
    ledger_plus d
      (map (failed_row req (p_id u))
           (filter (sent_to (dq_customerId req) (p_id u)) (file_uploads d))).
Proof.
  intros Hauth Hrole Hne Hnone.
  unfold download_all, merchant_of_token. rewrite Hauth, Hrole.
  unfold_handler.
  set (photos := filter (sent_to (dq_customerId req) (p_id u)) (file_uploads d)) in *.
  destruct (Nat.eqb_spec (List.length photos) 0) as [E|_].
  { destruct photos; [congruence|discriminate]. }
  unfold zip_response. unfold_handler.
  match goal with
  | |- context [add_to_archive req (p_id u) photos 0 (List.length photos) 0 ?s1] =>
      destruct (add_to_archive_runs req (p_id u) photos 0 (List.length photos) 0 s1
                  Hne eq_refl ltac:(lia))
        as (tr & Hrun & _ & Hresp & _)
  end.
  rewrite Hrun. rewrite Hnone in *. simpl in *.
  rewrite (not_on_disk_all req photos Hnone). split; [|reflexivity].
  now rewrite Hresp.
Qed.

(** X23. The all-assets download when the archive completes: a failed row for
    each missing file, then a success row for every resolved asset. *)
Lemma download_all_completed (req : download_request) (d : db) (u : principal) :
  dq_auth req = verified u ->
  p_role u = merchant ->
  dq_archive req = archive_end ->
  on_disk req (filter (sent_to (dq_customerId req) (p_id u)) (file_uploads d)) <> [] ->
  let photos := filter (sent_to (dq_customerId req) (p_id u)) (file_uploads d) in
  let zipFileName :=
    (customer_name d (dq_customerId req) ++ "_photos_" ++ dq_stamp req ++ ".zip")%string in
  download_status (st_db (run (download_all req) d)) =
    download_status d ++
    map (failed_row req (p_id u)) (not_on_disk req photos) ++
    map (success_row req (p_id u) zipFileName) photos /\
  archive_entries (st_trace (run (download_all req) d)) =
    map fu_original_name (on_disk req photos).
Proof.
  intros Hauth Hrole Hend Hsome photos zipFileName.
  assert (Hne : photos <> []).
  { intros E. apply Hsome. fold photos. now rewrite E. }
  unfold download_all, merchant_of_token. rewrite Hauth, Hrole.
  unfold_handler. fold photos.
  destruct (Nat.eqb_spec (List.length photos) 0) as [E|_].
  { destruct photos; [congruence|discriminate]. }
  unfold zip_response. unfold_handler. fold zipFileName.
  match goal with
  | |- context [add_to_archive req (p_id u) photos 0 (List.length photos) 0 ?s1] =>
      destruct (add_to_archive_runs req (p_id u) photos 0 (List.length photos) 0 s1
                  Hne eq_refl ltac:(lia))
        as (tr & Hrun & Hent & _ & _)
  end.
  rewrite Hrun.
  assert (Hpos : (0 + Z.of_nat (List.length (on_disk req photos)) =? 0) = false).
  { apply Z.eqb_neq. fold photos in Hsome.
    destruct (on_disk req photos); [congruence|simpl; lia]. }
  rewrite Hpos, Hend. unfold_handler. rewrite record_all_runs.
  cbn [st_db st_trace ledger_plus download_status snd]. split.
  - rewrite <- app_assoc. reflexivity.
  - unfold archive_entries in *.
    rewrite !flat_map_app. cbn [flat_map app].
    rewrite Hent. rewrite app_nil_r.
    assert (Hnone : flat_map (fun e => match e with
                                       | ev_archive_file _ name => [name]
                                       | _ => []
                                       end)
                      (map (fun _ : file_upload =>
                              ev_sql sql_insert t_download_status) photos) = []).
    { generalize photos. intros l. induction l; simpl; auto. }
    now rewrite Hnone, app_nil_r.
Qed.

(** X24. The all-assets download never sends a file directly, however many
    assets are resolved. *)
Lemma download_all_never_sends_file (req : download_request) (d : db) :
  Forall (fun e => forall n, e <> ev_send_file n)
         (st_trace (run (download_all req) d)).
Proof.
  assert (Hins : forall (A : Type) (l : list A),
             Forall (fun e => forall n, e <> ev_send_file n)
                    (map (fun _ => ev_sql sql_insert t_download_status) l)).
  { intros A l. induction l; simpl; constructor; auto. discriminate. }
  unfold download_all, merchant_of_token.
  destruct (dq_auth req) as [| |u]; unfold_handler;
    try (repeat constructor; discriminate).
  destruct (negb (role_eqb (p_role u) merchant)); unfold_handler;
    [repeat constructor; discriminate|].
  set (photos := filter (sent_to (dq_customerId req) (p_id u)) (file_uploads d)).
  destruct (Nat.eqb_spec (List.length photos) 0) as [E|E]; unfold_handler;
    [repeat constructor; discriminate|].
  assert (Hne : photos <> []) by (intros E'; now rewrite E' in E).
  unfold zip_response. unfold_handler.
  match goal with
  | |- context [add_to_archive req (p_id u) photos 0 (List.length photos) 0 ?s1] =>
      destruct (add_to_archive_runs req (p_id u) photos 0 (List.length photos) 0 s1
                  Hne eq_refl ltac:(lia))
        as (tr & Hrun & _ & _ & Hno)
  end.
  rewrite Hrun.
  assert (Hpre : Forall (fun e => forall n, e <> ev_send_file n)
                   (st_trace
                      (mkState d [ev_sql sql_select t_file_uploads;
                                  ev_sql sql_select t_users;
                                  ev_content_type "application/zip";
                                  ev_attachment
                                    (customer_name d (dq_customerId req) ++
                                     "_photos_" ++ dq_stamp req ++ ".zip")%string])
                    ++ tr)).
  { apply Forall_app. split; [repeat constructor; discriminate|exact Hno]. }
  destruct (_ =? 0); [exact Hpre|].
  destruct (dq_archive req) as [|headersSent message]; unfold_handler;
    rewrite record_all_runs; cbn [st_db st_trace snd].
  - apply Forall_app. split; [|repeat constructor; discriminate].
    apply Forall_app. split; [exact Hpre|apply Hins].
  - destruct headersSent; cbn [st_db st_trace snd].
    + apply Forall_app. split; [exact Hpre|apply Hins].
    + apply Forall_app. split; [|repeat constructor; discriminate].
      apply Forall_app. split; [exact Hpre|apply Hins].
Qed.

(** ** The theorems at the sample data *)

Lemma sample_ids_unique : file_ids_unique sample_db.
Proof.
  unfold file_ids_unique. simpl.
  repeat constructor; simpl; intuition discriminate.
Defined.

Lemma sample_edits_capped : edits_capped sample_db.
Proof.
  unfold edits_capped. simpl.
  repeat (apply Forall_cons; [vm_compute; discriminate|]). apply Forall_nil.
Defined.

Lemma serial_edits_capped_witness :
  edits_capped (serve put_remarks [edit_a; edit_a; edit_a] sample_db) /\
  response_of (st_trace (run (put_remarks edit_d_long) sample_db))
    = Some (200, b_edit (edit_count_of photo_d + 1)
                        (10 - (edit_count_of photo_d + 1))).
Proof.
  split.
  - apply (proj1 (serial_edits_capped sample_db sample_ids_unique
                    sample_edits_capped)).
  - apply (proj1 (proj2 (proj2 (serial_edits_capped sample_db sample_ids_unique
                                  sample_edits_capped)))
             edit_d_long photo_d).
    + reflexivity.
    + vm_compute. discriminate.
    + vm_compute. reflexivity.
    + vm_compute. repeat constructor.
Defined.

Lemma customer_list_own_rows_witness :
  exists f, In f (file_uploads sample_db) /\
            fu_user_id f = 3 /\
            view_of sample_db photo_a = view_of sample_db f.
Proof.
  eapply (customer_list_own_rows sample_list sample_db 200 _ _
            (view_of sample_db photo_a)).
  - reflexivity.
  - simpl. auto.
Defined.

Lemma delete_restore_guarded_witness :
  file_uploads
    (st_db (run (restore_upload
                   (mkFileReq alice "1" (Some "please crop")
                              "2025-10-04T09:30:00.000Z"))
                (st_db (run (delete_upload edit_a) sample_db))))
  = file_uploads sample_db.
Proof.
  apply (proj2 (proj2 (delete_restore_guarded sample_db edit_a photo_a
                         sample_ids_unique eq_refl)) eq_refl
           "2025-10-04T09:30:00.000Z").
Defined.


Lemma upload_acceptance_witness :
  (1 <= List.length (ur_parts two_archives) <= 20)%nat.
Proof.
  destruct (proj2 (proj2 upload_acceptance)) as (saved & name & Hresp & _).
  apply (proj1 upload_acceptance two_archives sample_db saved name Hresp).
Defined.

Lemma selected_single_recorded_first_witness :
  download_status (st_db (run (download_selected selected_of_bob) sample_db)) =
    [mkDownload 4 2 "single" "success" sample_time (Some "d.png") None].
Proof.
  apply (selected_single_recorded_first selected_of_bob sample_db shop [4] photo_d
           eq_refl eq_refl eq_refl eq_refl eq_refl).
Defined.

Lemma check_duplicate_customers_only_witness :
  run (check_duplicate_files merchant_probe) sample_db =
    mkState sample_db [ev_json 403 (b_error err_customers_only)].
Proof.
  apply (proj1 (check_duplicate_customers_only merchant_probe sample_db)).
  discriminate.
Defined.

(** * Further properties of the handlers *)

(** ** Lifecycle *)

Lemma not_owned_by_other (i : string) (u : Z) (f : file_upload) :
  fu_user_id f <> u -> owned_by i u f = false.
Proof.
  intros H. unfold owned_by. simpl.
  destruct (Z.eqb_spec (fu_user_id f) u); [contradiction|].
  apply andb_false_r.
Qed.

Lemma nth_error_update (p : file_upload -> bool)
    (set : file_upload -> file_upload) (l : list file_upload)
    (n : nat) (f : file_upload) :
  nth_error l n = Some f -> p f = false ->
  nth_error (map (fun r => if p r then set r else r) l) n = Some f.
Proof.
  intros Hn Hp. rewrite nth_error_map, Hn. simpl. now rewrite Hp.
Qed.

(** X1. Whatever a caller asks of the remarks, delete and restore routes, a
    row of [file_uploads] that belongs to another user stays as it is and
    where it is, and no row is added or removed. *)
Theorem lifecycle_leaves_other_users_rows (req : file_request) (d : db)
    (n : nat) (f : file_upload) :
  nth_error (file_uploads d) n = Some f ->
  fu_user_id f <> p_id (fr_user req) ->
  nth_error (file_uploads (st_db (run (put_remarks req) d))) n = Some f /\
  nth_error (file_uploads (st_db (run (delete_upload req) d))) n = Some f /\
  nth_error (file_uploads (st_db (run (restore_upload req) d))) n = Some f /\
  List.length (file_uploads (st_db (run (put_remarks req) d)))
    = List.length (file_uploads d) /\
  List.length (file_uploads (st_db (run (delete_upload req) d)))
    = List.length (file_uploads d) /\
  List.length (file_uploads (st_db (run (restore_upload req) d)))
    = List.length (file_uploads d).
Proof.
  intros Hn Hother.
  pose proof (not_owned_by_other (fr_id req) _ _ Hother) as Hp.
  rewrite put_remarks_step, delete_upload_step, restore_upload_step.
  destruct (500 <? _)%nat;
    destruct (find _ (file_uploads d)) as [g|];
    try destruct (String.eqb (fu_status g) "deleted");
    try destruct (edit_count_of g >=? 10);
    simpl; rewrite ?length_map;
    repeat split; auto using nth_error_update.
Qed.

Lemma owned_by_set_remarks (i : string) (u : Z) (r : option string)
    (t : string) (f : file_upload) :
  owned_by i u (set_remarks r t f) = owned_by i u f.
Proof. reflexivity. Qed.

(** X2. Edits of one asset of the caller that is not deleted, served one
    after the other, each to its end before the next begins, with remarks
    of at most 500 characters: they raise its counter by one each until it
    is 10 and leave it at 10 from then on. *)
Theorem repeated_edits_stop_at_ten (reqs : list file_request) :
  forall (d : db) (f : file_upload) (i : string) (u : principal),
    find (owned_by i (p_id u)) (file_uploads d) = Some f ->
    fu_status f <> "deleted" ->
    edit_count_of f <= 10 ->
    Forall (fun r => fr_id r = i /\ fr_user r = u /\
                     (isLength_len (remarks_text (fr_remarks r)) <= 500)%nat)
           reqs ->
    exists f',
      find (owned_by i (p_id u))
           (file_uploads (st_db (sv_state (play (one_by_one reqs) d))))
        = Some f' /\
      edit_count_of f' =
        Z.min (edit_count_of f + Z.of_nat (List.length reqs)) 10 /\
      fu_status f' = fu_status f /\
      fu_id f' = fu_id f.
Proof.
  unfold play. intros d.
  rewrite (proj1 (one_by_one_serves reqs (mkState d []))). cbn [st_db].
  revert d.
  induction reqs as [|r reqs IH]; intros d f i u Hf Hst Hcap Hall.
  - exists f. simpl. repeat split; auto. lia.
  - inversion Hall as [|? ? (Hi & Hu & Hlen) Hall']; subst.
    cbn [serve]. rewrite put_remarks_step.
    destruct (Nat.ltb_spec 500 (isLength_len (remarks_text (fr_remarks r))));
      [lia|].
    rewrite Hf.
    destruct (String.eqb_spec (fu_status f) "deleted"); [contradiction|].
    destruct (Z.geb_spec (edit_count_of f) 10) as [Hfull|Hroom].
    + destruct (IH d f (fr_id r) (fr_user r) Hf Hst Hcap Hall')
        as (f' & Hf' & Hc & Hs & Hid).
      exists f'. repeat split; auto. cbn [List.length]. lia.
    + cbn [st_db file_uploads].
      assert (Hf1 : find (owned_by (fr_id r) (p_id (fr_user r)))
                      (map (fun x => if owned_by (fr_id r) (p_id (fr_user r)) x
                                     then set_remarks (fr_remarks r) (fr_now r) x
                                     else x) (file_uploads d))
                    = Some (set_remarks (fr_remarks r) (fr_now r) f)).
      { rewrite find_after_update by (intros; apply owned_by_set_remarks).
        now rewrite Hf. }
      match goal with
      | |- context [serve put_remarks reqs ?d1] =>
          destruct (IH d1 (set_remarks (fr_remarks r) (fr_now r) f)
                      (fr_id r) (fr_user r) Hf1 Hst)
            as (f' & Hf' & Hc & Hs & Hid);
            [unfold edit_count_of at 1; simpl; lia|exact Hall'|]
      end.
      exists f'. repeat split; auto.
      rewrite Hc. unfold edit_count_of at 1. simpl. cbn [List.length]. lia.
Qed.

Lemma answers_app (a b : list event) :
  answers (a ++ b) = answers a ++ answers b.
Proof. unfold answers. apply flat_map_app. Qed.

(** X3. A remarks edit that passes its tests is answered 200 with the
    counter its SELECT read plus one and with 10 minus that, which is
    never negative, whatever was served before its UPDATE runs; the UPDATE
    stores the submitted remarks, the time of the edit and the counter the
    row holds at that moment plus one.  When the row was not edited in
    between, the stored counter is the answered one. *)
Theorem remarks_response_counts (req : file_request) (s s1 s2 : state)
    (currentEditCount : Z) (f2 : file_upload) :
  put_remarks_check req s = (next currentEditCount, s1) ->
  find (owned_by (fr_id req) (p_id (fr_user req))) (file_uploads (st_db s2))
    = Some f2 ->
  (exists f,
      find (owned_by (fr_id req) (p_id (fr_user req))) (file_uploads (st_db s))
        = Some f /\
      fu_status f <> "deleted" /\
      currentEditCount = edit_count_of f /\ currentEditCount < 10) /\
  st_db s1 = st_db s /\
  answers (st_trace (snd (put_remarks_update req currentEditCount s2)))
    = answers (st_trace s2)
      ++ [(200, b_edit (currentEditCount + 1) (10 - (currentEditCount + 1)))] /\
  0 <= 10 - (currentEditCount + 1) /\
  (exists f',
      find (owned_by (fr_id req) (p_id (fr_user req)))
           (file_uploads (st_db (snd (put_remarks_update req currentEditCount s2))))
        = Some f' /\
      fu_edit_count f' = Some (edit_count_of f2 + 1) /\
      fu_remarks f' = fr_remarks req /\
      fu_last_edit_time f' = Some (fr_now req)) /\
  (file_uploads (st_db s2) = file_uploads (st_db s) ->
   edit_count_of f2 + 1 = currentEditCount + 1).
Proof.
  rewrite put_remarks_check_step, put_remarks_update_step.
  destruct (500 <? _)%nat; [discriminate|].
  destruct (find _ (file_uploads (st_db s))) as [f|] eqn:Hf; [|discriminate].
  destruct (String.eqb_spec (fu_status f) "deleted") as [|Hnd]; [discriminate|].
  destruct (Z.geb_spec (edit_count_of f) 10) as [|Hroom]; [discriminate|].
  intros H Hf2. injection H as Hc Hs1. subst currentEditCount s1.
  cbn [snd st_db st_trace file_uploads].
  split; [exists f; auto|]. split; [reflexivity|]. split.
  - rewrite !answers_app. cbn [answers flat_map app].
    now rewrite !app_nil_r.
  - split; [lia|]. split.
    + exists (set_remarks (fr_remarks req) (fr_now req) f2).
      split; [|split; [reflexivity|split; reflexivity]].
      rewrite find_after_update by (intros; apply owned_by_set_remarks).
      now rewrite Hf2.
    + intros Hsame. rewrite Hsame in Hf2. congruence.
Qed.

(** ** Upload *)

Lemma next_file_id_fresh (d : db) (f : file_upload) :
  In f (file_uploads d) -> fu_id f < next_file_id d.
Proof.
  unfold next_file_id.
  induction (file_uploads d) as [|x l IH]; cbn [map fold_right In];
    [contradiction|].
  intros [->|H]; [lia|]. specialize (IH H). lia.
Qed.

Lemma file_ids_unique_insert (d : db) (r : file_upload) :
  file_ids_unique d -> fu_id r = next_file_id d ->
  file_ids_unique (set_file_uploads d (file_uploads d ++ [r])).
Proof.
  unfold file_ids_unique. simpl. intros Hnd Hid.
  rewrite map_app. simpl. apply NoDup_app; [exact Hnd|repeat constructor; auto|].
  intros x Hx [<-|[]]. apply in_map_iff in Hx. destruct Hx as (f & Hf & Hin).
  pose proof (next_file_id_fresh d f Hin). lia.
Qed.

(** The insert loop appends one row for each file, in order, with a fresh
    id each, and reports those ids. *)
Lemma insert_uploads_rows (req : upload_request) (mid : Z)
    (files : list stored_file) :
  forall s, exists saved rows s',
    insert_uploads req mid files s = (next saved, s') /\
    users (st_db s') = users (st_db s) /\
    download_status (st_db s') = download_status (st_db s) /\
    operation_logs (st_db s') = operation_logs (st_db s) /\
    file_uploads (st_db s') = file_uploads (st_db s) ++ rows /\
    Forall2 (fun file r => stored_as req mid (sf_part file) r) files rows /\
    map sv_id saved = map fu_id rows /\
    map sv_originalName saved = map fu_original_name rows /\
    (file_ids_unique (st_db s) -> file_ids_unique (st_db s')).
Proof.
  induction files as [|f files IH]; intros s; cbn [insert_uploads].
  - exists [], [], s. unfold ret. rewrite app_nil_r. repeat split; auto.
  - unfold insert_upload. unfold_handler.
    match goal with
    | |- context [insert_uploads req mid files ?s1] =>
        destruct (IH s1)
          as (saved & rows & s' & Hrun & Hu & Hds & Hol & Hfu & Hrows & Hid & Hnm & Huniq);
          rewrite Hrun
    end.
    cbn [st_db set_file_uploads users download_status operation_logs
         file_uploads] in Hu, Hds, Hol, Hfu.
    cbn [st_db] in Huniq.
    eexists (_ :: saved), (_ :: rows), s'.
    split; [reflexivity|].
    split; [exact Hu|]. split; [exact Hds|]. split; [exact Hol|].
    split; [rewrite Hfu, <- app_assoc; reflexivity|].
    split; [constructor; [repeat split|exact Hrows]|].
    split; [cbn [map sv_id fu_id]; now rewrite Hid|].
    split; [cbn [map sv_originalName fu_original_name]; now rewrite Hnm|].
    intros Hs. apply Huniq.
    apply (file_ids_unique_insert (st_db s)); [exact Hs|reflexivity].
Qed.

Lemma Forall2_map_left {A B C} (g : A -> B) (P : B -> C -> Prop)
    (l : list A) (l' : list C) :
  Forall2 (fun a c => P (g a) c) l l' -> Forall2 P (map g l) l'.
Proof. induction 1; simpl; constructor; auto. Qed.

(** What an accepted upload has done. *)
Lemma post_upload_accepted (req : upload_request) (d : db)
    (saved : list saved_file) (name : string) :
  response_of (st_trace (run (post_upload req) d))
    = Some (200, b_uploaded saved name) ->
  exists merchantId m rows,
    given (ur_merchantId req) = Some merchantId /\
    In m (users d) /\ user_has_id merchantId m = true /\
    u_role m = merchant /\ u_username m = name /\
    file_uploads (st_db (run (post_upload req) d)) = file_uploads d ++ rows /\
    Forall2 (stored_as req (u_id m)) (ur_parts req) rows /\
    Forall (fun p => fileFilter p = true) (ur_parts req) /\
    map sv_id saved = map fu_id rows /\
    users (st_db (run (post_upload req) d)) = users d /\
    download_status (st_db (run (post_upload req) d)) = download_status d /\
    (file_ids_unique d -> file_ids_unique (st_db (run (post_upload req) d))).
Proof.
  unfold post_upload.
  destruct (multer_array _ _ _ _) as [e|files] eqn:Hm; [discriminate|].
  destruct (multer_array_ok _ _ _ _ _ Hm) as (Hparts & _ & Hff & _).
  destruct (given (ur_merchantId req)) as [mid|]; [|discriminate].
  destruct (Nat.eqb_spec (List.length files) 0); [discriminate|].
  unfold_handler.
  destruct (find _ (users d)) as [m|] eqn:Hfind; [|discriminate].
  destruct (u_status m); [|discriminate].
  destruct (image_totals files) as [totalImageSize imageCount].
  destruct (20 <? imageCount); [discriminate|].
  destruct (_ <? totalImageSize); [discriminate|].
  match goal with
  | |- context [insert_uploads req (u_id m) files ?s1] =>
      destruct (insert_uploads_rows req (u_id m) files s1)
        as (sv & rows & s' & Hrun & Hu & Hds & Hol & Hfu & Hrows & Hid & Hnm & Huniq);
        rewrite Hrun
  end.
  cbn [st_db st_trace users download_status file_uploads snd] in *.
  rewrite response_of_json_last. intros [= <- <-].
  apply find_some in Hfind. destruct Hfind as [Hin Hp].
  apply andb_prop in Hp. destruct Hp as [Hid' Hrole].
  exists mid, m, rows.
  split; [reflexivity|]. split; [exact Hin|]. split; [exact Hid'|].
  split; [now destruct (u_role m)|].
  split; [reflexivity|]. split; [exact Hfu|].
  split; [rewrite <- Hparts; now apply Forall2_map_left|].
  split; [exact Hff|].
  split; [exact Hid|]. split; [exact Hu|]. split; [exact Hds|].
  exact Huniq.
Qed.

(** X4. An accepted upload appends to [file_uploads] one row for each
    file, in the order of the request: owned by the caller, addressed to
    the merchant that was selected, with the name, size, MIME type, type
    tag and remarks of the file; the manifest carries the ids of those
    rows; the users and the ledger are untouched, and the ids stay unique
    if they were. *)
Theorem upload_appends_rows (req : upload_request) (d : db)
    (saved : list saved_file) (name : string) :
  response_of (st_trace (run (post_upload req) d))
    = Some (200, b_uploaded saved name) ->
  exists m rows,
    In m (users d) /\ u_role m = merchant /\ u_username m = name /\
    file_uploads (st_db (run (post_upload req) d)) = file_uploads d ++ rows /\
    Forall2 (stored_as req (u_id m)) (ur_parts req) rows /\
    map sv_id saved = map fu_id rows /\
    users (st_db (run (post_upload req) d)) = users d /\
    download_status (st_db (run (post_upload req) d)) = download_status d /\
    (file_ids_unique d -> file_ids_unique (st_db (run (post_upload req) d))).
Proof.
  intros H.
  destruct (post_upload_accepted _ _ _ _ H)
    as (mid & m & rows & _ & Hin & _ & Hrole & Hname & Hfu & Hrows & _ & Hid
        & Hu & Hds & Huniq).
  exists m, rows. repeat (split; [assumption|]). assumption.
Qed.

Lemma duplicate_of_stored (req : upload_request) (merchantId : string)
    (m : user) (names : list string) (p : part) (r : file_upload) :
  user_has_id merchantId m = true ->
  stored_as req (u_id m) p r ->
  In (originalname p) names ->
  duplicate_of (p_id (ur_user req)) (VText merchantId) names r = true.
Proof.
  intros Hm (Hu & Hmid & Hname & _) Hin. unfold duplicate_of.
  rewrite Hu, Hmid, Hname. simpl. rewrite Z.eqb_refl. simpl.
  unfold user_has_id in Hm. simpl in Hm. rewrite Hm. simpl.
  apply existsb_exists. exists (originalname p). split; [exact Hin|].
  apply String.eqb_refl.
Qed.

(** X5. After an accepted upload by a customer, the duplicate check for
    the same merchant and the names just uploaded answers 200 and reports
    every one of those names. *)
Theorem upload_then_duplicate_check (req : upload_request) (d : db)
    (saved : list saved_file) (name merchantId : string) :
  response_of (st_trace (run (post_upload req) d))
    = Some (200, b_uploaded saved name) ->
  ur_merchantId req = Some merchantId ->
  p_role (ur_user req) = customer ->
  exists duplicateFiles,
    response_of
      (st_trace
         (run (check_duplicate_files
                 (mkDupReq (ur_user req) (VText merchantId)
                           (Some (map originalname (ur_parts req)))))
              (st_db (run (post_upload req) d))))
      = Some (200, b_duplicates duplicateFiles) /\
    forall p, In p (ur_parts req) -> In (originalname p) duplicateFiles.
Proof.
  intros H Hmid Hrole.
  destruct (post_upload_accepted _ _ _ _ H)
    as (mid & m & rows & Hgiven & _ & Hm & _ & _ & Hfu & Hrows & _).
  assert (mid = merchantId /\ merchantId <> "") as [-> Hne].
  { unfold given in Hgiven. rewrite Hmid in Hgiven.
    destruct (String.eqb_spec merchantId ""); [discriminate|].
    split; congruence. }
  remember (st_db (run (post_upload req) d)) as d' eqn:Hd'. clear Hd' H.
  unfold check_duplicate_files. cbn [dr_user dr_fileNames dr_merchantId].
  rewrite Hrole. cbn [role_eqb negb truthy].
  destruct (String.eqb_spec merchantId ""); [contradiction|]. cbn [negb].
  unfold_handler. eexists. split; [reflexivity|].
  intros p Hp. rewrite Hfu.
  assert (Hex : exists r, In r rows /\ stored_as req (u_id m) p r).
  { clear - Hrows Hp. induction Hrows as [|p' r' ps rs Hpr _ IH];
      [contradiction|].
    destruct Hp as [->|Hp]; [exists r'; split; [now left|assumption]|].
    destruct (IH Hp) as (r & Hr & Hs). exists r. split; [now right|assumption]. }
  destruct Hex as (r & Hr & Hs).
  apply in_map_iff. exists r. split; [apply Hs|].
  apply filter_In. split; [apply in_or_app; now right|].
  apply (duplicate_of_stored req merchantId m _ p r Hm Hs).
  now apply in_map.
Qed.

Lemma image_type_has_prefix (m : string) :
  includes imageTypes m = true -> String.prefix "image/" m = true.
Proof.
  intros H. apply includes_In in H.
  repeat (destruct H as [<-|H]; [reflexivity|]). contradiction.
Qed.

Lemma accepted_non_image_is_archive (p : part) :
  fileFilter p = true -> isImage p = false ->
  In (mimetype p) archiveTypes \/
  In (toLowerCase (extname (originalname p))) archiveExtensions.
Proof.
  unfold fileFilter, isImage, includes. rewrite !existsb_app.
  intros Hf Hi. apply orb_false_elim in Hi. destruct Hi as [Hpre Hext].
  fold (includes imageExtensions (toLowerCase (extname (originalname p)))) in *.
  rewrite Hext in Hf.
  destruct (existsb (String.eqb (mimetype p)) imageTypes) eqn:Him.
  - apply image_type_has_prefix in Him. congruence.
  - simpl in Hf. apply orb_prop in Hf.
    destruct Hf as [Hf|Hf]; [left|right]; now apply includes_In.
Qed.

(** X6. In an accepted upload, a file that is stored with the type tag
    [archive] (one the image test rejects) has an archive MIME type or an
    archive extension: nothing else gets past the file filter. *)
Theorem upload_archive_rows_are_archives (req : upload_request) (d : db)
    (saved : list saved_file) (name : string) (p : part) :
  response_of (st_trace (run (post_upload req) d))
    = Some (200, b_uploaded saved name) ->
  In p (ur_parts req) ->
  isImage p = false ->
  In (mimetype p) archiveTypes \/
  In (toLowerCase (extname (originalname p))) archiveExtensions.
Proof.
  intros H Hp Hi.
  destruct (post_upload_accepted _ _ _ _ H)
    as (_ & _ & _ & _ & _ & _ & _ & _ & _ & _ & Hff & _).
  rewrite Forall_forall in Hff. now apply accepted_non_image_is_archive; auto.
Qed.

(** ** Duplicate check *)

(** X7. The duplicate check reports exactly the requested names under
    which the caller already has a row for that merchant: every reported
    name is such a name, and every such name is reported. *)
Theorem duplicate_check_exact (req : duplicate_request) (d : db)
    (duplicateFiles : list string) (n : string) :
  response_of (st_trace (run (check_duplicate_files req) d))
    = Some (200, b_duplicates duplicateFiles) ->
  (In n duplicateFiles <->
   exists fileNames f,
     dr_fileNames req = Some fileNames /\ In n fileNames /\
     In f (file_uploads d) /\ fu_original_name f = n /\
     fu_user_id f = p_id (dr_user req) /\
     int_col_eq (fu_merchant_id f) (dr_merchantId req) = true).
Proof.
  unfold check_duplicate_files.
  destruct (negb (role_eqb (p_role (dr_user req)) customer));
    [unfold_handler; discriminate|].
  destruct (dr_fileNames req) as [fileNames|]; [|unfold_handler; discriminate].
  destruct (negb (truthy (dr_merchantId req))); [unfold_handler; discriminate|].
  unfold_handler. intros [= <-]. split.
  - intros H. apply in_map_iff in H. destruct H as (f & Hn & Hf).
    apply filter_In in Hf. destruct Hf as [Hin Hdup].
    unfold duplicate_of in Hdup.
    apply andb_prop in Hdup. destruct Hdup as [Hdup Hex].
    apply andb_prop in Hdup. destruct Hdup as [Hu Hm].
    apply existsb_exists in Hex. destruct Hex as (x & Hx & Heq).
    apply String.eqb_eq in Heq. simpl in Hu. apply Z.eqb_eq in Hu.
    exists fileNames, f. repeat split; auto. congruence.
  - intros (names & f & [= <-] & Hn & Hin & Hname & Hu & Hm).
    apply in_map_iff. exists f. split; [exact Hname|].
    apply filter_In. split; [exact Hin|].
    unfold duplicate_of. simpl. rewrite Hu, Z.eqb_refl, Hm. simpl.
    apply existsb_exists. exists n. split; [exact Hn|].
    rewrite Hname. apply String.eqb_refl.
Qed.

(** ** What the batch downloads hand out *)

Lemma served_files_app (a b : list event) :
  served_files (a ++ b) = served_files a ++ served_files b.
Proof. apply flat_map_app. Qed.

Lemma served_files_inserts {A} (l : list A) :
  served_files (map (fun _ => ev_sql sql_insert t_download_status) l) = [].
Proof. induction l; simpl; auto. Qed.

Lemma add_to_archive_served (req : download_request) (mid : Z)
    (photos : list file_upload) :
  forall index len addedCount s, exists n s',
    add_to_archive req mid photos index len addedCount s = (next n, s') /\
    served_files (st_trace s') =
      served_files (st_trace s) ++ map fu_file_name (on_disk req photos).
Proof.
  unfold on_disk.
  induction photos as [|photo rest IH]; intros index len added s;
    cbn [add_to_archive filter map].
  - exists added, s. unfold ret. now rewrite app_nil_r.
  - destruct (dq_exists req (fu_file_name photo)) eqn:Hex;
      destruct (index =? len - 1)%nat; unfold_handler;
      try destruct (added + 1 =? 0); try destruct (added =? 0);
      unfold_handler;
      match goal with
      | |- context [add_to_archive req mid rest (S index) len ?a ?s1] =>
          destruct (IH (S index) len a s1) as (n & s' & Hrun & Hserved);
            rewrite Hrun; exists n, s'; split; [reflexivity|];
            rewrite Hserved; cbn [st_trace];
            rewrite ?served_files_app; simpl;
            rewrite ?app_nil_r, <- ?app_assoc; reflexivity
      end.
Qed.

Lemma zip_response_served (req : download_request) (u : principal)
    (photos : list file_upload) (zipFileName : string) (op : operation)
    (s : state) :
  served_files (st_trace (snd (zip_response req u photos zipFileName op s))) =
    served_files (st_trace s) ++ map fu_file_name (on_disk req photos).
Proof.
  unfold zip_response. unfold_handler.
  match goal with
  | |- context [add_to_archive req (p_id u) photos 0 (List.length photos) 0 ?s1] =>
      destruct (add_to_archive_served req (p_id u) photos 0 (List.length photos) 0 s1)
        as (n & s' & Hrun & Hserved); rewrite Hrun
  end.
  cbn [st_trace] in Hserved. rewrite !served_files_app in Hserved.
  simpl in Hserved. rewrite !app_nil_r in Hserved.
  destruct (n =? 0); [exact Hserved|].
  destruct (dq_archive req) as [|headersSent message]; unfold_handler;
    rewrite record_all_runs; cbn [st_trace snd].
  - rewrite !served_files_app, served_files_inserts. simpl.
    now rewrite !app_nil_r.
  - destruct headersSent; cbn [st_trace snd];
      rewrite !served_files_app, served_files_inserts; simpl;
      now rewrite !app_nil_r.
Qed.

Lemma download_all_served (req : download_request) (d : db) :
  served_files (st_trace (run (download_all req) d)) =
  match dq_auth req with
  | verified u =>
      if role_eqb (p_role u) merchant
      then map fu_file_name
             (on_disk req (filter (sent_to (dq_customerId req) (p_id u))
                                  (file_uploads d)))
      else []
  | _ => []
  end.
Proof.
  unfold download_all, merchant_of_token.
  destruct (dq_auth req) as [| |u]; [reflexivity|reflexivity|].
  destruct (role_eqb (p_role u) merchant); [|reflexivity].
  unfold_handler.
  set (photos := filter (sent_to (dq_customerId req) (p_id u)) (file_uploads d)).
  destruct (Nat.eqb_spec (List.length photos) 0) as [E|E].
  - destruct photos; [reflexivity|discriminate].
  - unfold_handler.
    match goal with
    | |- context [zip_response req u photos ?z ?op ?s1] =>
        exact (zip_response_served req u photos z op s1)
    end.
Qed.

Lemma download_selected_served (req : download_request) (d : db) :
  served_files (st_trace (run (download_selected req) d)) =
  match dq_auth req, photo_id_array (dq_photoIds req) with
  | verified u, inr photoIdArray =>
      if role_eqb (p_role u) merchant
      then map fu_file_name
             (on_disk req
                (filter (selected photoIdArray (dq_customerId req) (p_id u))
                        (file_uploads d)))
      else []
  | _, _ => []
  end.
Proof.
  unfold download_selected, merchant_of_token.
  destruct (dq_auth req) as [| |u];
    [destruct (photo_id_array _); reflexivity
    |destruct (photo_id_array _); reflexivity|].
  destruct (role_eqb (p_role u) merchant);
    [|destruct (photo_id_array _); reflexivity].
  unfold_handler.
  destruct (photo_id_array (dq_photoIds req)) as [e|ids]; [reflexivity|].
  set (photos := filter (selected ids (dq_customerId req) (p_id u)) (file_uploads d)).
  destruct (Nat.eqb_spec (List.length ids) 0) as [E|E].
  - unfold_handler.
    assert (photos = []) as ->; [|reflexivity].
    destruct ids; [|discriminate]. subst photos. clear.
    induction (file_uploads d) as [|f l IH]; simpl; auto.
  - unfold_handler. fold photos.
    destruct (Nat.eqb_spec (List.length photos) 0) as [E'|E'].
    + destruct photos; [reflexivity|discriminate].
    + unfold_handler. destruct photos as [|photo [|photo2 rest]].
      * contradiction.
      * unfold on_disk. cbn [filter map].
        destruct (dq_exists req (fu_file_name photo)); reflexivity.
      * match goal with
        | |- context [zip_response req u ?ps ?z ?op ?s1] =>
            exact (zip_response_served req u ps z op s1)
        end.
Qed.

(** X8. Whatever the two batch download routes send or put in an archive
    is the stored file, present on disk, of an active asset that the named
    customer sent to the merchant who holds the token; a caller without a
    merchant token is handed nothing. *)
Theorem batch_downloads_serve_own_assets (req : download_request) (d : db)
    (s : string) :
  In s (served_files (st_trace (run (download_all req) d))) \/
  In s (served_files (st_trace (run (download_selected req) d))) ->
  exists u f,
    dq_auth req = verified u /\ p_role u = merchant /\
    In f (file_uploads d) /\ fu_file_name f = s /\
    fu_merchant_id f = p_id u /\ fu_status f = "active" /\
    int_col_eq (fu_user_id f) (VText (dq_customerId req)) = true /\
    dq_exists req s = true.
Proof.
  assert (Hsent : forall u (p : file_upload -> bool) (x : string),
             (forall f, p f = true -> sent_to (dq_customerId req) (p_id u) f = true) ->
             p_role u = merchant ->
             dq_auth req = verified u ->
             In x (map fu_file_name (on_disk req (filter p (file_uploads d)))) ->
             exists u f,
               dq_auth req = verified u /\ p_role u = merchant /\
               In f (file_uploads d) /\ fu_file_name f = x /\
               fu_merchant_id f = p_id u /\ fu_status f = "active" /\
               int_col_eq (fu_user_id f) (VText (dq_customerId req)) = true /\
               dq_exists req x = true).
  { intros u p x Hp Hrole Hauth Hx.
    apply in_map_iff in Hx. destruct Hx as (f & <- & Hf).
    apply filter_In in Hf. destruct Hf as [Hf Hex].
    apply filter_In in Hf. destruct Hf as [Hin Hpf].
    specialize (Hp f Hpf). unfold sent_to in Hp.
    apply andb_prop in Hp. destruct Hp as [Hp Hst].
    apply andb_prop in Hp. destruct Hp as [Hc Hm].
    simpl in Hm. apply Z.eqb_eq in Hm. apply String.eqb_eq in Hst.
    exists u, f. repeat split; auto. }
  rewrite download_all_served, download_selected_served.
  destruct (dq_auth req) as [| |u] eqn:Hauth;
    try (intros [[]|[]]; fail).
  destruct (role_eqb (p_role u) merchant) eqn:Hrole.
  - assert (Hr : p_role u = merchant) by (now destruct (p_role u)).
    intros [H|H].
    + apply (Hsent u _ s (fun f Hf => Hf) Hr eq_refl H).
    + destruct (photo_id_array (dq_photoIds req)) as [e|ids]; [destruct H|].
      apply (Hsent u _ s) in H; auto.
      intros f Hf. unfold selected in Hf. now apply andb_prop in Hf.
  - intros [[]|H]. destruct (photo_id_array _); destruct H.
Qed.

(** ** Order and size of the customer list *)

Lemma insert_sorted_Sorted {A} (before : A -> A -> bool) (x : A) (l : list A) :
  (forall a b, before a b = false -> before b a = true) ->
  Sorted (fun a b => before a b = true) l ->
  Sorted (fun a b => before a b = true) (insert_sorted before x l).
Proof.
  intros Htotal. induction l as [|y r IH]; intros Hs; cbn [insert_sorted].
  - repeat constructor.
  - destruct (before x y) eqn:Hxy.
    + constructor; [exact Hs|]. now constructor.
    + apply Sorted_inv in Hs. destruct Hs as [Hr Hy].
      constructor; [now apply IH|].
      destruct r as [|z r']; cbn [insert_sorted].
      * constructor. now apply Htotal.
      * destruct (before x z); constructor; [now apply Htotal|].
        now inversion Hy.
Qed.

Lemma order_by_Sorted {A} (before : A -> A -> bool) (l : list A) :
  (forall a b, before a b = false -> before b a = true) ->
  Sorted (fun a b => before a b = true) (order_by before l).
Proof.
  intros Htotal. induction l as [|x r IH]; cbn [order_by]; [constructor|].
  now apply insert_sorted_Sorted.
Qed.

Lemma Sorted_skipn {A} (R : A -> A -> Prop) (n : nat) (l : list A) :
  Sorted R l -> Sorted R (skipn n l).
Proof.
  revert l. induction n as [|n IH]; intros l Hs; [exact Hs|].
  destruct l as [|x r]; [constructor|]. simpl. apply IH.
  now apply Sorted_inv in Hs.
Qed.

Lemma Sorted_firstn {A} (R : A -> A -> Prop) (n : nat) (l : list A) :
  Sorted R l -> Sorted R (firstn n l).
Proof.
  revert l. induction n as [|n IH]; intros l Hs; [constructor|].
  destruct l as [|x r]; [constructor|]. simpl.
  apply Sorted_inv in Hs. destruct Hs as [Hr Hx].
  constructor; [now apply IH|].
  destruct r as [|y r']; destruct n; simpl; constructor. now inversion Hx.
Qed.

Lemma Sorted_map {A B} (R : A -> A -> Prop) (R' : B -> B -> Prop)
    (g : A -> B) (l : list A) :
  (forall a b, R a b -> R' (g a) (g b)) ->
  Sorted R l -> Sorted R' (map g l).
Proof.
  intros Hg. induction 1 as [|x r Hr IH Hx]; simpl; constructor; auto.
  destruct Hx; simpl; constructor; auto.
Qed.

Lemma listed_before_total (rank : file_upload -> Z) (a b : file_upload) :
  listed_before rank a b = false -> listed_before rank b a = true.
Proof.
  unfold listed_before. intros H.
  apply orb_false_elim in H. destruct H as [Hlt Heq].
  apply Z.ltb_ge in Hlt.
  destruct (Z.ltb_spec (rank b) (rank a)); [reflexivity|]. simpl.
  assert (E : rank a = rank b) by lia.
  rewrite E, Z.eqb_refl in *. simpl in *.
  destruct (String.leb_total (fu_upload_time a) (fu_upload_time b)); congruence.
Qed.

Lemma length_insert_sorted {A} (before : A -> A -> bool) (x : A) (l : list A) :
  List.length (insert_sorted before x l) = S (List.length l).
Proof.
  induction l as [|y r IH]; simpl; [reflexivity|].
  destruct (before x y); simpl; auto.
Qed.

Lemma length_order_by {A} (before : A -> A -> bool) (l : list A) :
  List.length (order_by before l) = List.length l.
Proof.
  induction l as [|x r IH]; simpl; [reflexivity|].
  now rewrite length_insert_sorted, IH.
Qed.

(** X9. The customer file list is in the order of its ORDER BY: of two
    consecutive rows the first is not deleted or both are, and when both
    are in the same group the first was uploaded no earlier. *)
Theorem customer_list_order (req : list_request) (d : db)
    (code : Z) (files : list file_view) (pg : pagination) :
  response_of (st_trace (run (get_uploads req) d)) = Some (code, b_files files pg) ->
  Sorted shown_before files.
Proof.
  intros H.
  destruct (get_uploads_response _ _ _ _ _ H) as (fl & rows & _ & _ & _ & _ & -> & _).
  apply Sorted_map with (R := fun a b => listed_before deleted_rank a b = true).
  - intros a b Hab. unfold listed_before, deleted_rank in Hab.
    unfold shown_before. cbn [view_of v_status v_upload_time].
    apply orb_prop in Hab. destruct Hab as [Hlt|Heq].
    + left. now apply Z.ltb_lt.
    + apply andb_prop in Heq. destruct Heq as [Heq Hle].
      right. split; [now apply Z.eqb_eq|exact Hle].
  - unfold limit_offset.
    destruct (pg_limit pg <? 0);
      [|apply Sorted_firstn]; apply Sorted_skipn, order_by_Sorted;
      apply listed_before_total.
Qed.

(** X10. The customer file list never holds more rows than [total], nor
    more than a non-negative [limit]; a page that starts at or after
    [total] is empty. *)
Theorem customer_list_size (req : list_request) (d : db)
    (code : Z) (files : list file_view) (pg : pagination) :
  response_of (st_trace (run (get_uploads req) d)) = Some (code, b_files files pg) ->
  Z.of_nat (List.length files) <= pg_total pg /\
  (0 <= pg_limit pg -> Z.of_nat (List.length files) <= pg_limit pg) /\
  (pg_total pg <= (pg_page pg - 1) * pg_limit pg -> files = []).
Proof.
  intros H.
  destruct (get_uploads_response _ _ _ _ _ H)
    as (fl & rows & _ & _ & _ & _ & -> & ->).
  cbn [pg_total pg_limit pg_page]. rewrite length_map. unfold limit_offset.
  set (limit := limit_number 10 req). set (page := page_number req).
  set (sorted := order_by (listed_before deleted_rank) rows).
  assert (Hlen : List.length sorted = List.length rows)
    by apply length_order_by.
  pose proof (length_skipn (Z.to_nat ((page - 1) * limit)) sorted) as Hskip.
  clearbody limit page sorted.
  split; [|split].
  - destruct (limit <? 0); [lia|]. rewrite length_firstn. lia.
  - intros Hpos. destruct (Z.ltb_spec limit 0); [lia|].
    rewrite length_firstn. lia.
  - intros Hbeyond.
    assert (Hnil : skipn (Z.to_nat ((page - 1) * limit)) sorted = []).
    { apply skipn_all2. lia. }
    rewrite Hnil. destruct (limit <? 0); [reflexivity|].
    now rewrite firstn_nil.
Qed.

(** ** Scope of the merchant photo list *)

Lemma get_customer_photos_guard (req : list_request) (d : db)
    (code : Z) (photos : list photo_view) (pg : pagination) :
  response_of (st_trace (run (get_customer_photos req) d))
    = Some (code, b_photos photos pg) ->
  p_role (lr_user req) = merchant /\
  exists cust,
    In cust (users d) /\
    int_col_eq (u_id cust) (VText (lr_customerId req)) = true /\
    u_role cust = customer /\ u_status cust = active.
Proof.
  unfold get_customer_photos.
  destruct (p_role (lr_user req)) eqn:Hrole; cbn [role_eqb negb];
    try (unfold_handler; discriminate).
  unfold_handler.
  destruct (find _ (users d)) as [cust|] eqn:Hfind; [|discriminate].
  destruct (u_status cust) eqn:Hst; [|discriminate].
  intros _. split; [reflexivity|].
  apply find_some in Hfind. destruct Hfind as [Hin Hp].
  apply andb_prop in Hp. destruct Hp as [Hid Hr].
  exists cust. repeat split; auto. now destruct (u_role cust).
Qed.

(** X11. The merchant photo list is given only to a merchant and only for
    an existing, active customer; every row in it is a stored asset that
    this customer sent to this merchant, and the download status it shows,
    if any, is that of a ledger row of this merchant for this asset. *)
Theorem merchant_list_own_rows (req : list_request) (d : db)
    (code : Z) (photos : list photo_view) (pg : pagination) (ph : photo_view) :
  response_of (st_trace (run (get_customer_photos req) d))
    = Some (code, b_photos photos pg) ->
  In ph photos ->
  p_role (lr_user req) = merchant /\
  (exists cust,
      In cust (users d) /\
      int_col_eq (u_id cust) (VText (lr_customerId req)) = true /\
      u_role cust = customer /\ u_status cust = active) /\
  In (ph_file ph) (file_uploads d) /\
  fu_merchant_id (ph_file ph) = p_id (lr_user req) /\
  int_col_eq (fu_user_id (ph_file ph)) (VText (lr_customerId req)) = true /\
  (ph_download_status ph = None \/
   exists ds,
     In ds (download_status d) /\
     ds_file_id ds = fu_id (ph_file ph) /\
     ds_merchant_id ds = p_id (lr_user req) /\
     ph_download_status ph = Some (ds_status ds) /\
     ph_last_download_time ph = Some (ds_download_time ds)).
Proof.
  intros Hresp Hph.
  destruct (get_customer_photos_guard _ _ _ _ _ Hresp) as [Hrole Hcust].
  destruct (get_customer_photos_response _ _ _ _ _ Hresp)
    as (fl & rows & Hfl & _ & _ & Hrows & -> & _).
  pose proof (built_filters_extend _ _ _ Hfl) as (cs & ps & Hw & _ & Hc & _).
  simpl in Hw, Hc.
  apply in_limit_offset, in_order_by in Hph.
  apply in_flat_map in Hph. destruct Hph as (f & Hf & Hph).
  rewrite (select_where_sound _ _ _ _ Hrows) in Hf.
  apply filter_In in Hf. destruct Hf as [Hin Hev].
  rewrite Hw, Hc in Hev. cbn [app eval_where and_opt] in Hev.
  assert (Hscope : int_col_eq (fu_user_id f) (VText (lr_customerId req)) = true /\
                   fu_merchant_id f = p_id (lr_user req)).
  { destruct (int_col_eq (fu_user_id f) (VText (lr_customerId req)));
      destruct (int_col_eq (fu_merchant_id f) (VInt (p_id (lr_user req)))) eqn:Hm;
      destruct (eval_where cs ps f);
      simpl in Hev; try discriminate.
    split; [reflexivity|]. simpl in Hm. now apply Z.eqb_eq. }
  destruct Hscope as [Hc' Hm'].
  assert (Hfile : ph_file ph = f /\
                  (ph_download_status ph = None \/
                   exists ds,
                     In ds (download_status d) /\
                     ds_file_id ds = fu_id f /\
                     ds_merchant_id ds = p_id (lr_user req) /\
                     ph_download_status ph = Some (ds_status ds) /\
                     ph_last_download_time ph = Some (ds_download_time ds))).
  { unfold joined_photos in Hph.
    destruct (filter _ (download_status d)) as [|ds0 l] eqn:Hl.
    - destruct Hph as [<-|[]]. split; [reflexivity|now left].
    - rewrite <- Hl in Hph. apply in_map_iff in Hph.
      destruct Hph as (ds & <- & Hds). apply filter_In in Hds.
      destruct Hds as [Hds Hp]. apply andb_prop in Hp. destruct Hp as [Hfid Hmid].
      apply Z.eqb_eq in Hfid. simpl in Hmid. apply Z.eqb_eq in Hmid.
      split; [reflexivity|]. right. exists ds. repeat split; auto. }
  destruct Hfile as [-> Hds].
  repeat split; auto.
Qed.

(** ** The guard on the bootstrap admin *)

(** X12. A status request whose path id is the text [1] never changes the
    database and is answered 400 or 403; from an administrator with a
    well-formed body it is answered 403 also when it asks to enable the
    account. *)
Theorem status_change_of_id_1_refused (req : status_request) (d : db) :
  sr_id req = "1" ->
  st_db (run (patch_user_status req) d) = d /\
  (exists code b,
      response_of (st_trace (run (patch_user_status req) d)) = Some (code, b) /\
      (code = 400 \/ code = 403)) /\
  (p_role (sr_user req) = admin \/ p_role (sr_user req) = sub_admin ->
   sr_status req = Some "active" ->
   sr_reason req = None ->
   run (patch_user_status req) d =
     mkState d [ev_json 403 (b_error err_main_admin)]).
Proof.
  intros Hid. unfold patch_user_status, requireAdmin. rewrite Hid.
  destruct (negb (role_eqb (p_role (sr_user req)) admin) &&
            negb (role_eqb (p_role (sr_user req)) sub_admin)) eqn:Hadm.
  - unfold_handler. split; [reflexivity|]. split; [eauto|].
    intros [Hr|Hr]; rewrite Hr in Hadm; discriminate.
  - destruct (negb (status_body_valid req)) eqn:Hvalid.
    + unfold_handler. split; [reflexivity|]. split; [eauto|].
      intros _ Hs Hr. unfold status_body_valid in Hvalid.
      rewrite Hs, Hr in Hvalid. discriminate.
    + destruct (sr_status req) as [st|] eqn:Hst.
      * destruct (String.eqb st "disabled" && falsy_text (sr_reason req)) eqn:Hdis;
          unfold_handler; rewrite ?Hdis; unfold_handler.
        -- split; [reflexivity|]. split; [eauto|].
           intros _ Hs _. injection Hs as ->. discriminate.
        -- split; [reflexivity|]. split; [eauto|]. reflexivity.
      * unfold_handler. split; [reflexivity|]. split; [eauto|]. discriminate.
Qed.

(** ** Process status *)

Lemma put_photo_status_step (t : tags) (req : photo_status_request) (d : db) :
  run (put_photo_status t req) d =
  if negb (role_eqb (p_role (ps_user req)) merchant)
  then mkState d [ev_json 403 (b_error err_forbidden)]
  else match ps_process_status req with
       | None => mkState d [ev_json 400 (b_error (tag_invalid_status t))]
       | Some st =>
           if negb (includes validStatuses st)
           then mkState d [ev_json 400 (b_error (tag_invalid_status t))]
           else match find (merchant_photo (ps_photoId req) (p_id (ps_user req)))
                           (file_uploads d) with
                | None =>
                    mkState d [ev_sql sql_select t_file_uploads;
                               ev_json 404 (b_error (tag_photo_missing t))]
                | Some photo =>
                    mkState
                      (mkDb (users d)
                            (map (fun r => if int_col_eq (fu_id r) (VText (ps_photoId req))
                                           then set_process_status st r else r)
                                 (file_uploads d))
                            (download_status d)
                            (operation_logs d ++
                               [mkLog (p_id (ps_user req))
                                      (tag_update_photo_status t) (ps_now req)]))
                      [ev_sql sql_select t_file_uploads;
                       ev_sql sql_update t_file_uploads;
                       ev_sql sql_insert t_operation_logs;
                       ev_json 200 b_ok]
                end
       end.
Proof.
  unfold put_photo_status.
  destruct (negb (role_eqb _ _)); [reflexivity|].
  destruct (ps_process_status req) as [st|]; [|reflexivity].
  destruct (negb (includes validStatuses st)); [reflexivity|].
  unfold_handler.
  destruct (find _ (file_uploads d)); reflexivity.
Qed.

(** X13. The process-status route either answers 200 or leaves the whole
    database as it is.  When it answers 200 it changes, among the rows of
    [file_uploads], only a row whose id is the addressed one, which is then
    an active asset addressed to the calling merchant, and only its
    process status, to the requested one of the three valid values; every
    other row stays as it is and where it is, and the users and the
    download ledger are untouched. *)
Theorem photo_status_scope (t : tags) (req : photo_status_request) (d : db)
    (n : nat) (f : file_upload) :
  file_ids_unique d ->
  nth_error (file_uploads d) n = Some f ->
  (response_of (st_trace (run (put_photo_status t req) d)) = Some (200, b_ok) \/
   st_db (run (put_photo_status t req) d) = d) /\
  users (st_db (run (put_photo_status t req) d)) = users d /\
  download_status (st_db (run (put_photo_status t req) d)) = download_status d /\
  List.length (file_uploads (st_db (run (put_photo_status t req) d)))
    = List.length (file_uploads d) /\
  exists f',
    nth_error (file_uploads (st_db (run (put_photo_status t req) d))) n = Some f' /\
    ((f' = f /\
      (int_col_eq (fu_id f) (VText (ps_photoId req)) = false \/
       st_db (run (put_photo_status t req) d) = d)) \/
     exists st,
       response_of (st_trace (run (put_photo_status t req) d)) = Some (200, b_ok) /\
       int_col_eq (fu_id f) (VText (ps_photoId req)) = true /\
       ps_process_status req = Some st /\ In st validStatuses /\
       f' = set_process_status st f /\
       p_role (ps_user req) = merchant /\
       fu_merchant_id f = p_id (ps_user req) /\
       fu_status f = "active").
Proof.
  intros Hu Hn. rewrite put_photo_status_step.
  destruct (role_eqb (p_role (ps_user req)) merchant) eqn:Hrole; cbn [negb];
    [|cbn [st_db]; repeat (split; [auto|]); exists f; split; [exact Hn|];
      left; split; [reflexivity|now right]].
  destruct (ps_process_status req) as [st|];
    [|cbn [st_db]; repeat (split; [auto|]); exists f; split; [exact Hn|];
      left; split; [reflexivity|now right]].
  destruct (includes validStatuses st) eqn:Hst; cbn [negb];
    [|cbn [st_db]; repeat (split; [auto|]); exists f; split; [exact Hn|];
      left; split; [reflexivity|now right]].
  destruct (find _ (file_uploads d)) as [photo|] eqn:Hfind;
    [|cbn [st_db]; repeat (split; [auto|]); exists f; split; [exact Hn|];
      left; split; [reflexivity|now right]].
  cbn [st_db st_trace file_uploads users download_status].
  split; [left; reflexivity|]. split; [reflexivity|]. split; [reflexivity|].
  split; [apply length_map|].
  rewrite nth_error_map, Hn. cbn [option_map].
  destruct (int_col_eq (fu_id f) (VText (ps_photoId req))) eqn:Hid;
    [|exists f; split; [reflexivity|]; left; split; [reflexivity|now left]].
  exists (set_process_status st f). split; [reflexivity|]. right.
  apply find_some in Hfind. destruct Hfind as [Hin Hp].
  unfold merchant_photo in Hp.
  apply andb_prop in Hp. destruct Hp as [Hp Hact].
  apply andb_prop in Hp. destruct Hp as [Hpid Hmid].
  assert (f = photo) as ->.
  { apply (key_injective fu_id (file_uploads d)); auto.
    - eapply nth_error_In; eauto.
    - unfold int_col_eq in Hid, Hpid.
      destruct (int_of_text (ps_photoId req)); [|discriminate].
      apply Z.eqb_eq in Hid, Hpid. congruence. }
  exists st. split; [reflexivity|]. split; [reflexivity|].
  split; [reflexivity|]. split; [now apply includes_In|].
  split; [reflexivity|]. split; [now destruct (p_role (ps_user req))|].
  split; [simpl in Hmid; now apply Z.eqb_eq|now apply String.eqb_eq].
Qed.

Lemma find_after_map (p : file_upload -> bool)
    (g : file_upload -> file_upload) (l : list file_upload) :
  (forall r, p (g r) = p r) ->
  find p (map g l) = option_map g (find p l).
Proof.
  intros Hp. induction l as [|x l IH]; simpl; [reflexivity|].
  rewrite Hp. destruct (p x); auto.
Qed.

(** X14. For an active asset of the calling merchant, each of the three
    process statuses is accepted whatever the current one is: the answer
    is 200 and the asset then carries the requested status, all its other
    fields unchanged. *)
Theorem photo_status_any_transition (t : tags) (req : photo_status_request)
    (d : db) (photo : file_upload) (st : string) :
  p_role (ps_user req) = merchant ->
  ps_process_status req = Some st ->
  In st validStatuses ->
  find (merchant_photo (ps_photoId req) (p_id (ps_user req))) (file_uploads d)
    = Some photo ->
  response_of (st_trace (run (put_photo_status t req) d)) = Some (200, b_ok) /\
  find (merchant_photo (ps_photoId req) (p_id (ps_user req)))
       (file_uploads (st_db (run (put_photo_status t req) d)))
    = Some (set_process_status st photo) /\
  fu_process_status (set_process_status st photo) = st.
Proof.
  intros Hrole Hst Hin Hfind. rewrite put_photo_status_step.
  rewrite Hrole, Hst. cbn [role_eqb negb].
  assert (Hinc : includes validStatuses st = true).
  { apply existsb_exists. exists st. split; [exact Hin|apply String.eqb_refl]. }
  rewrite Hinc, Hfind. cbn [negb st_db st_trace file_uploads].
  split; [reflexivity|]. split; [|reflexivity].
  rewrite find_after_map.
  - rewrite Hfind. cbn [option_map].
    apply find_some in Hfind. destruct Hfind as [_ Hp].
    unfold merchant_photo in Hp.
    apply andb_prop in Hp. destruct Hp as [Hp _].
    apply andb_prop in Hp. destruct Hp as [Hid _]. now rewrite Hid.
  - intros r. destruct (int_col_eq (fu_id r) (VText (ps_photoId req)));
      reflexivity.
Qed.

(** ** Download of one photo *)

(** X15. A single-photo download that finds the photo appends exactly one
    ledger row, of type [single], for that photo and merchant: [success]
    only when the file is on disk and was sent without error, [failed]
    otherwise; the log gets its entry only with a success, and the file is
    handed to [sendFile] exactly when it is on disk. *)
Theorem photo_download_outcome (t : tags) (req : photo_download_request)
    (d : db) (u : principal) (photo : file_upload) :
  pd_auth req = verified u ->
  p_role u = merchant ->
  find (merchant_photo (pd_photoId req) (p_id u)) (file_uploads d) = Some photo ->
  let s := run (photo_download t req) d in
  let sent := pd_exists req (fu_file_name photo) in
  let ok := sent && match pd_send_error req with None => true | Some _ => false end in
  (exists row,
      download_status (st_db s) = download_status d ++ [row] /\
      ds_file_id row = fu_id photo /\ ds_merchant_id row = p_id u /\
      ds_download_type row = "single" /\
      ds_status row = (if ok then "success" else "failed")) /\
  operation_logs (st_db s) =
    (if ok
     then operation_logs d ++ [mkLog (p_id u) (tag_download_photo t) (pd_now req)]
     else operation_logs d) /\
  served_files (st_trace s) = (if sent then [fu_file_name photo] else []) /\
  file_uploads (st_db s) = file_uploads d /\
  users (st_db s) = users d.
Proof.
  intros Hauth Hrole Hfind s sent ok. subst s sent ok.
  unfold photo_download, merchant_of_token.
  rewrite Hauth, Hrole. cbn [role_eqb negb]. unfold_handler. rewrite Hfind.
  destruct (pd_exists req (fu_file_name photo)); unfold_handler.
  - destruct (pd_send_error req) as [message|]; unfold_handler;
      (split; [eexists; split; [reflexivity|repeat split]|repeat split]).
  - split; [eexists; split; [reflexivity|repeat split]|repeat split].
Qed.

(** X16. The single-photo download hands over a file only to a merchant
    token and only the file, present on disk, of an active asset addressed
    to that merchant; in every other case nothing is sent. *)
Theorem photo_download_serves_own_assets (t : tags)
    (req : photo_download_request) (d : db) (s : string) :
  In s (served_files (st_trace (run (photo_download t req) d))) ->
  exists u f,
    pd_auth req = verified u /\ p_role u = merchant /\
    In f (file_uploads d) /\ fu_file_name f = s /\
    fu_merchant_id f = p_id u /\ fu_status f = "active" /\
    pd_exists req s = true.
Proof.
  unfold photo_download, merchant_of_token.
  destruct (pd_auth req) as [| |u]; try (unfold_handler; intros []; fail).
  destruct (role_eqb (p_role u) merchant) eqn:Hrole; cbn [negb];
    [|unfold_handler; intros []].
  unfold_handler.
  destruct (find _ (file_uploads d)) as [photo|] eqn:Hfind;
    [|unfold_handler; intros []].
  apply find_some in Hfind. destruct Hfind as [Hin Hp].
  unfold merchant_photo in Hp.
  apply andb_prop in Hp. destruct Hp as [Hp Hact].
  apply andb_prop in Hp. destruct Hp as [_ Hmid].
  simpl in Hmid. apply Z.eqb_eq in Hmid. apply String.eqb_eq in Hact.
  destruct (pd_exists req (fu_file_name photo)) eqn:Hex; unfold_handler;
    [|intros []].
  assert (Hr : p_role u = merchant) by (now destruct (p_role u)).
  destruct (pd_send_error req); unfold_handler;
    (intros [<-|[]]; exists u, photo; repeat split; auto).
Qed.

(** ** Access to a stored file *)

(** X17. The file route sends a file exactly when it is on disk and some
    row with that stored name is the caller's own (customer), is addressed
    to the caller (merchant), or exists at all (the other roles); the
    status of the row plays no part, and the database is never changed. *)
Theorem file_access_rule (t : tags) (req : file_access_request) (d : db) :
  (served_files (st_trace (run (get_upload_file t req) d)) = [fa_filename req] <->
   fa_exists req (fa_filename req) = true /\
   exists f,
     In f (file_uploads d) /\ fu_file_name f = fa_filename req /\
     (p_role (fa_user req) = customer -> fu_user_id f = p_id (fa_user req)) /\
     (p_role (fa_user req) = merchant -> fu_merchant_id f = p_id (fa_user req))) /\
  (served_files (st_trace (run (get_upload_file t req) d)) = [fa_filename req] \/
   served_files (st_trace (run (get_upload_file t req) d)) = []) /\
  st_db (run (get_upload_file t req) d) = d.
Proof.
  unfold get_upload_file.
  destruct (fa_exists req (fa_filename req)) eqn:Hex; cbn [negb]; unfold_handler.
  - destruct (find _ (file_uploads d)) as [file|] eqn:Hfind; unfold_handler.
    + split; [|split; [now left|reflexivity]].
      split; [intros _|reflexivity].
      split; [reflexivity|].
      apply find_some in Hfind. destruct Hfind as [Hin Hp].
      unfold may_read in Hp. apply andb_prop in Hp. destruct Hp as [Hname Hvis].
      apply String.eqb_eq in Hname.
      exists file. repeat split; auto.
      * intros Hr. rewrite Hr in Hvis. simpl in Hvis. now apply Z.eqb_eq.
      * intros Hr. rewrite Hr in Hvis. simpl in Hvis. now apply Z.eqb_eq.
    + split; [|split; [now right|reflexivity]].
      split; [discriminate|].
      intros (_ & f & Hin & Hname & Hc & Hm). exfalso.
      pose proof (find_none _ _ Hfind f Hin) as Hno.
      unfold may_read in Hno. rewrite Hname, String.eqb_refl in Hno.
      destruct (p_role (fa_user req)); simpl in Hno; try discriminate.
      * rewrite (Hm eq_refl), Z.eqb_refl in Hno. discriminate.
      * rewrite (Hc eq_refl), Z.eqb_refl in Hno. discriminate.
  - split; [|split; [now right|reflexivity]].
    split; [discriminate|]. intros [H _]. discriminate.
Qed.

(** ** Merchants *)

Lemma in_insert_sorted_iff {A} (before : A -> A -> bool) (x y : A) (l : list A) :
  In y (insert_sorted before x l) <-> y = x \/ In y l.
Proof.
  split; [apply in_insert_sorted|].
  induction l as [|z l IH]; simpl.
  - intros [->|[]]; now left.
  - destruct (before x z); simpl; intros [->|[->|H]]; auto.
Qed.

Lemma in_order_by_iff {A} (before : A -> A -> bool) (y : A) (l : list A) :
  In y (order_by before l) <-> In y l.
Proof.
  split; [apply in_order_by|].
  induction l as [|x l IH]; simpl; [auto|].
  intros H. apply in_insert_sorted_iff. destruct H as [->|H]; auto.
Qed.

(** X18. The merchants offered for an upload are exactly the users with
    role merchant and status active, each with its id and name, in
    ascending order of name. *)
Theorem merchants_query_exact (d : db) :
  (forall id name,
      In (id, name) (merchants_query d) <->
      exists u, In u (users d) /\ u_id u = id /\ u_username u = name /\
                u_role u = merchant /\ u_status u = active) /\
  Sorted (fun a b => String.leb (snd a) (snd b) = true) (merchants_query d).
Proof.
  unfold merchants_query. split.
  - intros id name. rewrite in_map_iff. split.
    + intros (u & [= <- <-] & Hu). apply in_order_by_iff in Hu.
      apply filter_In in Hu. destruct Hu as [Hin Hp].
      apply andb_prop in Hp. destruct Hp as [Hr Hs].
      exists u. repeat split; auto.
      * now destruct (u_role u).
      * now destruct (u_status u).
    + intros (u & Hin & <- & <- & Hr & Hs). exists u. split; [reflexivity|].
      apply in_order_by_iff. apply filter_In. split; [exact Hin|].
      now rewrite Hr, Hs.
  - apply Sorted_map with
      (R := fun a b => String.leb (u_username a) (u_username b) = true);
      [auto|].
    apply order_by_Sorted. intros a b H.
    destruct (String.leb_total (u_username a) (u_username b)); congruence.
Qed.

Lemma find_map_preserved {A} (p : A -> bool) (g : A -> A) (l : list A) :
  (forall r, p (g r) = p r) ->
  find p (map g l) = option_map g (find p l).
Proof.
  intros Hp. induction l as [|x l IH]; simpl; [reflexivity|].
  rewrite Hp. destruct (p x); auto.
Qed.

(** X19. Once a merchant has been disabled through the status route, an
    upload addressed to that merchant is answered 400 and writes nothing,
    whatever its files are. *)
Theorem disabled_merchant_gets_no_uploads (sreq : status_request)
    (ureq : upload_request) (d : db) (b : body) (merchantId : string) (m : user) :
  response_of (st_trace (run (patch_user_status sreq) d)) = Some (200, b) ->
  sr_status sreq = Some "disabled" ->
  user_has_id (sr_id sreq) m = true ->
  given (ur_merchantId ureq) = Some merchantId ->
  find (fun u => user_has_id merchantId u && role_eqb (u_role u) merchant)
       (users d) = Some m ->
  let d' := st_db (run (patch_user_status sreq) d) in
  st_db (run (post_upload ureq) d') = d' /\
  exists e, response_of (st_trace (run (post_upload ureq) d')) = Some (400, b_error e).
Proof.
  intros Hresp Hdis Hsel Hgiven Hfind d'.
  assert (Hfind' : find (fun u => user_has_id merchantId u &&
                                  role_eqb (u_role u) merchant) (users d')
                   = Some (set_user_status disabled (sr_reason sreq) m)).
  { destruct (patch_user_status_applied _ _ _ Hresp) as [_ [(_ & _ & Hus)|(Hs & _)]];
      [|congruence].
    subst d'. rewrite Hus. rewrite find_map_preserved.
    - rewrite Hfind. cbn [option_map]. now rewrite Hsel.
    - intros r. destruct (user_has_id (sr_id sreq) r); reflexivity. }
  clearbody d'. clear Hresp Hfind.
  unfold post_upload.
  destruct (multer_array _ _ _ _) as [e|files];
    [unfold_handler; split; [reflexivity|eauto]|].
  rewrite Hgiven.
  destruct (List.length files =? 0)%nat;
    [unfold_handler; split; [reflexivity|eauto]|].
  unfold_handler. rewrite Hfind'. unfold_handler.
  split; [reflexivity|eauto].
Qed.

(** ** The customers of a merchant *)

Lemma string_leb_trans (s1 s2 s3 : string) :
  String.leb s1 s2 = true -> String.leb s2 s3 = true -> String.leb s1 s3 = true.
Proof.
  unfold String.leb. revert s2 s3.
  induction s1 as [|a s1 IH]; intros [|b s2] [|c s3]; cbn [String.compare];
    try reflexivity; try discriminate.
  unfold Ascii.compare.
  destruct (N.compare_spec (N_of_ascii a) (N_of_ascii b)) as [Hab|Hab|Hab];
    destruct (N.compare_spec (N_of_ascii b) (N_of_ascii c)) as [Hbc|Hbc|Hbc];
    try discriminate; intros H1 H2.
  - replace (N_of_ascii a ?= N_of_ascii c)%N with Eq
      by (symmetry; apply N.compare_eq_iff; congruence).
    now apply (IH s2 s3).
  - replace (N_of_ascii a ?= N_of_ascii c)%N with Lt
      by (symmetry; apply N.compare_lt_iff; lia).
    reflexivity.
  - replace (N_of_ascii a ?= N_of_ascii c)%N with Lt
      by (symmetry; apply N.compare_lt_iff; lia).
    reflexivity.
  - replace (N_of_ascii a ?= N_of_ascii c)%N with Lt
      by (symmetry; apply N.compare_lt_iff; lia).
    reflexivity.
Qed.

Lemma string_leb_refl (s : string) : String.leb s s = true.
Proof. destruct (String.leb_total s s); assumption. Qed.

Lemma max_text_upper (l : list string) (t : string) :
  In t l -> String.leb t (max_text l) = true.
Proof.
  induction l as [|x r IH]; [intros []|].
  cbn [max_text fold_right In]. fold (max_text r).
  destruct (String.leb (max_text r) x) eqn:Hx; intros [->|Hin].
  - apply string_leb_refl.
  - apply string_leb_trans with (max_text r); auto.
  - destruct (String.leb_total (max_text r) t); [congruence|assumption].
  - auto.
Qed.

Lemma max_text_in (l : list string) : l <> [] -> In (max_text l) l.
Proof.
  induction l as [|x r IH]; [congruence|]. intros _.
  cbn [max_text fold_right]. fold (max_text r).
  destruct (String.leb (max_text r) x) eqn:Hx; [now left|].
  right. apply IH. intros ->. destruct x; discriminate.
Qed.

(** X20. The customers page of a merchant: it is given to merchants only;
    every row is a user with role customer, with its id, name and account
    status, whatever that status is; its count is the number of files
    this user sent to the calling merchant, deleted ones included, and is
    at least 1; its last upload time is the time of one of those files and
    no file of the group is later; the rows come latest first, and there
    are never more rows than [total]. *)
Theorem merchant_customers_rows (req : list_request) (d : db)
    (customers : list customer_row) (pg : pagination) (c : customer_row) :
  get_merchant_customers req d = customers_page customers pg ->
  In c customers ->
  p_role (lr_user req) = merchant /\
  (exists u,
      In u (users d) /\ u_role u = customer /\
      cr_id c = u_id u /\ cr_username c = u_username u /\
      cr_status c = u_status u /\
      cr_file_count c
        = Z.of_nat (List.length (sent_by d (p_id (lr_user req)) u)) /\
      1 <= cr_file_count c /\
      (exists f, In f (sent_by d (p_id (lr_user req)) u) /\
                 fu_upload_time f = cr_last_upload_time c) /\
      (forall f, In f (sent_by d (p_id (lr_user req)) u) ->
                 String.leb (fu_upload_time f) (cr_last_upload_time c) = true)) /\
  Sorted (fun a b => String.leb (cr_last_upload_time b)
                                (cr_last_upload_time a) = true) customers /\
  Z.of_nat (List.length customers) <= pg_total pg.
Proof.
  unfold get_merchant_customers.
  destruct (p_role (lr_user req)) eqn:Hrole; cbn [role_eqb negb];
    try discriminate.
  intros [= <- <-] Hin. split; [reflexivity|]. split; [|split].
  - apply in_limit_offset, in_order_by in Hin.
    unfold customer_groups in Hin. apply in_flat_map in Hin.
    destruct Hin as (u & Hu & Hc).
    destruct (role_eqb (u_role u) customer) eqn:Hr; [|destruct Hc].
    remember (sent_by d (p_id (lr_user req)) u) as sent eqn:Hsent.
    destruct sent as [|f0 rest]; [destruct Hc|].
    destruct Hc as [<-|[]]. cbn [cr_id cr_username cr_status cr_file_count
                                cr_last_upload_time].
    exists u. rewrite <- Hsent.
    split; [exact Hu|]. split; [now destruct (u_role u)|].
    split; [reflexivity|]. split; [reflexivity|]. split; [reflexivity|].
    split; [reflexivity|]. split; [cbn [List.length]; lia|]. split.
    + assert (Hmax : In (max_text (map fu_upload_time (f0 :: rest)))
                        (map fu_upload_time (f0 :: rest)))
        by (apply max_text_in; discriminate).
      apply in_map_iff in Hmax. destruct Hmax as (f & Hf & Hfin). eauto.
    + intros f Hf. apply max_text_upper. now apply in_map.
  - unfold limit_offset.
    destruct (limit_number 10 req <? 0);
      [|apply Sorted_firstn]; apply Sorted_skipn, order_by_Sorted;
      intros a b H;
      destruct (String.leb_total (cr_last_upload_time b) (cr_last_upload_time a));
      congruence.
  - cbn [pg_total]. unfold limit_offset.
    set (sorted := order_by _ _).
    assert (Hlen : List.length sorted
                   = List.length (customer_groups d (p_id (lr_user req))))
      by apply length_order_by.
    pose proof (length_skipn
                  (Z.to_nat ((page_number req - 1) * limit_number 10 req))
                  sorted) as Hskip.
    clearbody sorted.
    destruct (limit_number 10 req <? 0); [lia|]. rewrite length_firstn. lia.
Qed.

(** ** The properties above at the sample data *)

Lemma lifecycle_leaves_other_users_rows_witness :
  nth_error (file_uploads (st_db (run (put_remarks edit_a) sample_db))) 3
    = Some photo_d /\
  nth_error (file_uploads (st_db (run (delete_upload edit_a) sample_db))) 3
    = Some photo_d /\
  nth_error (file_uploads (st_db (run (restore_upload edit_a) sample_db))) 3
    = Some photo_d /\
  List.length (file_uploads (st_db (run (put_remarks edit_a) sample_db)))
    = List.length (file_uploads sample_db) /\
  List.length (file_uploads (st_db (run (delete_upload edit_a) sample_db)))
    = List.length (file_uploads sample_db) /\
  List.length (file_uploads (st_db (run (restore_upload edit_a) sample_db)))
    = List.length (file_uploads sample_db).
Proof.
  apply (lifecycle_leaves_other_users_rows edit_a sample_db 3 photo_d).
  - reflexivity.
  - vm_compute. discriminate.
Defined.

Lemma repeated_edits_stop_at_ten_witness :
  (exists f',
      find (owned_by "1" (p_id alice))
           (file_uploads
              (st_db (sv_state (play (one_by_one [edit_a; edit_a_again])
                                     sample_db))))
        = Some f' /\
      edit_count_of f' =
        Z.min (edit_count_of photo_a
               + Z.of_nat (List.length [edit_a; edit_a_again])) 10 /\
      fu_status f' = fu_status photo_a /\
      fu_id f' = fu_id photo_a) /\
  (exists f',
      find (owned_by "4" 4)
           (file_uploads
              (st_db (sv_state (play (one_by_one [edit_d; edit_d_long])
                                     sample_db))))
        = Some f' /\
      edit_count_of f' =
        Z.min (edit_count_of photo_d
               + Z.of_nat (List.length [edit_d; edit_d_long])) 10 /\
      fu_status f' = fu_status photo_d /\
      fu_id f' = fu_id photo_d).
Proof.
  split.
  - apply (repeated_edits_stop_at_ten [edit_a; edit_a_again] sample_db photo_a
             "1" alice).
    + reflexivity.
    + vm_compute. discriminate.
    + vm_compute. discriminate.
    + repeat constructor; vm_compute; repeat constructor.
  - apply (repeated_edits_stop_at_ten [edit_d; edit_d_long] sample_db photo_d
             "4" (mkPrincipal 4 customer)).
    + reflexivity.
    + vm_compute. discriminate.
    + vm_compute. discriminate.
    + repeat constructor; vm_compute; repeat constructor.
Defined.

Lemma remarks_response_counts_witness :
  answers (st_trace (snd (put_remarks_update edit_a_again 9
                            (run (put_remarks edit_a) sample_db))))
    = answers (st_trace (run (put_remarks edit_a) sample_db))
      ++ [(200, b_edit (9 + 1) (10 - (9 + 1)))] /\
  exists f',
    find (owned_by (fr_id edit_a_again) (p_id (fr_user edit_a_again)))
         (file_uploads
            (st_db (snd (put_remarks_update edit_a_again 9
                           (run (put_remarks edit_a) sample_db)))))
      = Some f' /\
    fu_edit_count f' = Some (10 + 1) /\
    fu_remarks f' = fr_remarks edit_a_again /\
    fu_last_edit_time f' = Some (fr_now edit_a_again).
Proof.
  destruct (remarks_response_counts edit_a_again (mkState sample_db [])
              (mkState sample_db [ev_sql sql_select t_file_uploads])
              (run (put_remarks edit_a) sample_db) 9
              (set_remarks (fr_remarks edit_a) (fr_now edit_a) photo_a)
              eq_refl eq_refl)
    as (_ & _ & Hans & _ & Hstored & _).
  exact (conj Hans Hstored).
Defined.

Lemma upload_appends_rows_witness :
  exists rows,
    file_uploads (st_db (run (post_upload picture_and_archive) sample_db))
      = file_uploads sample_db ++ rows /\
    Forall2 (stored_as picture_and_archive 2) (ur_parts picture_and_archive) rows.
Proof.
  destruct (upload_appends_rows picture_and_archive sample_db
              [mkSaved 5 "ring.JPG" "20_ring.JPG" 2000000 "image";
               mkSaved 6 "all.zip" "21_all.zip" 60000 "archive"] "shop" eq_refl)
    as (m & rows & Hm & _ & Hname & Hrows & Hstored & _).
  exists rows. split; [exact Hrows|].
  assert (Hid : u_id m = 2).
  { simpl in Hm.
    destruct Hm as [<-|[<-|[<-|[<-|[<-|[]]]]]]; try discriminate Hname.
    reflexivity. }
  now rewrite <- Hid.
Defined.

Lemma upload_then_duplicate_check_witness :
  exists duplicateFiles,
    response_of
      (st_trace
         (run (check_duplicate_files
                 (mkDupReq (ur_user picture_and_archive) (VText "2")
                           (Some (map originalname (ur_parts picture_and_archive)))))
              (st_db (run (post_upload picture_and_archive) sample_db))))
      = Some (200, b_duplicates duplicateFiles) /\
    forall p, In p (ur_parts picture_and_archive) ->
              In (originalname p) duplicateFiles.
Proof.
  eapply (upload_then_duplicate_check picture_and_archive sample_db _ _ "2");
    reflexivity.
Defined.

Lemma upload_archive_rows_are_archives_witness :
  In "application/zip" archiveTypes \/
  In (toLowerCase (extname "all.zip")) archiveExtensions.
Proof.
  eapply (upload_archive_rows_are_archives picture_and_archive sample_db _ _
            (mkPart "files" "all.zip" "application/zip" 60000)).
  - reflexivity.
  - simpl. auto.
  - reflexivity.
Defined.

Lemma duplicate_check_exact_witness :
  exists fileNames f,
    dr_fileNames customer_probe = Some fileNames /\ In "a.jpg" fileNames /\
    In f (file_uploads sample_db) /\ fu_original_name f = "a.jpg" /\
    fu_user_id f = p_id (dr_user customer_probe) /\
    int_col_eq (fu_merchant_id f) (dr_merchantId customer_probe) = true.
Proof.
  apply (proj1 (duplicate_check_exact customer_probe sample_db ["a.jpg"] "a.jpg"
                  eq_refl)).
  simpl. auto.
Defined.

Lemma batch_downloads_serve_own_assets_witness :
  exists u f,
    dq_auth selected_of_alice = verified u /\ p_role u = merchant /\
    In f (file_uploads sample_db) /\ fu_file_name f = "1_a.jpg" /\
    fu_merchant_id f = p_id u /\ fu_status f = "active" /\
    int_col_eq (fu_user_id f) (VText (dq_customerId selected_of_alice)) = true /\
    dq_exists selected_of_alice "1_a.jpg" = true.
Proof.
  apply (batch_downloads_serve_own_assets selected_of_alice sample_db "1_a.jpg").
  right. vm_compute. auto.
Defined.

Lemma customer_list_order_witness :
  Sorted shown_before [view_of sample_db photo_d; view_of sample_db photo_c].
Proof.
  eapply (customer_list_order bob_list sample_db 200 _ _). reflexivity.
Defined.

Lemma customer_list_size_witness :
  Z.of_nat (List.length [view_of sample_db photo_d; view_of sample_db photo_c])
    <= 2.
Proof.
  apply (proj1 (customer_list_size bob_list sample_db 200
                  [view_of sample_db photo_d; view_of sample_db photo_c]
                  (mkPagination 1 10 2 1) eq_refl)).
Defined.

Lemma merchant_list_own_rows_witness :
  In photo_a (file_uploads sample_db) /\
  fu_merchant_id photo_a = p_id (lr_user photos_of_alice) /\
  int_col_eq (fu_user_id photo_a) (VText (lr_customerId photos_of_alice)) = true.
Proof.
  destruct (merchant_list_own_rows photos_of_alice sample_db 200
              [mkPhoto photo_a (Some "alice") None None;
               mkPhoto photo_b (Some "alice") None None]
              (mkPagination 1 20 2 1)
              (mkPhoto photo_a (Some "alice") None None)
              eq_refl (or_introl eq_refl))
    as (_ & _ & Hin & Hm & Hc & _).
  exact (conj Hin (conj Hm Hc)).
Defined.

Lemma status_change_of_id_1_refused_witness :
  run (patch_user_status enable_1) sample_db =
    mkState sample_db [ev_json 403 (b_error err_main_admin)].
Proof.
  apply (proj2 (proj2 (status_change_of_id_1_refused enable_1 sample_db eq_refl))).
  - right. reflexivity.
  - reflexivity.
  - reflexivity.
Defined.

Lemma photo_status_scope_witness :
  (exists f',
      nth_error (file_uploads (st_db (run (put_photo_status sample_tags ship_a)
                                          sample_db))) 0 = Some f' /\
      f' = set_process_status "shipped" photo_a) /\
  st_db (run (put_photo_status sample_tags ship_missing) sample_db) = sample_db.
Proof.
  split.
  - destruct (photo_status_scope sample_tags ship_a sample_db 0 photo_a
                sample_ids_unique eq_refl)
      as (_ & _ & _ & _ & f' & Hn & _).
    exists f'. split; [exact Hn|].
    vm_compute in Hn. injection Hn as <-. reflexivity.
  - destruct (photo_status_scope sample_tags ship_missing sample_db 0 photo_a
                sample_ids_unique eq_refl)
      as ([H|H] & _); [|exact H].
    vm_compute in H. discriminate H.
Defined.

Lemma photo_status_any_transition_witness :
  response_of (st_trace (run (put_photo_status sample_tags ship_a) sample_db))
    = Some (200, b_ok) /\
  find (merchant_photo (ps_photoId ship_a) (p_id (ps_user ship_a)))
       (file_uploads (st_db (run (put_photo_status sample_tags ship_a) sample_db)))
    = Some (set_process_status "shipped" photo_a) /\
  fu_process_status (set_process_status "shipped" photo_a) = "shipped".
Proof.
  apply (photo_status_any_transition sample_tags ship_a sample_db photo_a
           "shipped").
  - reflexivity.
  - reflexivity.
  - simpl. auto.
  - reflexivity.
Defined.

Lemma photo_download_outcome_witness :
  (exists row,
      download_status (st_db (run (photo_download sample_tags fetch_a) sample_db))
        = download_status sample_db ++ [row] /\
      ds_file_id row = fu_id photo_a /\ ds_merchant_id row = p_id shop /\
      ds_download_type row = "single" /\
      ds_status row = "success") /\
  operation_logs (st_db (run (photo_download sample_tags fetch_a) sample_db)) =
    operation_logs sample_db
    ++ [mkLog (p_id shop) (tag_download_photo sample_tags) (pd_now fetch_a)] /\
  served_files (st_trace (run (photo_download sample_tags fetch_a) sample_db))
    = [fu_file_name photo_a] /\
  file_uploads (st_db (run (photo_download sample_tags fetch_a) sample_db))
    = file_uploads sample_db /\
  users (st_db (run (photo_download sample_tags fetch_a) sample_db))
    = users sample_db.
Proof.
  exact (photo_download_outcome sample_tags fetch_a sample_db shop photo_a
           eq_refl eq_refl eq_refl).
Defined.

Lemma photo_download_serves_own_assets_witness :
  exists u f,
    pd_auth fetch_a = verified u /\ p_role u = merchant /\
    In f (file_uploads sample_db) /\ fu_file_name f = "1_a.jpg" /\
    fu_merchant_id f = p_id u /\ fu_status f = "active" /\
    pd_exists fetch_a "1_a.jpg" = true.
Proof.
  apply (photo_download_serves_own_assets sample_tags fetch_a sample_db "1_a.jpg").
  vm_compute. auto.
Defined.

Lemma disabled_merchant_gets_no_uploads_witness :
  st_db (run (post_upload picture_and_archive)
             (st_db (run (patch_user_status disable_shop) sample_db)))
    = st_db (run (patch_user_status disable_shop) sample_db) /\
  exists e,
    response_of
      (st_trace (run (post_upload picture_and_archive)
                     (st_db (run (patch_user_status disable_shop) sample_db))))
      = Some (400, b_error e).
Proof.
  exact (disabled_merchant_gets_no_uploads disable_shop picture_and_archive
           sample_db b_ok "2" (mkUser 2 "shop" merchant active None)
           eq_refl eq_refl eq_refl eq_refl eq_refl).
Defined.

Lemma merchant_customers_rows_witness :
  exists u,
    In u (users sample_db) /\ u_role u = customer /\
    4 = u_id u /\ "bob"%string = u_username u /\ active = u_status u /\
    2 = Z.of_nat (List.length (sent_by sample_db (p_id shop) u)).
Proof.
  destruct (merchant_customers_rows customers_of_shop sample_db
              [mkCustomerRow 3 "alice" active 2 sample_time;
               mkCustomerRow 4 "bob" active 2 sample_time]
              (mkPagination 1 10 2 1)
              (mkCustomerRow 4 "bob" active 2 sample_time)
              eq_refl (or_intror (or_introl eq_refl)))
    as (_ & (u & Hu & Hr & Hid & Hn & Hs & Hc & _) & _).
  exists u. repeat split; assumption.
Defined.

Lemma upload_each_file_bounded_witness :
  Forall (fun p => size p <= fileSize_limit) (ur_parts picture_and_archive).
Proof.
  eapply (upload_each_file_bounded picture_and_archive sample_db _ _).
  reflexivity.
Defined.

Lemma download_all_none_on_disk_witness :
  response_of (st_trace (run (download_all lost_of_alice) sample_db))
    = Some (404, b_error err_no_usable_files) /\
  st_db (run (download_all lost_of_alice) sample_db) =
    ledger_plus sample_db
      (map (failed_row lost_of_alice (p_id shop)) [photo_a; photo_b]).
Proof.
  apply (download_all_none_on_disk lost_of_alice sample_db shop).
  - reflexivity.
  - reflexivity.
  - vm_compute. discriminate.
  - reflexivity.
Defined.

Lemma download_all_completed_witness :
  download_status (st_db (run (download_all all_of_alice) sample_db)) =
    download_status sample_db ++
    map (failed_row all_of_alice (p_id shop)) [photo_b] ++
    map (success_row all_of_alice (p_id shop)
           (customer_name sample_db (dq_customerId all_of_alice)
            ++ "_photos_" ++ dq_stamp all_of_alice ++ ".zip")%string)
        [photo_a; photo_b] /\
  archive_entries (st_trace (run (download_all all_of_alice) sample_db)) =
    map fu_original_name [photo_a].
Proof.
  apply (download_all_completed all_of_alice sample_db shop).
  - reflexivity.
  - reflexivity.
  - reflexivity.
  - vm_compute. discriminate.
Defined.

Lemma disable_needs_reason_witness :
  st_db (run (patch_user_status disable_bob) sample_db) = sample_db.
Proof.
  apply (disable_needs_reason disable_bob sample_db); reflexivity.
Defined.
